(** * FreeIPA host plugin ([ipalib/plugins/host.py]): lifecycle rules

    A shallow embedding of the host plugin's hooks ([host.get_dn],
    [host_add.pre_callback], [host_del.pre_callback],
    [host_mod.pre_callback], [host_find.pre_callback]) over an explicit
    directory state, together with the properties the design document
    states about them. *)

From stdpp Require Import gmap strings list fin_maps.
From Stdlib Require Import Ascii String.

Local Open Scope string_scope.
Local Set Warnings "-clear-no-such-hyp".

(** ** Python string primitives used by the plugin *)

Module Py.

(** [s.endswith(c)] for a one-character suffix. *)
Fixpoint endswith_char (s : string) (c : ascii) : bool :=
  match s with
  | EmptyString => false
  | String a EmptyString => bool_decide (a = c)
  | String _ rest => endswith_char rest c
  end.


(** [s.find(c) == -1] negated: does [c] occur in [s]. *)
Fixpoint contains_char (s : string) (c : ascii) : bool :=
  match s with
  | EmptyString => false
  | String a rest => bool_decide (a = c) || contains_char rest c
  end.

(** [s.split(c, 1)[0]]: the part of [s] before the first [c]. *)
Fixpoint split_first (s : string) (c : ascii) : string :=
  match s with
  | EmptyString => EmptyString
  | String a rest =>
      if bool_decide (a = c) then EmptyString else String a (split_first rest c)
  end.

(** [s.split(c, 1)[1]] when [c] occurs in [s]. *)
Fixpoint split_rest (s : string) (c : ascii) : option string :=
  match s with
  | EmptyString => None
  | String a rest =>
      if bool_decide (a = c) then Some rest else split_rest rest c
  end.

Definition lower_char (a : ascii) : ascii :=
  let n := nat_of_ascii a in
  if (65 <=? n)%nat && (n <=? 90)%nat then ascii_of_nat (n + 32) else a.

(** [s.lower()] on ASCII text. *)
Fixpoint lower (s : string) : string :=
  match s with
  | EmptyString => EmptyString
  | String a rest => String (lower_char a) (lower rest)
  end.

(** [s.replace(old, new)] for a non-empty [old]: occurrences are found
    left to right and do not overlap.  [skip] counts the characters of
    the occurrence just replaced that are still to be passed over. *)
Fixpoint replace_from (old new : string) (skip : nat) (s : string) : string :=
  match s with
  | EmptyString => EmptyString
  | String a rest =>
      match skip with
      | S k => replace_from old new k rest
      | O =>
          if String.prefix old s
          then new ++ replace_from old new (String.length old - 1) rest
          else String a (replace_from old new 0 rest)
      end
  end.

Definition replace (old new s : string) : string := replace_from old new 0 s.

(** [sub in s] on strings. *)
Fixpoint contains (sub s : string) : bool :=
  String.prefix sub s ||
  match s with
  | EmptyString => false
  | String _ rest => contains sub rest
  end.

(** [l.remove(x)]: drops the first occurrence; [None] is [ValueError]. *)
Fixpoint list_remove (x : string) (l : list string) : option (list string) :=
  match l with
  | [] => None
  | y :: rest =>
      if bool_decide (y = x) then Some rest
      else cons y <$> list_remove x rest
  end.

End Py.

(** ** Values, entries and errors *)

(** A value of the payload dictionary [entry_attrs]: [None], a string
    (text or bytes) or a list of strings. *)
Inductive value :=
  | VNone
  | VBool (b : bool)
  | VStr (s : string)
  | VList (l : list string).

#[global] Instance value_eq_dec : EqDecision value.
Proof. solve_decision. Defined.

(** Python truthiness of a payload value. *)
Definition truthy (v : value) : bool :=
  match v with
  | VNone => false
  | VBool b => b
  | VStr s => negb (bool_decide (s = ""))
  | VList l => negb (bool_decide (l = []))
  end.

(** The exceptions that can leave the hooks.  [ACIError] and
    [GenericError] carry their message. *)
Inductive error :=
  | NotFound
  | ACIError (info : string)
  | GenericError (format : string)
  | DNSNotARecordError
  | MalformedServicePrincipal
  | CertificateError
  | DuplicateEntry
  | TypeError
  | AttributeError
  | KeyError (key : string)
  | IndexError
  | ValueError.

#[global] Instance error_eq_dec : EqDecision error.
Proof. solve_decision. Defined.

Inductive result (A : Type) :=
  | Ok (a : A)
  | Raise (e : error).
Arguments Ok {A} a.
Arguments Raise {A} e.

(** A stored directory entry: attribute name to its values. *)
Abbreviation entry := (gmap string (list string)).
(** A payload: attribute name to the value being written. *)
Abbreviation payload := (gmap string value).

(** ** The directory and the calls made on it *)

Inductive call :=
  | GetEntry (dn : string) (attrs : list string)
  | FindEntryByAttr (attr val : string)
  | FindEntries (filter : string) (attrs : list string)
  | AddEntry (dn : string) (p : payload)
  | UpdateEntry (dn : string) (p : payload)
  | DeleteEntry (dn : string)
  | ServiceFind (criteria : string) (answer : result bool)
  | ServiceDel (principal : string).

(** The answers of the service searches recorded in a trace. *)
Definition search_answers (tr : list call) : list (result bool) :=
  omap (λ c, match c with ServiceFind _ a => Some a | _ => None end) tr.

(** The state the hooks run against: the host entries in directory
    order, the principals of the stored service entries, and the calls
    issued so far, oldest first. *)
Record World := mkWorld {
  directory : list (string * entry);
  services : gset string;
  trace : list call;
}.

Definition log (c : call) (w : World) : World :=
  {| directory := directory w; services := services w;
     trace := trace w ++ [c] |}.

(** State and exception monad: an exception keeps the state reached. *)
Definition M (A : Type) : Type := World → result A * World.

#[global] Instance M_ret : MRet M := λ A a w, (Ok a, w).
#[global] Instance M_bind : MBind M := λ A B f c w,
  match c w with
  | (Ok a, w') => f a w'
  | (Raise e, w') => (Raise e, w')
  end.

#[global] Instance result_ret : MRet result := λ A a, Ok a.
#[global] Instance result_bind : MBind result := λ A B f r,
  match r with
  | Ok a => f a
  | Raise e => Raise e
  end.

Definition raise {A} (e : error) : M A := λ w, (Raise e, w).

(** [try: c  except errors.NotFound: h]. *)
Definition except_NotFound {A} (c h : M A) : M A := λ w,
  match c w with
  | (Raise NotFound, w') => h w'
  | r => r
  end.

Definition from_option {A} (e : error) (o : option A) : result A :=
  match o with
  | Some a => Ok a
  | None => Raise e
  end.

(** A pure step that may raise. *)
Definition lift {A} (r : result A) : M A := λ w, (r, w).

Fixpoint lookup_dn (dn : string) (d : list (string * entry)) : option entry :=
  match d with
  | [] => None
  | (dn', e) :: rest => if bool_decide (dn' = dn) then Some e else lookup_dn dn rest
  end.

(** The attributes a read hands back: those asked for, all of them for
    ["*"]. *)
Definition project (attrs : list string) (e : entry) : entry :=
  if bool_decide ("*" ∈ attrs) then e else filter (λ kv, kv.1 ∈ attrs) e.

(** Modelled from the spec: [ldap.get_entry] of the directory backend,
    whose code is not part of the plugin ("getEntry(identifier, fields)
    -> entry | NotFound").  The entry comes back with the requested
    attributes only. *)
Definition get_entry (dn : string) (attrs : list string) : M (string * entry) := λ w,
  match lookup_dn dn (directory w) with
  | Some e => (Ok (dn, project attrs e), log (GetEntry dn attrs) w)
  | None => (Raise NotFound, log (GetEntry dn attrs) w)
  end.

Definition has_value (attr val : string) (e : entry) : bool :=
  match e !! attr with
  | Some vs => bool_decide (val ∈ vs)
  | None => false
  end.

Definition has_classes (classes : list string) (e : entry) : bool :=
  forallb (λ c, has_value "objectclass" c e) classes.

Fixpoint first_match (attr val : string) (classes : list string)
    (d : list (string * entry)) : option (string * entry) :=
  match d with
  | [] => None
  | (dn, e) :: rest =>
      if has_value attr val e && has_classes classes e then Some (dn, e)
      else first_match attr val classes rest
  end.

(** Modelled from the spec: [ldap.find_entry_by_attr] of the directory
    backend ("findByAttribute(attributeName, value, objectClasses,
    fields, scope) -> entry | NotFound", "return the first match").
    Every host entry of the directory lies in the search scope. *)
Definition find_entry_by_attr (attr val : string) (classes attrs : list string)
    (scope : string) : M (string * entry) := λ w,
  match first_match attr val classes (directory w) with
  | Some (dn, e) => (Ok (dn, project attrs e), log (FindEntryByAttr attr val) w)
  | None => (Raise NotFound, log (FindEntryByAttr attr val) w)
  end.

(** Modelled from the spec: how the directory backend stores what a
    payload writes (its code is not part of the plugin).  A stored
    attribute holds a list of values; writing [None] or an empty list
    removes the attribute. *)
Definition stored_values (v : value) : option (list string) :=
  match v with
  | VNone => None
  | VBool b => Some [if b then "TRUE" else "FALSE"]
  | VStr s => Some [s]
  | VList [] => None
  | VList l => Some l
  end.

(** Modelled from the spec: the entry a payload leaves when written
    over a stored entry, attribute by attribute. *)
Definition apply_payload (p : payload) (e : entry) : entry :=
  map_fold (λ k v acc,
    match stored_values v with
    | Some vs => <[k := vs]> acc
    | None => delete k acc
    end) e p.

Fixpoint replace_dn (dn : string) (e : entry) (d : list (string * entry))
    : list (string * entry) :=
  match d with
  | [] => []
  | (dn', e') :: rest =>
      if bool_decide (dn' = dn) then (dn, e) :: rest
      else (dn', e') :: replace_dn dn e rest
  end.

Definition remove_dn (dn : string) (d : list (string * entry))
    : list (string * entry) :=
  filter (λ de, de.1 ≠ dn) d.

Definition set_directory (d : list (string * entry)) (w : World) : World :=
  {| directory := d; services := services w; trace := trace w |}.

Definition set_services (s : gset string) (w : World) : World :=
  {| directory := directory w; services := s; trace := trace w |}.

(** Modelled from the spec: [ldap.add_entry] ("createEntry"); the new
    entry goes to the end of the directory. *)
Definition add_entry (dn : string) (p : payload) : M unit := λ w,
  let w' := log (AddEntry dn p) w in
  match lookup_dn dn (directory w) with
  | Some _ => (Raise DuplicateEntry, w')
  | None => (Ok (), set_directory (directory w ++ [(dn, apply_payload p ∅)]) w')
  end.

(** Modelled from the spec: [ldap.update_entry] ("updateEntry"). *)
Definition update_entry (dn : string) (p : payload) : M unit := λ w,
  let w' := log (UpdateEntry dn p) w in
  match lookup_dn dn (directory w) with
  | Some e => (Ok (), set_directory (replace_dn dn (apply_payload p e) (directory w)) w')
  | None => (Raise NotFound, w')
  end.

(** Modelled from the spec: [ldap.delete_entry]
    ("deleteEntry(identifier)"). *)
Definition delete_entry (dn : string) : M unit := λ w,
  let w' := log (DeleteEntry dn) w in
  match lookup_dn dn (directory w) with
  | Some _ => (Ok (), set_directory (remove_dn dn (directory w)) w')
  | None => (Raise NotFound, w')
  end.

(** ** Dictionary and list operations on payload values *)

(** [d[k]]. *)
Definition getitem {V} (d : gmap string V) (k : string) : result V :=
  from_option (KeyError k) (d !! k).

(** [l[0]]. *)
Definition first {A} (l : list A) : result A :=
  from_option IndexError (head l).

(** [x in v]. *)
Definition py_in (x : string) (v : value) : result bool :=
  match v with
  | VList l => Ok (bool_decide (x ∈ l))
  | VStr s => Ok (Py.contains x s)
  | VNone | VBool _ => Raise TypeError
  end.

(** [v.append(x)]. *)
Definition py_append (x : string) (v : value) : result value :=
  match v with
  | VList l => Ok (VList (l ++ [x]))
  | _ => Raise AttributeError
  end.

(** [v.remove(x)]. *)
Definition py_remove (x : string) (v : value) : result value :=
  match v with
  | VList l => l' ← from_option ValueError (Py.list_remove x l); Ok (VList l')
  | _ => Raise AttributeError
  end.

(** [v[0]] on a payload value. *)
Definition py_first (v : value) : result string :=
  match v with
  | VList l => first l
  | VStr (String a _) => Ok (String a EmptyString)
  | VStr EmptyString => Raise IndexError
  | VNone | VBool _ => Raise TypeError
  end.

(** ** What the plugin imports *)

(** A parsed certificate, as [x509.load_certificate] and the [nss]
    digests present it to [host_show]. *)
Record certificate := mkCertificate {
  subject : string;
  serial_number : string;
  issuer : string;
  valid_not_before_str : string;
  valid_not_after_str : string;
  md5_fingerprint : string;
  sha1_fingerprint : string;
}.

(** The environment and the collaborators the plugin calls but does not
    define: configuration ([api.env]), the generic identifier
    construction, the DNS check, certificate parsing, base64, the text
    filter of the directory search, and the service plugin. *)
Class Collaborators := {
  (** [api.env.container_host] *)
  container_dn : string;
  (** [api.env.realm] *)
  realm : string;
  (** [LDAPObject.get_dn]: the identifier built directly from the keys *)
  super_get_dn : list string → string;
  (** [util.validate_host_dns] succeeds *)
  dns_resolvable : string → bool;
  (** [x509.load_certificate(der, datatype=x509.DER)] *)
  load_certificate : string → option certificate;
  (** [base64.b64decode]; [None] is its [TypeError] *)
  b64decode : string → option string;
  (** does an entry satisfy a search filter given as text *)
  filter_matches : string → entry → bool;
  (** [split_principal] of the service plugin *)
  split_principal : string → result (string * string * string);
  (** the answer of [service_find] to a search text, given the calls
      made so far and the stored services: the page and its
      [truncated] flag *)
  service_search : list call → string → gset string → result (list entry * bool);
}.

Section Host.

Context `{env : Collaborators}.

(** [x509.get_serial_number(der, x509.DER)], the serial number of the
    parsed certificate, as ['%s'] prints it. *)
Definition get_serial_number (der : string) : result string :=
  cert ← from_option CertificateError (load_certificate der);
  Ok (serial_number cert).

(** *** [class host] *)

(** The list the class declares as [object_class].  It is one list
    object for the whole process: [host_add.pre_callback] appends to it
    and removes from it, so what [self.object_class] holds when a
    command runs is passed along as [shared]. *)
Definition object_class : list string :=
  ["ipaobject"; "nshost"; "ipahost"; "pkiuser"; "ipaservice"].

Definition default_attributes : list string :=
  ["fqdn"; "description"; "l"; "nshostlocation"; "krbprincipalname";
   "nshardwareplatform"; "nsosversion"; "usercertificate"; "memberof";
   "krblastpwdchange"].

(** [validate_host]: the message when the name has no dot, else [None]. *)
Definition validate_host (fqdn : string) : option string :=
  if Py.contains_char fqdn "." then None
  else Some "Fully-qualified hostname required".

(** [keys[-1]]. *)
Definition last_key (keys : list string) : result string :=
  from_option IndexError (last keys).

(** [host.get_dn].  [keys] is the tuple of positional arguments; the
    statement [keys[-1] = keys[-1][:-1]] assigns to an item of that
    tuple, which Python refuses with [TypeError].  [shared] is the
    content of [self.object_class] at the time of the call. *)
Definition get_dn (shared : list string) (keys : list string) : M string :=
  key ← lift (last_key keys);
  _ ← (if Py.endswith_char key "."
       then raise TypeError
       else mret ());
  let dn := super_get_dn keys in
  except_NotFound
    (_ ← get_entry dn [""]; mret dn)
    (except_NotFound
       ('(dn', _) ← find_entry_by_attr "serverhostname" key shared [""] container_dn;
        mret dn')
       (mret dn)).

(** The alias step shared by [host_add] and [host_mod]:
    [if 'locality' in entry_attrs: entry_attrs['l'] = entry_attrs['locality'];
     del entry_attrs['locality']]. *)
Definition alias_locality (entry_attrs : payload) : payload :=
  match entry_attrs !! "locality" with
  | Some v => delete "locality" (<["l" := v]> entry_attrs)
  | None => entry_attrs
  end.

(** *** [host_add.pre_callback] *)

(** The object classes branch of [host_add.pre_callback], on the list
    object held in [entry_attrs['objectclass']]. *)
Definition host_add_objectclass (has_password : bool) (oc : value) : result value :=
  present ← py_in "krbprincipalaux" oc;
  if negb has_password then
    if negb present then
      oc1 ← py_append "krbprincipalaux" oc;
      py_append "krbprincipal" oc1
    else Ok oc
  else
    if present then py_remove "krbprincipalaux" oc
    else Ok oc.

Definition host_add_pre_callback (force : bool) (dn : string)
    (entry_attrs : payload) (keys : list string) : result (string * payload) :=
  _ ← (if negb force then
         key ← last_key keys;
         if dns_resolvable key then Ok () else Raise DNSNotARecordError
       else Ok ());
  let entry_attrs := alias_locality entry_attrs in
  key ← last_key keys;
  let entry_attrs := <["cn" := VStr key]> entry_attrs in
  let entry_attrs := <["serverhostname" := VStr (Py.split_first key ".")]> entry_attrs in
  entry_attrs ←
    (if bool_decide (entry_attrs !! "userpassword" = None) then
       let entry_attrs :=
         <["krbprincipalname" := VStr ("host/" ++ key ++ "@" ++ realm)]> entry_attrs in
       oc ← getitem entry_attrs "objectclass";
       oc' ← host_add_objectclass false oc;
       Ok (<["objectclass" := oc']> entry_attrs)
     else
       oc ← getitem entry_attrs "objectclass";
       oc' ← host_add_objectclass true oc;
       Ok (<["objectclass" := oc']> entry_attrs));
  let entry_attrs := <["managedby" := VStr dn]> entry_attrs in
  Ok (dn, entry_attrs).

(** *** [host_mod.pre_callback] *)

Definition principal_unchangeable : string :=
  "Principal name already set, it is unchangeable.".

Definition already_has_certificate (serial : string) : string :=
  "entry already has a certificate, serial number: " ++ serial.

(** The principal step: lines of [if 'krbprincipalname' in entry_attrs]. *)
Definition host_mod_principal (dn : string) (entry_attrs : payload)
    : M (string * payload) :=
  if bool_decide (is_Some (entry_attrs !! "krbprincipalname")) then
    '(dn, entry_attrs_old) ← get_entry dn ["objectclass"; "krbprincipalname"];
    if bool_decide (is_Some (entry_attrs_old !! "krbprincipalname")) then
      raise (ACIError principal_unchangeable)
    else
      obj_classes ← lift (getitem entry_attrs_old "objectclass");
      if negb (bool_decide ("krbprincipalaux" ∈ obj_classes)) then
        mret (dn, <["objectclass" := VList (obj_classes ++ ["krbprincipalaux"])]> entry_attrs)
      else mret (dn, entry_attrs)
  else mret (dn, entry_attrs).

(** The certificate step: from [cert = entry_attrs.get('usercertificate')]. *)
Definition host_mod_certificate (dn : string) (entry_attrs : payload)
    : M (string * payload) :=
  let cert := default VNone (entry_attrs !! "usercertificate") in
  if truthy cert then
    '(dn, entry_attrs_old) ← get_entry dn ["usercertificate"];
    if bool_decide (is_Some (entry_attrs_old !! "usercertificate")) then
      serial ← lift (stored ← getitem entry_attrs_old "usercertificate";
                     der ← first stored;
                     get_serial_number der);
      raise (GenericError (already_has_certificate serial))
    else
      decoded ← lift (match cert with
                      | VStr s => from_option TypeError (b64decode s)
                      | _ => Raise TypeError
                      end);
      mret (dn, <["usercertificate" := VStr decoded]> entry_attrs)
  else mret (dn, entry_attrs).

Definition host_mod_pre_callback (dn : string) (entry_attrs : payload)
    (keys : list string) : M (string * payload) :=
  let entry_attrs := alias_locality entry_attrs in
  '(dn, entry_attrs) ← host_mod_principal dn entry_attrs;
  host_mod_certificate dn entry_attrs.

(** *** [host_show.post_callback] *)

Definition attach_certificate (cert : certificate) (entry_attrs : payload) : payload :=
  let entry_attrs := <["subject" := VStr (subject cert)]> entry_attrs in
  let entry_attrs := <["serial_number" := VStr (serial_number cert)]> entry_attrs in
  let entry_attrs := <["issuer" := VStr (issuer cert)]> entry_attrs in
  let entry_attrs := <["valid_not_before" := VStr (valid_not_before_str cert)]> entry_attrs in
  let entry_attrs := <["valid_not_after" := VStr (valid_not_after_str cert)]> entry_attrs in
  let entry_attrs := <["md5_fingerprint" := VStr (md5_fingerprint cert)]> entry_attrs in
  <["sha1_fingerprint" := VStr (sha1_fingerprint cert)]> entry_attrs.

Definition host_show_post_callback (dn : string) (entry_attrs : payload)
    (all : bool) : result (string * payload) :=
  let entry_attrs :=
    if bool_decide (is_Some (entry_attrs !! "krblastpwdchange")) then
      let entry_attrs := <["has_keytab" := VBool true]> entry_attrs in
      if negb all then delete "krblastpwdchange" entry_attrs else entry_attrs
    else <["has_keytab" := VBool false]> entry_attrs in
  match entry_attrs !! "usercertificate" with
  | Some stored =>
      der ← py_first stored;
      cert ← from_option CertificateError (load_certificate der);
      Ok (dn, attach_certificate cert entry_attrs)
  | None => Ok (dn, entry_attrs)
  end.

(** Modelled from the spec: [LDAPRetrieve.execute], the generic read
    command [host_show] inherits (section 4.4: resolve the key, call the
    backend, run the post-hook, return the entry). *)
Definition host_show (shared : list string) (keys : list string) (all : bool)
    : M payload :=
  dn ← get_dn shared keys;
  '(dn, e) ← get_entry dn (if all then ["*"] else default_attributes);
  '(_, entry_attrs) ← lift (host_show_post_callback dn (VList <$> e) all);
  mret entry_attrs.

(** *** [host_del.pre_callback] *)

(** [api.Command['service_find'](fqdn)]: the answer is the
    collaborator's; the call and its [truncated] flag are recorded. *)
Definition service_find (fqdn : string) : M (list entry * bool) := λ w,
  let r := service_search (trace w) fqdn (services w) in
  let flag := match r with Ok (_, t) => Ok t | Raise e => Raise e end in
  (r, log (ServiceFind fqdn flag) w).

(** Modelled from the spec: [service_del] of the service plugin, as far
    as the stored services go ("deleteEntry(identifier)"): the service
    with this principal is removed, [NotFound] when there is none. *)
Definition service_del (principal : string) : M unit := λ w,
  let w' := log (ServiceDel principal) w in
  if bool_decide (principal ∈ services w)
  then (Ok (), set_services (services w ∖ {[principal]}) w')
  else (Raise NotFound, w').

(** The [for entry_attrs in services] loop. *)
Fixpoint delete_services (fqdn : string) (found : list entry) : M unit :=
  match found with
  | [] => mret ()
  | entry_attrs :: rest =>
      principal ← lift (names ← getitem entry_attrs "krbprincipalname"; first names);
      '(service, hostname, realm) ← lift (split_principal principal);
      _ ← (if bool_decide (Py.lower hostname = fqdn)
           then service_del principal
           else mret ());
      delete_services fqdn rest
  end.

(** The [while truncated] loop.  [fuel] bounds the number of searches;
    [None] means the loop is still running when the bound is reached. *)
Fixpoint cascade (fuel : nat) (fqdn : string) (w : World)
    : option (result unit * World) :=
  match fuel with
  | O => None
  | S fuel' =>
      match service_find fqdn w with
      | (Raise NotFound, w1) => Some (Ok (), w1)
      | (Raise e, w1) => Some (Raise e, w1)
      | (Ok (found, truncated), w1) =>
          match delete_services fqdn found w1 with
          | (Raise e, w2) => Some (Raise e, w2)
          | (Ok _, w2) =>
              if truncated then cascade fuel' fqdn w2 else Some (Ok (), w2)
          end
      end
  end.

(** The first lines of [host_del.pre_callback]: the name compared with
    the service principals. *)
Definition host_del_fqdn (shared : list string) (keys : list string) : M string :=
  key ← lift (last_key keys);
  if bool_decide (validate_host key ≠ None) then
    hostentry ← host_show shared [key] false;
    lift (names ← getitem hostentry "fqdn"; py_first names)
  else mret key.

Definition host_del_pre_callback (shared : list string) (fuel : nat) (dn : string)
    (keys : list string) (w : World) : option (result string * World) :=
  match host_del_fqdn shared keys w with
  | (Raise e, w1) => Some (Raise e, w1)
  | (Ok fqdn, w1) =>
      match cascade fuel fqdn w1 with
      | Some (Ok _, w2) => Some (Ok dn, w2)
      | Some (Raise e, w2) => Some (Raise e, w2)
      | None => None
      end
  end.

(** *** [host_find.pre_callback] *)


(** ** The generic commands around the hooks *)






(** Modelled from the spec: [LDAPUpdate.execute] as [host_mod] runs it
    (section 4.4: resolve the key, pre-hook, backend update). *)
Definition host_mod (shared : list string) (keys : list string)
    (entry_attrs : payload) : M string :=
  dn ← get_dn shared keys;
  '(dn, entry_attrs) ← host_mod_pre_callback dn entry_attrs keys;
  _ ← update_entry dn entry_attrs;
  mret dn.

(** Modelled from the spec: [LDAPCreate.execute] as [host_add] runs it
    (section 4.4, and section 9: the object class list handed to the
    hook is the shared list object of the [host] class, so what the hook
    appends or removes stays in it).  [shared] is the content of that
    list before the command, the result its content afterwards. *)
Definition host_add (shared : list string) (force : bool) (keys : list string)
    (entry_attrs : payload) : M (list string) :=
  dn ← get_dn shared keys;
  let entry_attrs := <["objectclass" := VList shared]> entry_attrs in
  '(dn, entry_attrs) ← lift (host_add_pre_callback force dn entry_attrs keys);
  _ ← add_entry dn entry_attrs;
  mret (match entry_attrs !! "objectclass" with
        | Some (VList l) => l
        | _ => shared
        end).

(** Modelled from the spec: [LDAPDelete.execute] as [host_del] runs it
    (section 4.5: "Only after the cascade completes does the pipeline
    delete the host entry itself"). *)
Definition host_del (shared : list string) (fuel : nat) (keys : list string)
    (w : World) : option (result string * World) :=
  match get_dn shared keys w with
  | (Raise e, w1) => Some (Raise e, w1)
  | (Ok dn, w1) =>
      match host_del_pre_callback shared fuel dn keys w1 with
      | Some (Ok dn, w2) =>
          Some ((_ ← delete_entry dn; mret dn) w2)
      | other => other
      end
  end.

(** *** [host_disable.execute] *)

Definition key_attributes : payload :=
  {[ "krbprincipalkey" := VNone; "krblastpwdchange" := VNone ]}.

(** Modelled from the spec: [ldap.remove_principal_key] of the directory
    backend ("removeKeyMaterial(identifier) -> fails NotFound if none
    present"): the key attributes of the entry are cleared. *)
Definition remove_principal_key (dn : string) : M unit := λ w,
  match lookup_dn dn (directory w) with
  | Some e =>
      if bool_decide (is_Some (e !! "krblastpwdchange"))
      then update_entry dn key_attributes w
      else (Raise NotFound, log (UpdateEntry dn key_attributes) w)
  | None => (Raise NotFound, log (UpdateEntry dn key_attributes) w)
  end.

(** [host_disable.execute]; the answer [dict(result=True, value=keys[0])]
    is the pair of its two values.  The [NotFound] it raises itself
    carries the reason "Host principal has no kerberos key". *)
Definition host_disable (shared : list string) (keys : list string)
    : M (bool * string) :=
  dn ← get_dn shared keys;
  '(dn, entry_attrs) ← get_entry dn ["krblastpwdchange"];
  if negb (bool_decide (is_Some (entry_attrs !! "krblastpwdchange"))) then
    raise NotFound
  else
    _ ← remove_principal_key dn;
    value ← lift (first keys);
    mret (true, value).

End Host.

(** ** A concrete environment

    Simple stand-ins for the collaborators, used to run the hooks on
    concrete inputs. *)

Module Sample.

Definition container : string := "cn=computers,cn=accounts,dc=example,dc=com".

Definition make_dn (keys : list string) : string :=
  "fqdn=" ++ default "" (last keys) ++ "," ++ container.

(** The value of a character of the base64 alphabet. *)
Definition b64_value (a : ascii) : option N :=
  let n := N_of_ascii a in
  if (65 <=? n)%N && (n <=? 90)%N then Some (n - 65)%N
  else if (97 <=? n)%N && (n <=? 122)%N then Some (n - 71)%N
  else if (48 <=? n)%N && (n <=? 57)%N then Some (n + 4)%N
  else if (n =? 43)%N then Some 62%N
  else if (n =? 47)%N then Some 63%N
  else None.

Definition byte_string (ns : list N) : string :=
  foldr (λ n acc, String (ascii_of_N n) acc) EmptyString ns.

(** A strict base64 decoder: groups of four characters, with [=]
    padding in the last group only. *)
Fixpoint b64decode_chars (l : list ascii) : option string :=
  match l with
  | [] => Some EmptyString
  | [a; b; c; d] =>
      match b64_value a, b64_value b with
      | Some x, Some y =>
          if bool_decide (c = "="%char) && bool_decide (d = "="%char) then
            Some (byte_string [(x * 4 + y / 16) mod 256])%N
          else
            match b64_value c with
            | Some z =>
                if bool_decide (d = "="%char) then
                  Some (byte_string [(x * 4 + y / 16) mod 256;
                                     (y * 16 + z / 4) mod 256])%N
                else
                  match b64_value d with
                  | Some t =>
                      Some (byte_string [(x * 4 + y / 16) mod 256;
                                         (y * 16 + z / 4) mod 256;
                                         (z * 64 + t) mod 256])%N
                  | None => None
                  end
            | None => None
            end
      | _, _ => None
      end
  | a :: b :: c :: d :: rest =>
      match b64_value a, b64_value b, b64_value c, b64_value d with
      | Some x, Some y, Some z, Some t =>
          tail ← b64decode_chars rest;
          Some (byte_string [(x * 4 + y / 16) mod 256;
                             (y * 16 + z / 4) mod 256;
                             (z * 64 + t) mod 256] ++ tail)%N
      | _, _, _, _ => None
      end
  | _ => None
  end.

Definition decode_base64 (s : string) : option string :=
  b64decode_chars (list_ascii_of_string s).

(** Certificates known to the sample parser, by their DER text. *)
Definition parse_certificate (der : string) : option certificate :=
  if bool_decide (der = "DER-1001") then
    Some {| subject := "CN=h.example.com,O=EXAMPLE.COM";
            serial_number := "1001";
            issuer := "CN=Certificate Authority,O=EXAMPLE.COM";
            valid_not_before_str := "Mon Jan 04 00:00:00 2010 UTC";
            valid_not_after_str := "Sat Jan 04 00:00:00 2020 UTC";
            md5_fingerprint := "1b:2c";
            sha1_fingerprint := "3d:4e" |}
  else None.

(** "service/hostname@realm" into its three parts; the realm defaults
    to the configured one. *)
Definition parse_principal (default_realm principal : string)
    : result (string * string * string) :=
  match Py.split_rest principal "/" with
  | None => Raise MalformedServicePrincipal
  | Some rest =>
      if Py.contains_char rest "/" then Raise MalformedServicePrincipal
      else
        match Py.split_rest rest "@" with
        | None => Ok (Py.split_first principal "/", Py.lower rest, default_realm)
        | Some r =>
            if Py.contains_char r "@" then Raise MalformedServicePrincipal
            else Ok (Py.split_first principal "/",
                     Py.lower (Py.split_first rest "@"), r)
        end
  end.

Definition service_entry (principal : string) : entry :=
  {[ "krbprincipalname" := [principal] ]}.

(** A service search with a size limit: the first [sizelimit] services
    in [scope] of the search text, flagged truncated when there are
    more. *)
Definition paged_search (scope : string → string → bool) (sizelimit : nat)
    (_ : list call) (text : string) (stored : gset string)
    : result (list entry * bool) :=
  let hits := List.filter (scope text) (elements stored) in
  Ok (service_entry <$> take sizelimit hits, (sizelimit <? List.length hits)%nat).

(** The services of a host: those whose principal names it. *)
Definition of_host (text principal : string) : bool :=
  match parse_principal "EXAMPLE.COM" principal with
  | Ok (_, hostname, _) => bool_decide (Py.lower hostname = text)
  | Raise _ => false
  end.

(** A text search: the principals that contain the search text. *)
Definition mentions (text principal : string) : bool :=
  Py.contains text principal.

(** A search that answers from a script, by the number of searches
    made before; past the end of the script, an empty last page. *)
Definition scripted (script : list (list entry * bool))
    (tr : list call) (_ : string) (_ : gset string)
    : result (list entry * bool) :=
  Ok (default ([], false) (script !! List.length (search_answers tr))).

(** A search that answers every call with an empty truncated page. *)
Definition always_truncated (_ : list call) (_ : string) (_ : gset string)
    : result (list entry * bool) :=
  Ok ([], true).

Definition env_with
    (search : list call → string → gset string → result (list entry * bool))
    : Collaborators :=
  {| container_dn := container;
     realm := "EXAMPLE.COM";
     super_get_dn := make_dn;
     dns_resolvable := λ _, true;
     load_certificate := parse_certificate;
     b64decode := decode_base64;
     filter_matches := λ _ _, true;
     split_principal := parse_principal "EXAMPLE.COM";
     service_search := search |}.

Definition env : Collaborators := env_with (paged_search of_host 2).

(** The same environment with no name resolving in DNS. *)
Definition env_offline : Collaborators :=
  {| container_dn := container;
     realm := "EXAMPLE.COM";
     super_get_dn := make_dn;
     dns_resolvable := λ _, false;
     load_certificate := parse_certificate;
     b64decode := decode_base64;
     filter_matches := λ _ _, true;
     split_principal := parse_principal "EXAMPLE.COM";
     service_search := paged_search of_host 2 |}.

Definition host_entry (fqdn : string) (extra : entry) : string * entry :=
  (make_dn [fqdn],
   extra ∪ {[ "fqdn" := [fqdn];
              "serverhostname" := [Py.split_first fqdn "."];
              "objectclass" := object_class ]}).

Definition world (d : list (string * entry)) (s : gset string) : World :=
  {| directory := d; services := s; trace := [] |}.

(** Two services of "h.example.com" and one of another host. *)
Definition three_services : gset string :=
  {[ "HTTP/h.example.com@EXAMPLE.COM"; "ldap/h.example.com@EXAMPLE.COM";
     "HTTP/other.example.com@EXAMPLE.COM" ]}.

End Sample.

(** ** Vocabulary of the properties *)

(** Which calls of a trace write to the directory. *)
Definition is_update (c : call) : bool :=
  match c with
  | UpdateEntry _ _ => true
  | _ => false
  end.

Definition updates (w : World) : list call := List.filter is_update (trace w).

(** The object classes [host_add] appends with a principal. *)
Definition kerberos_markers : list string := ["krbprincipalaux"; "krbprincipal"].

(** The object classes of a stored entry. *)
Definition entry_classes (e : entry) : list string :=
  default [] (e !! "objectclass").


Section Documented.

Context `{env : Collaborators}.

(** The resolver as the design document words it, to compare [get_dn]
    with: "if direct resolution by primary key fails, retry by matching
    a secondary short name attribute derived from the key's first label
    before the first dot; return the first match or NotFound".  The
    object classes searched for are those [get_dn] is given. *)
Definition resolve_as_documented (shared : list string) (keys : list string)
    : M string :=
  key ← lift (last_key keys);
  let dn := super_get_dn keys in
  except_NotFound
    (_ ← get_entry dn [""]; mret dn)
    ('(dn', _) ← find_entry_by_attr "serverhostname" (Py.split_first key ".")
                   shared [""] container_dn;
     mret dn').

End Documented.

(** Does a stored entry carry an object class. *)
Definition has_class (c : string) (e : entry) : bool :=
  bool_decide (c ∈ entry_classes e).

(** An answer that ends the [while] loop normally. *)
Definition final_answer (a : result bool) : Prop :=
  a = Ok false ∨ a = Raise NotFound.

Section Cascade.

Context `{env : Collaborators}.

(** The host a service principal names, in lower case. *)
Definition hostname_of (principal : string) : option string :=
  match split_principal principal with
  | Ok (_, hostname, _) => Some (Py.lower hostname)
  | Raise _ => None
  end.

(** A service of host [fqdn]: the test [host_del] makes. *)
Definition dependent (fqdn principal : string) : Prop :=
  hostname_of principal = Some fqdn.

(** An entry of a page names this principal first. *)
Definition lists (found : list entry) (principal : string) : Prop :=
  ∃ e rest, e ∈ found ∧ e !! "krbprincipalname" = Some (principal :: rest).

(** What the cascade relies on from the service search: a page that is
    not truncated lists every stored service of the host, and "no
    results" is answered only when the host has none. *)
Definition search_complete (fqdn : string) : Prop :=
  ∀ tr stored,
    match service_search tr fqdn stored with
    | Ok (found, false) =>
        ∀ p, p ∈ stored → dependent fqdn p → lists found p
    | Raise NotFound => ∀ p, p ∈ stored → ¬ dependent fqdn p
    | _ => True
    end.

(** The entries of a page name the principals [page], one each and in
    this order. *)
Definition names (found : list entry) (page : list string) : Prop :=
  Forall2 (λ (e : entry) p, ∃ rest, e !! "krbprincipalname" = Some (p :: rest))
          found page.

(** What else the cascade relies on from the service search: it fails
    with [NotFound] only; its pages name stored services that
    [split_principal] accepts, none of them twice; and a page flagged
    truncated names at least one service of the host. *)
Definition search_reliable (fqdn : string) : Prop :=
  ∀ tr stored,
    match service_search tr fqdn stored with
    | Ok (found, truncated) =>
        ∃ page,
          names found page
          ∧ NoDup page
          ∧ (∀ p, p ∈ page → p ∈ stored ∧ is_Some (hostname_of p))
          ∧ (truncated = true → ∃ p, p ∈ page ∧ dependent fqdn p)
    | Raise NotFound => True
    | Raise _ => False
    end.

(** From the [n]-th search on, the search flags no page as truncated. *)
Definition settles_after (n : nat) (fqdn : string) : Prop :=
  ∀ tr stored,
    (n ≤ List.length (search_answers tr))%nat →
    ∀ found, service_search tr fqdn stored ≠ Ok (found, true).

(** The cascade comes to an end on some bound. *)
Definition terminates (fqdn : string) (w : World) : Prop :=
  ∃ fuel, cascade fuel fqdn w ≠ None.

(** What the design document says of a delete, for the host [fqdn]
    stored under [dn] and named by [key]: the delete returns, the
    services of the host are gone, the other services are left, and the
    host entry is gone. *)
Definition deleted_with_services (shared : list string) (key fqdn dn : string)
    (w : World) : Prop :=
  ∃ fuel w',
    host_del shared fuel [key] w = Some (Ok dn, w')
    ∧ (∀ p, p ∈ services w' ↔ p ∈ services w ∧ ¬ dependent fqdn p)
    ∧ lookup_dn dn (directory w') = None.

End Cascade.

(** [host_show]'s post hook can read the certificate of a stored
    entry: the entry has none, or the first one parses. *)
Definition certificate_readable `{env : Collaborators} (e : entry) : Prop :=
  match e !! "usercertificate" with
  | None => True
  | Some [] => False
  | Some (der :: _) => is_Some (load_certificate der)
  end.

(** Two directories that resolve keys alike: the same identifiers in
    the same order, each with the same short names and object classes. *)
Definition resolves_alike (d d' : list (string * entry)) : Prop :=
  Forall2 (λ de de' : string * entry,
             de.1 = de'.1
             ∧ de.2 !! "serverhostname" = de'.2 !! "serverhostname"
             ∧ de.2 !! "objectclass" = de'.2 !! "objectclass") d d'.

(** ** Properties *)

(** *** Preliminaries: the monad, the directory primitives *)

Ltac unfold_monad :=
  unfold mbind, M_bind, result_bind, mret, M_ret, result_ret, lift, raise,
    except_NotFound in *.

Lemma project_lookup_in (attrs : list string) (e : entry) (k : string) :
  k ∈ attrs → project attrs e !! k = e !! k.
Proof.
  intros Hin. unfold project. case_bool_decide; [done |].
  destruct (e !! k) as [vs |] eqn:Hk.
  - apply map_lookup_filter_Some_2; done.
  - apply map_lookup_filter_None_2. by left.
Qed.

Lemma project_lookup_out (attrs : list string) (e : entry) (k : string) :
  "*" ∉ attrs → k ∉ attrs → project attrs e !! k = None.
Proof.
  intros Hstar Hout. unfold project. rewrite bool_decide_eq_false_2 by done.
  apply map_lookup_filter_None_2. right. intros vs _. done.
Qed.

Lemma get_entry_found (dn : string) (attrs : list string) (w : World) (e : entry) :
  lookup_dn dn (directory w) = Some e →
  get_entry dn attrs w = (Ok (dn, project attrs e), log (GetEntry dn attrs) w).
Proof. intros H. unfold get_entry. by rewrite H. Qed.

Lemma get_entry_missing (dn : string) (attrs : list string) (w : World) :
  lookup_dn dn (directory w) = None →
  get_entry dn attrs w = (Raise NotFound, log (GetEntry dn attrs) w).
Proof. intros H. unfold get_entry. by rewrite H. Qed.

Lemma alias_locality_lookup (entry_attrs : payload) (k : string) :
  k ≠ "locality" → k ≠ "l" →
  alias_locality entry_attrs !! k = entry_attrs !! k.
Proof.
  intros H1 H2. unfold alias_locality.
  destruct (entry_attrs !! "locality"); [| done].
  rewrite lookup_delete_ne by done. by rewrite lookup_insert_ne.
Qed.

Lemma updates_log (c : call) (w : World) :
  is_update c = false → updates (log c w) = updates w.
Proof.
  intros H. unfold updates, log. simpl.
  rewrite List.filter_app. simpl. rewrite H. by rewrite app_nil_r.
Qed.

Section Properties.

Context `{env : Collaborators}.

(** What [self.object_class] holds when the command under study starts. *)
Variable shared : list string.

(** Resolution reads the directory and never writes it. *)
Lemma get_dn_reads (keys : list string) (w : World) :
  directory (get_dn shared keys w).2 = directory w ∧
  services (get_dn shared keys w).2 = services w ∧
  updates (get_dn shared keys w).2 = updates w.
Proof.
  unfold get_dn, last_key, from_option. unfold_monad.
  destruct (last keys) as [key |]; [| done].
  destruct (Py.endswith_char key "."); [done |].
  unfold get_entry.
  destruct (lookup_dn _ _); simpl; [by rewrite updates_log |].
  unfold find_entry_by_attr. simpl.
  destruct (first_match _ _ _ _) as [[dn' e'] |]; simpl;
    by rewrite !updates_log.
Qed.

(** What [get_dn] answers for a key without a trailing dot: the direct
    identifier when an entry is stored under it, else the identifier of
    the first entry whose [serverhostname] is the key, else the direct
    identifier again. *)
Lemma get_dn_value (keys : list string) (key : string) (w : World) :
  last keys = Some key →
  Py.endswith_char key "." = false →
  (get_dn shared keys w).1 =
    Ok (match lookup_dn (super_get_dn keys) (directory w) with
        | Some _ => super_get_dn keys
        | None =>
            match first_match "serverhostname" key shared (directory w) with
            | Some (dn', _) => dn'
            | None => super_get_dn keys
            end
        end).
Proof.
  intros Hlast Hdot. unfold get_dn, last_key, from_option. unfold_monad.
  rewrite Hlast, Hdot. unfold get_entry.
  destruct (lookup_dn _ _); [done |].
  unfold find_entry_by_attr. simpl.
  destruct (first_match _ _ _ _) as [[dn' e'] |]; done.
Qed.

(** A key that ends in a dot stops [get_dn] at the tuple assignment. *)
Lemma get_dn_trailing_dot (keys : list string) (key : string) (w : World) :
  last keys = Some key →
  Py.endswith_char key "." = true →
  get_dn shared keys w = (Raise TypeError, w).
Proof.
  intros Hlast Hdot. unfold get_dn, last_key, from_option. unfold_monad.
  by rewrite Hlast, Hdot.
Qed.

Lemma host_mod_certificate_no_ACIError (dn : string) (entry_attrs : payload)
    (w : World) (info : string) :
  (host_mod_certificate dn entry_attrs w).1 ≠ Raise (ACIError info).
Proof.
  unfold host_mod_certificate, get_serial_number, getitem, first, from_option.
  unfold_monad. unfold get_entry.
  repeat case_match; simplify_eq/=; try done.
Qed.

Lemma host_mod_certificate_reads (dn : string) (entry_attrs : payload) (w : World) :
  directory (host_mod_certificate dn entry_attrs w).2 = directory w ∧
  services (host_mod_certificate dn entry_attrs w).2 = services w ∧
  updates (host_mod_certificate dn entry_attrs w).2 = updates w.
Proof.
  unfold host_mod_certificate, get_serial_number, getitem, first, from_option.
  unfold_monad. unfold get_entry.
  repeat case_match; simplify_eq/=; rewrite ?updates_log; done.
Qed.

Lemma host_mod_principal_reads (dn : string) (entry_attrs : payload) (w : World) :
  directory (host_mod_principal dn entry_attrs w).2 = directory w ∧
  services (host_mod_principal dn entry_attrs w).2 = services w ∧
  updates (host_mod_principal dn entry_attrs w).2 = updates w.
Proof.
  unfold host_mod_principal, getitem, from_option.
  unfold_monad. unfold get_entry.
  repeat case_match; simplify_eq/=; rewrite ?updates_log; done.
Qed.

Lemma host_mod_pre_callback_reads (dn : string) (entry_attrs : payload)
    (keys : list string) (w : World) :
  directory (host_mod_pre_callback dn entry_attrs keys w).2 = directory w ∧
  services (host_mod_pre_callback dn entry_attrs keys w).2 = services w ∧
  updates (host_mod_pre_callback dn entry_attrs keys w).2 = updates w.
Proof.
  unfold host_mod_pre_callback. unfold_monad.
  pose proof (host_mod_principal_reads dn (alias_locality entry_attrs) w) as Hp.
  destruct (host_mod_principal dn (alias_locality entry_attrs) w) as [[[dn1 ea1] | e] w1];
    [| done].
  pose proof (host_mod_certificate_reads dn1 ea1 w1) as Hc.
  simpl in *. intuition congruence.
Qed.

Lemma get_dn_run (keys : list string) (w w1 : World) (r : result string) :
  get_dn shared keys w = (r, w1) →
  directory w1 = directory w ∧ services w1 = services w ∧ updates w1 = updates w.
Proof. intros H. pose proof (get_dn_reads keys w) as Hr. by rewrite H in Hr. Qed.

(** C1.  A modify whose payload sets [krbprincipalname], on a key that
    resolves to a stored entry.  When the entry already stores a
    principal the command fails with [ACIError] "Principal name already
    set, it is unchangeable.", the directory is as before and no update
    call was made; when it stores none, the hook does not raise
    [ACIError]. *)
Theorem host_mod_principal_is_immutable (keys : list string)
    (entry_attrs : payload) (w w1 : World) (dn : string) (e : entry) :
  get_dn shared keys w = (Ok dn, w1) →
  lookup_dn dn (directory w) = Some e →
  is_Some (entry_attrs !! "krbprincipalname") →
  (is_Some (e !! "krbprincipalname") →
     ∃ w', host_mod shared keys entry_attrs w =
             (Raise (ACIError principal_unchangeable), w')
           ∧ directory w' = directory w
           ∧ updates w' = updates w)
  ∧ (e !! "krbprincipalname" = None →
     ∀ info, (host_mod_pre_callback dn entry_attrs keys w1).1
             ≠ Raise (ACIError info)).
Proof.
  intros Hdn Hlook Hset.
  destruct (get_dn_run _ _ _ _ Hdn) as (Hd & _ & Hu).
  assert (Hset' : is_Some (alias_locality entry_attrs !! "krbprincipalname"))
    by (by rewrite alias_locality_lookup).
  rewrite <- Hd in Hlook.
  split.
  - intros Hstored. eexists. split.
    + unfold host_mod, host_mod_pre_callback. unfold_monad. rewrite Hdn.
      unfold host_mod_principal. unfold_monad.
      rewrite bool_decide_eq_true_2 by done.
      rewrite (get_entry_found _ _ _ _ Hlook).
      rewrite bool_decide_eq_true_2; [reflexivity |].
      rewrite project_lookup_in; [done | set_solver].
    + simpl. rewrite updates_log by done. done.
  - intros Hnone info.
    unfold host_mod_pre_callback. unfold_monad.
    unfold host_mod_principal. unfold_monad.
    rewrite bool_decide_eq_true_2 by done.
    rewrite (get_entry_found _ _ _ _ Hlook).
    rewrite bool_decide_eq_false_2; last first.
    { rewrite project_lookup_in; [| set_solver]. rewrite Hnone. by intros [? ?]. }
    unfold getitem, from_option.
    destruct (project _ e !! "objectclass") as [oc |]; [| done].
    destruct (negb _); apply host_mod_certificate_no_ACIError.
Qed.

Lemma host_mod_principal_ok (dn dn1 : string) (entry_attrs ea1 : payload)
    (w w1 : World) :
  host_mod_principal dn entry_attrs w = (Ok (dn1, ea1), w1) →
  dn1 = dn ∧ (∀ k, k ≠ "objectclass" → ea1 !! k = entry_attrs !! k).
Proof.
  unfold host_mod_principal, getitem, from_option. unfold_monad. unfold get_entry.
  intros H. repeat case_match; simplify_eq/=; split; try done.
  intros k Hk. by rewrite lookup_insert_ne.
Qed.

Lemma host_mod_principal_no_GenericError (dn : string) (entry_attrs : payload)
    (w : World) (fmt : string) :
  (host_mod_principal dn entry_attrs w).1 ≠ Raise (GenericError fmt).
Proof.
  unfold host_mod_principal, getitem, from_option. unfold_monad. unfold get_entry.
  repeat case_match; simplify_eq/=; done.
Qed.

(** C2 (as amended).  A modify whose payload sets [usercertificate] to
    a value that is not empty, once the principal step has passed.
    When the entry stores a certificate that parses, the hook fails
    with [GenericError] "entry already has a certificate, serial
    number: " followed by the serial number of the stored certificate,
    and the directory is as before; when it stores none, the incoming
    text is base64-decoded and the decoded bytes are what the payload
    hands on. *)
Theorem host_mod_certificate_write_once (dn dn1 : string)
    (entry_attrs ea1 : payload) (keys : list string) (w w1 : World)
    (e : entry) (cert : value) :
  lookup_dn dn (directory w) = Some e →
  entry_attrs !! "usercertificate" = Some cert →
  truthy cert = true →
  host_mod_principal dn (alias_locality entry_attrs) w = (Ok (dn1, ea1), w1) →
  (∀ der rest c,
     e !! "usercertificate" = Some (der :: rest) →
     load_certificate der = Some c →
     ∃ w', host_mod_pre_callback dn entry_attrs keys w =
             (Raise (GenericError (already_has_certificate (serial_number c))), w')
           ∧ directory w' = directory w
           ∧ updates w' = updates w)
  ∧ (∀ s bytes,
     e !! "usercertificate" = None →
     cert = VStr s →
     b64decode s = Some bytes →
     ∃ w', host_mod_pre_callback dn entry_attrs keys w =
             (Ok (dn, <["usercertificate" := VStr bytes]> ea1), w')).
Proof.
  intros Hlook Hcert Htruthy Hprincipal.
  destruct (host_mod_principal_ok _ _ _ _ _ _ Hprincipal) as [-> Hsame].
  pose proof (host_mod_principal_reads dn (alias_locality entry_attrs) w) as Hr.
  rewrite Hprincipal in Hr. simpl in Hr. destruct Hr as (Hd & _ & Hu).
  assert (Hcert1 : ea1 !! "usercertificate" = Some cert).
  { rewrite Hsame by done. by rewrite alias_locality_lookup. }
  rewrite <- Hd in Hlook.
  split.
  - intros der rest c Hstored Hparse. eexists. split.
    + unfold host_mod_pre_callback. unfold_monad. rewrite Hprincipal.
      unfold host_mod_certificate. unfold_monad.
      rewrite Hcert1. simpl. rewrite Htruthy.
      rewrite (get_entry_found _ _ _ _ Hlook).
      assert (Hp : project ["usercertificate"] e !! "usercertificate"
                   = Some (der :: rest))
        by (rewrite project_lookup_in; [done | set_solver]).
      rewrite bool_decide_eq_true_2 by (by rewrite Hp).
      unfold getitem, get_serial_number, first, from_option. unfold_monad.
      rewrite Hp. simpl. rewrite Hparse. reflexivity.
    + simpl. rewrite updates_log by done. done.
  - intros s bytes Hnone -> Hdecode. eexists.
    unfold host_mod_pre_callback. unfold_monad. rewrite Hprincipal.
    unfold host_mod_certificate. unfold_monad.
    rewrite Hcert1. simpl. simpl in Htruthy. rewrite Htruthy.
    rewrite (get_entry_found _ _ _ _ Hlook).
    rewrite bool_decide_eq_false_2; last first.
    { rewrite project_lookup_in; [| set_solver]. rewrite Hnone. by intros [? ?]. }
    unfold from_option. rewrite Hdecode. reflexivity.
Qed.

(** C10.  A modify whose payload holds [usercertificate] with a falsy
    value ([None], empty string, empty list): the hook is its principal
    step and nothing more, so it raises no [GenericError] and the value
    is handed on as it came, whatever the directory stores. *)
Theorem host_mod_empty_certificate_skipped (dn : string) (entry_attrs : payload)
    (keys : list string) (w : World) (v : value) :
  entry_attrs !! "usercertificate" = Some v →
  truthy v = false →
  host_mod_pre_callback dn entry_attrs keys w
    = host_mod_principal dn (alias_locality entry_attrs) w
  ∧ (∀ fmt, (host_mod_pre_callback dn entry_attrs keys w).1
            ≠ Raise (GenericError fmt))
  ∧ (∀ dn' ea', (host_mod_pre_callback dn entry_attrs keys w).1 = Ok (dn', ea') →
                ea' !! "usercertificate" = Some v).
Proof.
  intros Hcert Hfalsy.
  assert (Heq : host_mod_pre_callback dn entry_attrs keys w
                = host_mod_principal dn (alias_locality entry_attrs) w).
  { unfold host_mod_pre_callback. unfold_monad.
    destruct (host_mod_principal dn (alias_locality entry_attrs) w)
      as [[[dn1 ea1] | err] w1] eqn:Hp; [| done].
    destruct (host_mod_principal_ok _ _ _ _ _ _ Hp) as [-> Hsame].
    unfold host_mod_certificate. unfold_monad.
    rewrite Hsame by done. rewrite alias_locality_lookup by done.
    rewrite Hcert. simpl. by rewrite Hfalsy. }
  rewrite Heq. split; [done |]. split.
  - intros fmt. apply host_mod_principal_no_GenericError.
  - intros dn' ea' Hok.
    destruct (host_mod_principal dn (alias_locality entry_attrs) w)
      as [[[dn1 ea1] | err] w1] eqn:Hp; simplify_eq/=.
    destruct (host_mod_principal_ok _ _ _ _ _ _ Hp) as [-> Hsame].
    rewrite Hsame by done. by rewrite alias_locality_lookup.
Qed.

Lemma apply_payload_lookup (p : payload) (e : entry) (k : string) :
  apply_payload p e !! k =
    match p !! k with
    | Some v => stored_values v
    | None => e !! k
    end.
Proof.
  unfold apply_payload.
  apply (map_fold_weak_ind (λ acc (p : payload),
    acc !! k = match p !! k with Some v => stored_values v | None => e !! k end)).
  - by rewrite lookup_empty.
  - intros i x m r Hi IH.
    destruct (decide (i = k)) as [-> |Hne].
    + rewrite lookup_insert_eq.
      destruct (stored_values x); [by rewrite lookup_insert_eq | by rewrite lookup_delete_eq].
    + rewrite lookup_insert_ne by done.
      destruct (stored_values x);
        [by rewrite lookup_insert_ne | by rewrite lookup_delete_ne].
Qed.

Lemma list_remove_elem_of (x y : string) (l l' : list string) :
  Py.list_remove x l = Some l' → y ≠ x → (y ∈ l' ↔ y ∈ l).
Proof.
  revert l'. induction l as [| a l IH]; intros l' H Hne; simpl in H; [done |].
  case_bool_decide; simplify_eq.
  - rewrite elem_of_cons. split; [by right | by intros [? | ?]].
  - destruct (Py.list_remove x l) as [l0 |]; simplify_eq/=.
    rewrite !elem_of_cons. by rewrite IH.
Qed.

Lemma list_remove_once (x : string) (l l' : list string) :
  Py.list_remove x l = Some l' →
  (count_occ string_dec l x ≤ 1)%nat →
  x ∉ l'.
Proof.
  revert l'. induction l as [| a l IH]; intros l' H Hc; simpl in H; [done |].
  simpl in Hc. case_bool_decide; simplify_eq.
  - destruct (string_dec x x); [| done].
    intros Hin. apply list_elem_of_In in Hin.
    apply (count_occ_In string_dec) in Hin. lia.
  - destruct (string_dec a x); [done |].
    destruct (Py.list_remove x l) as [l0 |]; simplify_eq/=.
    rewrite elem_of_cons. intros [-> | Hin]; [done |]. by eapply IH.
Qed.

Lemma list_remove_is_Some (x : string) (l : list string) :
  x ∈ l → is_Some (Py.list_remove x l).
Proof.
  induction l as [| a l IH]; [by intros ?%elem_of_nil |].
  intros Hin. simpl. case_bool_decide; [done |].
  apply elem_of_cons in Hin as [-> | Hin]; [done |].
  destruct (IH Hin) as [l' ->]. done.
Qed.

(** The object class branch, on a list. *)
Lemma host_add_objectclass_list (has_password : bool) (l : list string) :
  host_add_objectclass has_password (VList l) =
    Ok (VList
      (if has_password then default l (Py.list_remove "krbprincipalaux" l)
       else if bool_decide ("krbprincipalaux" ∈ l) then l
            else l ++ ["krbprincipalaux"; "krbprincipal"])%list).
Proof.
  unfold host_add_objectclass. unfold_monad. simpl.
  destruct has_password; simpl.
  - case_bool_decide as Hin; simpl.
    + destruct (list_remove_is_Some _ _ Hin) as [l' ->]. done.
    + destruct (Py.list_remove _ l) as [l' |] eqn:Hr; [| done].
      simpl. f_equal. f_equal.
      clear -Hin Hr. revert l' Hr. induction l as [| a l IH]; intros l' Hr; [done |].
      simpl in Hr. case_bool_decide; simplify_eq; [set_solver |].
      destruct (Py.list_remove _ l) eqn:E; simplify_eq/=.
      f_equal. apply IH; [set_solver | done].
  - case_bool_decide; simpl; [done |]. by rewrite <- app_assoc.
Qed.


Ltac payload_lookup :=
  repeat first
    [ rewrite lookup_insert_eq
    | rewrite lookup_insert_ne by done
    | rewrite lookup_delete_ne by done
    | rewrite alias_locality_lookup by done ];
  try done.

(** [host_add.pre_callback] on a payload whose object classes are a
    list: it succeeds once the DNS check passes, and this is what it
    leaves in the payload. *)
Lemma host_add_pre_callback_run (force : bool) (dn : string)
    (entry_attrs : payload) (keys : list string) (key : string)
    (l : list string) :
  last keys = Some key →
  force = true ∨ dns_resolvable key = true →
  entry_attrs !! "objectclass" = Some (VList l) →
  let has_password := negb (bool_decide (entry_attrs !! "userpassword" = None)) in
  ∃ ea',
    host_add_pre_callback force dn entry_attrs keys = Ok (dn, ea')
    ∧ ea' !! "objectclass" =
        Some (VList
          (if has_password then default l (Py.list_remove "krbprincipalaux" l)
           else if bool_decide ("krbprincipalaux" ∈ l) then l
                else l ++ ["krbprincipalaux"; "krbprincipal"])%list)
    ∧ ea' !! "krbprincipalname" =
        (if has_password then entry_attrs !! "krbprincipalname"
         else Some (VStr ("host/" ++ key ++ "@" ++ realm)))
    ∧ ea' !! "cn" = Some (VStr key)
    ∧ ea' !! "serverhostname" = Some (VStr (Py.split_first key "."))
    ∧ ea' !! "managedby" = Some (VStr dn).
Proof.
  intros Hlast Hdns Hoc has_password. subst has_password.
  unfold host_add_pre_callback, last_key, from_option. unfold_monad.
  rewrite Hlast.
  assert (Hcheck : (if negb force
                    then if dns_resolvable key then Ok () else Raise DNSNotARecordError
                    else Ok ()) = Ok ()).
  { destruct Hdns as [-> | ->]; [done | by destruct force]. }
  rewrite Hcheck.
  rewrite !lookup_insert_ne by done.
  rewrite (alias_locality_lookup _ "userpassword") by done.
  unfold getitem, from_option.
  destruct (entry_attrs !! "userpassword") as [pw |] eqn:Hpw; simpl.
  - rewrite !lookup_insert_ne by done.
    rewrite (alias_locality_lookup _ "objectclass") by done. rewrite Hoc.
    rewrite host_add_objectclass_list. eexists. split; [reflexivity |].
    repeat split; payload_lookup.
  - rewrite !lookup_insert_ne by done.
    rewrite (alias_locality_lookup _ "objectclass") by done. rewrite Hoc.
    rewrite host_add_objectclass_list. eexists. split; [reflexivity |].
    repeat split; payload_lookup.
Qed.

Lemma list_remove_None (x : string) (l : list string) :
  Py.list_remove x l = None → x ∉ l.
Proof.
  intros Hnone Hin. destruct (list_remove_is_Some _ _ Hin) as [l' Hl'].
  congruence.
Qed.

Lemma host_add_pre_callback_inv (force : bool) (dn dn' : string)
    (entry_attrs ea' : payload) (keys : list string) :
  host_add_pre_callback force dn entry_attrs keys = Ok (dn', ea') →
  ∃ key, last keys = Some key ∧ (force = true ∨ dns_resolvable key = true).
Proof.
  unfold host_add_pre_callback, last_key, from_option. unfold_monad.
  destruct (last keys) as [key |]; [| by destruct force].
  intros H. exists key. split; [done |].
  destruct force; [by left | right]. simpl in H.
  by destruct (dns_resolvable key).
Qed.

Lemma lookup_replace_dn (dn : string) (e e' : entry) (d : list (string * entry)) :
  lookup_dn dn d = Some e → lookup_dn dn (replace_dn dn e' d) = Some e'.
Proof.
  induction d as [| [dn0 e0] d IH]; [done |]. simpl.
  case_bool_decide; simpl.
  - intros _. by rewrite bool_decide_eq_true_2.
  - intros Hl. rewrite bool_decide_eq_false_2 by done. by apply IH.
Qed.

Lemma host_mod_certificate_ok (dn dn1 : string) (entry_attrs ea1 : payload)
    (w w1 : World) :
  host_mod_certificate dn entry_attrs w = (Ok (dn1, ea1), w1) →
  dn1 = dn ∧ (∀ k, k ≠ "usercertificate" → ea1 !! k = entry_attrs !! k).
Proof.
  unfold host_mod_certificate, get_serial_number, getitem, first, from_option.
  unfold_monad. unfold get_entry.
  intros H. repeat case_match; simplify_eq/=; split; try done.
  intros k Hk. by rewrite lookup_insert_ne.
Qed.


Lemma host_mod_principal_untouched (dn : string) (entry_attrs : payload) (w : World) :
  entry_attrs !! "krbprincipalname" = None →
  host_mod_principal dn entry_attrs w = (Ok (dn, entry_attrs), w).
Proof.
  intros Hnone. unfold host_mod_principal.
  rewrite bool_decide_eq_false_2; [done |]. rewrite Hnone. by intros [? ?].
Qed.





Lemma search_answers_app (tr tr' : list call) :
  search_answers (tr ++ tr') = (search_answers tr ++ search_answers tr')%list.
Proof. unfold search_answers. apply omap_app. Qed.

(** One service deletion. *)
Lemma service_del_run (principal : string) (w : World) :
  let w' := (service_del principal w).2 in
  directory w' = directory w
  ∧ trace w' = (trace w ++ [ServiceDel principal])%list
  ∧ match (service_del principal w).1 with
    | Ok _ => services w' = services w ∖ {[principal]}
    | Raise _ => services w' = services w
    end.
Proof. unfold service_del. case_bool_decide; simpl; done. Qed.

(** The loop over a page: it touches services only, removes none but
    services of the host, and, when it completes, has removed every
    service of the host that the page lists. *)
Lemma delete_services_run (fqdn : string) (found : list entry) (w : World) :
  let w' := (delete_services fqdn found w).2 in
  directory w' = directory w
  ∧ (∃ new, trace w' = (trace w ++ new)%list ∧ search_answers new = [])
  ∧ services w' ⊆ services w
  ∧ (∀ p, p ∈ services w → ¬ dependent fqdn p → p ∈ services w')
  ∧ ((delete_services fqdn found w).1 = Ok () →
     ∀ p, lists found p → dependent fqdn p → p ∉ services w').
Proof.
  revert w. induction found as [| e found IH]; intros w; simpl.
  { repeat split; [by exists []; rewrite app_nil_r | done | done |].
    intros _ p (e & rest & Hin & _). by apply elem_of_nil in Hin. }
  unfold getitem, first, from_option. unfold_monad.
  destruct (e !! "krbprincipalname") as [names |] eqn:Hnames; simpl;
    [| repeat split; [by exists []; rewrite app_nil_r | done | done | done]].
  destruct names as [| principal rest]; simpl;
    [repeat split; [by exists []; rewrite app_nil_r | done | done | done] |].
  destruct (split_principal principal) as [[[service hostname] realm] | err] eqn:Hsplit;
    simpl; [| repeat split; [by exists []; rewrite app_nil_r | done | done | done]].
  case_bool_decide as Hhost.
  - pose proof (service_del_run principal w) as Hdel.
    destruct (service_del principal w) as [[[] | err] w1]; simpl in Hdel.
    + destruct Hdel as (Hd & Htr & Hsv).
      specialize (IH w1). simpl in IH.
      destruct IH as (IHd & (new & IHtr & IHnew) & IHsub & IHkeep & IHdone).
      repeat split.
      * congruence.
      * exists (ServiceDel principal :: new). split; [| done].
        rewrite IHtr, Htr. by rewrite <- app_assoc.
      * set_solver.
      * intros p Hp Hnd. apply IHkeep; [| done]. rewrite Hsv.
        apply elem_of_difference. split; [done |].
        intros ->%elem_of_singleton. apply Hnd. unfold dependent, hostname_of.
        by rewrite Hsplit, Hhost.
      * intros Hok p (e' & rest' & Hin & He') Hdep.
        apply elem_of_cons in Hin as [-> | Hin].
        -- assert (p = principal) as -> by congruence.
           intros Hp. apply IHsub in Hp. set_solver.
        -- apply IHdone; [done | by exists e', rest' | done].
    + destruct Hdel as (Hd & Htr & Hsv). simpl.
      repeat split; [done | by exists [ServiceDel principal] | set_solver | | done].
      intros p Hp _. by rewrite Hsv.
  - specialize (IH w). simpl in IH.
    destruct IH as (IHd & IHtr & IHsub & IHkeep & IHdone).
    repeat split; [done | done | done | done |].
    intros Hok p (e' & rest' & Hin & He') Hdep.
    apply elem_of_cons in Hin as [-> | Hin].
    + assert (p = principal) as -> by congruence.
      unfold dependent, hostname_of in Hdep. rewrite Hsplit in Hdep. congruence.
    + apply IHdone; [done | by exists e', rest' | done].
Qed.

(** The [while] loop: whatever way it ends, it has left the host
    entries alone and removed only services of the host; when it ends
    normally against a complete search, no service of the host is left. *)
Lemma cascade_run (fuel : nat) (fqdn : string) (w w' : World) (r : result ()) :
  cascade fuel fqdn w = Some (r, w') →
  directory w' = directory w
  ∧ services w' ⊆ services w
  ∧ (∀ p, p ∈ services w → ¬ dependent fqdn p → p ∈ services w')
  ∧ (r = Ok () → search_complete fqdn →
     ∀ p, p ∈ services w → dependent fqdn p → p ∉ services w').
Proof.
  revert w w' r. induction fuel as [| fuel IH]; intros w w' r; simpl; [done |].
  unfold service_find.
  pose proof (λ H : search_complete fqdn, H (trace w) (services w)) as Hcomplete.
  destruct (service_search (trace w) fqdn (services w))
    as [[found truncated] | err] eqn:Hsearch.
  - set (w1 := log _ w).
    pose proof (delete_services_run fqdn found w1) as Hpage.
    destruct (delete_services fqdn found w1) as [[[] | err] w2]; simpl in Hpage;
      destruct Hpage as (Hd & _ & Hsub & Hkeep & Hdone).
    + destruct truncated.
      * intros Hrest. destruct (IH _ _ _ Hrest) as (IHd & IHsub & IHkeep & IHdone).
        repeat split.
        -- congruence.
        -- set_solver.
        -- intros p Hp Hnd. apply IHkeep; [| done]. by apply Hkeep.
        -- intros Hok Hc p Hp Hdep.
           destruct (decide (p ∈ services w2)) as [Hin | Hout].
           ++ by apply IHdone.
           ++ intros Hin. apply Hout. by apply IHsub.
      * intros [= <- <-]. repeat split; [done | done | done |].
        intros _ Hc p Hp Hdep. apply Hdone; [done | | done].
        by apply Hcomplete.
    + intros [= <- <-]. repeat split; done.
  - destruct err; intros [= <- <-]; simpl; repeat split; try done.
    intros _ Hc p Hp Hdep. exfalso. by apply (Hcomplete Hc p).
Qed.

Lemma lookup_remove_dn (dn : string) (d : list (string * entry)) :
  lookup_dn dn (remove_dn dn d) = None.
Proof.
  unfold remove_dn. induction d as [| [dn0 e0] d IH]; [done |].
  rewrite filter_cons. destruct (decide _) as [Hne | Heq]; simpl in *; [| done].
  by rewrite bool_decide_eq_false_2.
Qed.

Lemma host_show_reads (keys : list string) (all : bool) (w : World) :
  directory (host_show shared keys all w).2 = directory w
  ∧ services (host_show shared keys all w).2 = services w.
Proof.
  unfold host_show. unfold_monad.
  pose proof (get_dn_reads keys w) as (Hd & Hs & _).
  destruct (get_dn shared keys w) as [[dn |] w1]; simpl in *; [| done].
  unfold get_entry. destruct (lookup_dn dn (directory w1)); simpl; [| done].
  destruct (host_show_post_callback _ _ _) as [[dn' ea'] |]; done.
Qed.

Lemma host_del_fqdn_reads (keys : list string) (w : World) :
  directory (host_del_fqdn shared keys w).2 = directory w
  ∧ services (host_del_fqdn shared keys w).2 = services w.
Proof.
  unfold host_del_fqdn, last_key, from_option. unfold_monad.
  destruct (last keys) as [key |]; [| done].
  case_bool_decide; [| done].
  pose proof (host_show_reads [key] false w) as (Hd & Hs).
  destruct (host_show shared [key] false w) as [[hostentry |] w1]; simpl in *; [| done].
  done.
Qed.

(** For a name with a dot the hook compares the services with the key
    itself. *)
Lemma host_del_fqdn_dotted (keys : list string) (key : string) (w : World) :
  last keys = Some key →
  validate_host key = None →
  host_del_fqdn shared keys w = (Ok key, w).
Proof.
  intros Hlast Hvalid. unfold host_del_fqdn, last_key, from_option. unfold_monad.
  rewrite Hlast, Hvalid. by rewrite bool_decide_eq_false_2 by (by intros []).
Qed.

(** How the loop ends, read off the recorded searches: it made [n + 1]
    of them, the first [n] answered with a truncated page; no smaller
    bound ends it and every larger one ends it the same way; a normal
    end comes with a last answer that is not truncated or reports no
    results, and never with a truncated one. *)
Lemma cascade_searches (fuel : nat) (fqdn : string) (w w' : World) (r : result ()) :
  cascade fuel fqdn w = Some (r, w') →
  ∃ n last new,
    (n < fuel)%nat
    ∧ trace w' = (trace w ++ new)%list
    ∧ search_answers new = (replicate n (Ok true) ++ [last])%list
    ∧ (∀ k, (k ≤ n)%nat → cascade k fqdn w = None)
    ∧ (∀ k, (n < k)%nat → cascade k fqdn w = Some (r, w'))
    ∧ (r = Ok () → final_answer last)
    ∧ (last = Raise NotFound → r = Ok ())
    ∧ (last = Ok true → r ≠ Ok ()).
Proof.
  revert w w' r. induction fuel as [| fuel IH]; intros w w' r; simpl; [done |].
  unfold service_find.
  destruct (service_search (trace w) fqdn (services w))
    as [[found truncated] | err] eqn:Hsearch.
  - set (w1 := log (ServiceFind fqdn (Ok truncated)) w).
    pose proof (delete_services_run fqdn found w1) as Hpage.
    destruct (delete_services fqdn found w1) as [[[] | err] w2] eqn:Hdel;
      simpl in Hpage; destruct Hpage as (_ & (dels & Htr & Hdels) & _).
    + destruct truncated.
      * intros Hrest.
        destruct (IH _ _ _ Hrest)
          as (n & last & new & Hn & Hnew & Hans & Hlow & Hhigh & Hfin & Hnf & Htrunc).
        exists (S n), last, (ServiceFind fqdn (Ok true) :: dels ++ new)%list.
        split; [lia |]. split.
        { rewrite Hnew, Htr. simpl. by rewrite <- !app_assoc. }
        split.
        { change (ServiceFind fqdn (Ok true) :: dels ++ new)%list
            with ([ServiceFind fqdn (Ok true)] ++ (dels ++ new))%list.
          rewrite !search_answers_app, Hdels, Hans. done. }
        split.
        { intros [| k] Hk; [done |]. simpl. unfold service_find.
          rewrite Hsearch. fold w1. rewrite Hdel. apply Hlow. lia. }
        split; [| done].
        intros [| k] Hk; [lia |]. simpl. unfold service_find.
        rewrite Hsearch. fold w1. rewrite Hdel. apply Hhigh. lia.
      * intros [= <- <-].
        exists 0%nat, (Ok false), (ServiceFind fqdn (Ok false) :: dels)%list.
        split; [lia |]. split.
        { rewrite Htr. simpl. by rewrite <- !app_assoc. }
        split.
        { change (ServiceFind fqdn (Ok false) :: dels)%list
            with ([ServiceFind fqdn (Ok false)] ++ dels)%list.
          rewrite !search_answers_app, Hdels. done. }
        split.
        { intros k Hk. by replace k with 0%nat by lia. }
        split; [| by split; [left | split]].
        intros [| k] Hk; [lia |]. simpl. unfold service_find.
        rewrite Hsearch. fold w1. by rewrite Hdel.
    + intros [= <- <-].
      exists 0%nat, (Ok truncated), (ServiceFind fqdn (Ok truncated) :: dels)%list.
      split; [lia |]. split.
      { rewrite Htr. simpl. by rewrite <- !app_assoc. }
      split.
      { change (ServiceFind fqdn (Ok truncated) :: dels)%list
          with ([ServiceFind fqdn (Ok truncated)] ++ dels)%list.
        rewrite !search_answers_app, Hdels. done. }
      split.
      { intros k Hk. by replace k with 0%nat by lia. }
      split; [| by split; [| split]].
      intros [| k] Hk; [lia |]. simpl. unfold service_find.
      rewrite Hsearch. fold w1. by rewrite Hdel.
  - intros Hres.
    assert (Hres' : Some (match err with NotFound => Ok () | _ => Raise err end,
                          log (ServiceFind fqdn (Raise err)) w) = Some (r, w'))
      by (by destruct err).
    clear Hres. injection Hres' as <- <-.
    exists 0%nat, (Raise err), [ServiceFind fqdn (Raise err)].
    split; [lia |]. split; [done |]. split; [done |].
    split.
    { intros k Hk. by replace k with 0%nat by lia. }
    split.
    { intros [| k] Hk; [lia |]. simpl. unfold service_find.
      rewrite Hsearch. by destruct err. }
    split; [| split].
    + destruct err; try done. intros _. by right.
    + by intros [= ->].
    + done.
Qed.

Lemma cascade_settles (n fuel : nat) (fqdn : string) (w : World) :
  settles_after n fqdn →
  (0 < fuel)%nat →
  (n < List.length (search_answers (trace w)) + fuel)%nat →
  cascade fuel fqdn w ≠ None.
Proof.
  intros Hsettles. revert w. induction fuel as [| fuel IH]; intros w Hpos Hn; [lia |].
  simpl. unfold service_find.
  destruct (service_search (trace w) fqdn (services w))
    as [[found truncated] | err] eqn:Hsearch; [| by destruct err].
  set (w1 := log (ServiceFind fqdn (Ok truncated)) w).
  pose proof (delete_services_run fqdn found w1) as Hpage.
  destruct (delete_services fqdn found w1) as [[[] | err] w2] eqn:Hdel;
    simpl in Hpage; destruct Hpage as (_ & (dels & Htr & Hdels) & _); [| done].
  destruct truncated; [| done].
  assert (Hlt : (List.length (search_answers (trace w)) < n)%nat).
  { destruct (decide (n ≤ List.length (search_answers (trace w)))%nat) as [Hle |]; [| lia].
    by destruct (Hsettles _ (services w) Hle found). }
  apply IH; [lia |].
  rewrite Htr. subst w1. simpl.
  rewrite !search_answers_app, Hdels. simpl. rewrite !length_app. simpl. lia.
Qed.

(** A page whose entries name stored services that [split_principal]
    accepts, none twice, is worked through without an error. *)
Lemma delete_services_named (fqdn : string) (found : list entry)
    (page : list string) (w : World) :
  names found page →
  NoDup page →
  (∀ p, p ∈ page → p ∈ services w ∧ is_Some (hostname_of p)) →
  (delete_services fqdn found w).1 = Ok ().
Proof.
  intros Hnames. revert w.
  induction Hnames as [| e p found page (rest & He) _ IH]; intros w Hnodup Hpage;
    [done |].
  apply NoDup_cons in Hnodup as [Hfresh Hnodup].
  destruct (Hpage p ltac:(left)) as [Hstored [h Hh]].
  cbn [delete_services]. unfold getitem, first, from_option. unfold_monad.
  rewrite He. simpl. unfold hostname_of in Hh.
  destruct (split_principal p) as [[[service hostname] rlm] | err]; [| done].
  case_bool_decide.
  - unfold service_del. rewrite bool_decide_eq_true_2 by done.
    apply IH; [done |]. intros q Hq.
    destruct (Hpage q ltac:(by right)) as [Hq1 Hq2].
    split; [| done]. simpl. apply elem_of_difference. split; [done |].
    intros ->%elem_of_singleton. done.
  - apply IH; [done |]. intros q Hq. apply Hpage. by right.
Qed.

Lemma names_lists (found : list entry) (page : list string) (p : string) :
  names found page → p ∈ page → lists found p.
Proof.
  intros Hnames. induction Hnames as [| e q found page (rest & He) _ IH];
    [by intros ?%elem_of_nil |].
  intros [-> | Hin]%elem_of_cons.
  - exists e, rest. split; [by left | done].
  - destruct (IH Hin) as (e' & rest' & Hin' & He').
    exists e', rest'. split; [by right | done].
Qed.

(** Against a reliable search the loop comes to a normal end: every
    truncated page takes at least one stored service away. *)
Lemma cascade_returns (fqdn : string) (w : World) :
  search_reliable fqdn →
  ∃ fuel w', cascade fuel fqdn w = Some (Ok (), w').
Proof.
  intros Hreliable.
  remember (size (services w)) as n eqn:Hn.
  revert w Hn. induction n as [n IH] using lt_wf_ind. intros w ->.
  pose proof (Hreliable (trace w) (services w)) as Hpage.
  destruct (service_search (trace w) fqdn (services w))
    as [[found truncated] | err] eqn:Hsearch.
  - destruct Hpage as (page & Hnames & Hnodup & Hstored & Htruncated).
    set (w1 := log (ServiceFind fqdn (Ok truncated)) w).
    pose proof (delete_services_named fqdn found page w1 Hnames Hnodup Hstored)
      as Hok.
    pose proof (delete_services_run fqdn found w1) as Hrun.
    destruct (delete_services fqdn found w1) as [r w2] eqn:Hdel.
    simpl in Hok, Hrun. subst r.
    destruct Hrun as (_ & _ & Hsub & _ & Hdone).
    destruct truncated.
    + destruct (Htruncated eq_refl) as (p & Hp & Hdep).
      destruct (IH (size (services w2))) with (w := w2) as (fuel & w' & Hrest);
        [| done |].
      * apply subset_size.
        assert (Hgone : p ∉ services w2)
          by (apply Hdone; [done | by apply (names_lists _ page) | done]).
        destruct (Hstored p Hp) as [Hin _]. simpl in Hsub. set_solver.
      * exists (S fuel), w'. cbn [cascade]. unfold service_find.
        rewrite Hsearch. fold w1. by rewrite Hdel.
    + exists 1%nat, w2. cbn [cascade]. unfold service_find.
      rewrite Hsearch. fold w1. by rewrite Hdel.
  - destruct err; try done.
    exists 1%nat, (log (ServiceFind fqdn (Raise NotFound)) w).
    cbn [cascade]. unfold service_find. by rewrite Hsearch.
Qed.

(** [host_show]'s post hook on the default attributes of a stored entry
    whose certificate it can read: it succeeds and hands out the [fqdn]
    values as they are stored. *)
Lemma host_show_post_callback_fqdn (dn : string) (e : entry) (l : list string) :
  certificate_readable e →
  e !! "fqdn" = Some l →
  match host_show_post_callback dn (VList <$> project default_attributes e) false with
  | Ok (dn', entry_attrs) => dn' = dn ∧ entry_attrs !! "fqdn" = Some (VList l)
  | Raise _ => False
  end.
Proof.
  intros Hreadable Hfqdn.
  assert (Hcert : (VList <$> project default_attributes e) !! "usercertificate"
                  = VList <$> e !! "usercertificate").
  { rewrite lookup_fmap. rewrite project_lookup_in; [done |].
    unfold default_attributes. set_solver. }
  assert (Hname : (VList <$> project default_attributes e) !! "fqdn"
                  = Some (VList l)).
  { rewrite lookup_fmap. rewrite project_lookup_in; [by rewrite Hfqdn |].
    unfold default_attributes. set_solver. }
  unfold host_show_post_callback, certificate_readable in *.
  destruct (bool_decide _); simpl;
    rewrite ?lookup_delete_ne by done;
    rewrite lookup_insert_ne by done;
    rewrite Hcert;
    (destruct (e !! "usercertificate") as [[| der ders] |]; simpl;
     [ done
     | destruct Hreadable as [cert ->]; simpl; split; [done |];
       unfold attach_certificate; rewrite !lookup_insert_ne by done;
       rewrite ?lookup_delete_ne by done; by rewrite ?lookup_insert_ne
     | split; [done |];
       rewrite ?lookup_delete_ne by done; by rewrite lookup_insert_ne ]).
Qed.

(** The name [host_del.pre_callback] compares the services with: the
    key when it has a dot, else the first [fqdn] value of the entry the
    key resolves to. *)
Lemma host_del_fqdn_of_host (key f dn : string) (e : entry) (rest : list string)
    (w : World) :
  (get_dn shared [key] w).1 = Ok dn →
  lookup_dn dn (directory w) = Some e →
  e !! "fqdn" = Some (f :: rest) →
  match validate_host key with
  | None => key = f
  | Some _ => certificate_readable e
  end →
  (host_del_fqdn shared [key] w).1 = Ok f.
Proof.
  intros Hdn Hlook Hfqdn Hkey.
  destruct (validate_host key) as [msg |] eqn:Hvalid.
  - unfold host_del_fqdn, last_key, from_option. unfold_monad. simpl.
    rewrite Hvalid. rewrite bool_decide_eq_true_2 by done.
    unfold host_show. unfold_monad.
    pose proof (get_dn_reads [key] w) as (Hd & _ & _).
    destruct (get_dn shared [key] w) as [r w1]. simpl in Hdn, Hd. subst r.
    rewrite <- Hd in Hlook. rewrite (get_entry_found _ _ _ _ Hlook).
    pose proof (host_show_post_callback_fqdn dn e (f :: rest) Hkey Hfqdn) as Hpost.
    destruct (host_show_post_callback _ _ _) as [[dn' entry_attrs] |]; [| done].
    destruct Hpost as [_ Hout]. simpl.
    unfold getitem, from_option. by rewrite Hout.
  - subst f. by rewrite (host_del_fqdn_dotted [key] key w eq_refl Hvalid).
Qed.

(** C5 (as amended).  Delete of a stored host with fqdn [f], named by
    [f] or by a name without a dot that resolves to it, against a
    reliable and complete service search.  The delete returns, and
    returns the same on every larger bound; when the hook has returned
    the host entry is still stored, every service of [f] is gone and
    every other service is still there; the deletion of the host entry
    is the last call, made on that state. *)
Theorem host_del_cascade_then_host (key f dn : string) (e : entry)
    (rest : list string) (w : World) :
  (get_dn shared [key] w).1 = Ok dn →
  lookup_dn dn (directory w) = Some e →
  e !! "fqdn" = Some (f :: rest) →
  match validate_host key with
  | None => key = f
  | Some _ => certificate_readable e
  end →
  search_reliable f →
  search_complete f →
  ∃ fuel w2 w',
    (∀ k, (fuel ≤ k)%nat → host_del shared k [key] w = Some (Ok dn, w'))
    ∧ host_del_pre_callback shared fuel dn [key] (get_dn shared [key] w).2
      = Some (Ok dn, w2)
    ∧ directory w2 = directory w
    ∧ (∀ p, p ∈ services w2 ↔ p ∈ services w ∧ ¬ dependent f p)
    ∧ services w' = services w2
    ∧ trace w' = (trace w2 ++ [DeleteEntry dn])%list
    ∧ directory w' = remove_dn dn (directory w)
    ∧ lookup_dn dn (directory w') = None.
Proof.
  intros Hdn Hlook Hfqdn Hkey Hreliable Hcomplete.
  pose proof (get_dn_reads [key] w) as (Hd & Hs & _).
  assert (Hdot : Py.endswith_char key "." = false).
  { destruct (Py.endswith_char key ".") eqn:E; [| done].
    by rewrite (get_dn_trailing_dot [key] key w eq_refl E) in Hdn. }
  assert (Hdn1 : (get_dn shared [key] (get_dn shared [key] w).2).1 = Ok dn).
  { rewrite (get_dn_value [key] key _ eq_refl Hdot), Hd.
    by rewrite <- (get_dn_value [key] key w eq_refl Hdot). }
  destruct (get_dn shared [key] w) as [r w1] eqn:Hrun. simpl in *. subst r.
  assert (Hlook1 : lookup_dn dn (directory w1) = Some e) by (by rewrite Hd).
  pose proof (host_del_fqdn_of_host key f dn e rest w1 Hdn1 Hlook1 Hfqdn Hkey)
    as Hname.
  pose proof (host_del_fqdn_reads [key] w1) as (Hd1 & Hs1).
  destruct (host_del_fqdn shared [key] w1) as [r w1'] eqn:Hhook.
  simpl in Hname, Hd1, Hs1. subst r.
  destruct (cascade_returns f w1' Hreliable) as (fuel & w2 & Hcascade).
  destruct (cascade_run _ _ _ _ _ Hcascade) as (Hd2 & Hsub & Hkeep & Hgone).
  destruct (cascade_searches _ _ _ _ _ Hcascade)
    as (n & last & new & Hn & _ & _ & _ & Hhigh & _).
  assert (Hlook2 : lookup_dn dn (directory w2) = Some e) by congruence.
  exists fuel, w2,
    (set_directory (remove_dn dn (directory w2)) (log (DeleteEntry dn) w2)).
  split.
  { intros k Hk. unfold host_del. rewrite Hrun. unfold host_del_pre_callback.
    rewrite Hhook. rewrite Hhigh by lia.
    unfold delete_entry. unfold_monad. by rewrite Hlook2. }
  split; [unfold host_del_pre_callback; by rewrite Hhook, Hcascade |].
  split; [congruence |]. split.
  { intros p. rewrite Hs1, Hs in Hsub, Hkeep, Hgone. split.
    - intros Hp. split; [by apply Hsub |]. intros Hdep.
      by apply (Hgone eq_refl Hcomplete p (Hsub p Hp) Hdep).
    - intros [Hp Hnd]. by apply Hkeep. }
  split; [done |]. split; [done |]. simpl.
  split; [congruence |]. apply lookup_remove_dn.
Qed.

(** C6 (as amended).  The [while] loop stops at the first search whose
    answer is not a truncated page: a run that ends made [n + 1]
    searches, the first [n] of them truncated, no smaller bound ends it,
    and it ends normally only on an answer that is not truncated or
    reports no results; and it does come to an end whenever the search
    stops flagging pages as truncated after some number of searches. *)
Theorem cascade_stops_at_first_final_answer (fqdn : string) (w : World) :
  (∀ fuel r w',
     cascade fuel fqdn w = Some (r, w') →
     ∃ n last new,
       (n < fuel)%nat
       ∧ trace w' = (trace w ++ new)%list
       ∧ search_answers new = (replicate n (Ok true) ++ [last])%list
       ∧ (∀ k, (k ≤ n)%nat → cascade k fqdn w = None)
       ∧ (∀ k, (n < k)%nat → cascade k fqdn w = Some (r, w'))
       ∧ (r = Ok () → final_answer last)
       ∧ (last = Raise NotFound → r = Ok ())
       ∧ (last = Ok true → r ≠ Ok ()))
  ∧ (∀ n, settles_after n fqdn → terminates fqdn w).
Proof.
  split.
  - intros fuel r w'. apply cascade_searches.
  - intros n Hsettles. exists (S n). apply (cascade_settles n); [done | lia | lia].
Qed.

(** *** [str.replace] *)













(** C8 (as amended).  For a key without a trailing dot that has no
    entry under its direct identifier, [get_dn] looks for the first
    entry whose [serverhostname] is the key as given, among the entries
    that carry every object class [self.object_class] holds at that
    time, and answers its identifier, or the direct identifier when
    there is none; it asks the directory exactly these two questions
    and never answers [NotFound]. *)
Theorem get_dn_falls_back_on_serverhostname (keys : list string) (key : string)
    (w : World) :
  last keys = Some key →
  Py.endswith_char key "." = false →
  lookup_dn (super_get_dn keys) (directory w) = None →
  (get_dn shared keys w).1 =
    Ok (match first_match "serverhostname" key shared (directory w) with
        | Some (dn', _) => dn'
        | None => super_get_dn keys
        end)
  ∧ trace (get_dn shared keys w).2 =
      (trace w ++ [GetEntry (super_get_dn keys) [""];
                   FindEntryByAttr "serverhostname" key])%list
  ∧ directory (get_dn shared keys w).2 = directory w.
Proof.
  intros Hlast Hdot Hmiss. split.
  - rewrite (get_dn_value keys key w Hlast Hdot). by rewrite Hmiss.
  - unfold get_dn, last_key, from_option. unfold_monad.
    rewrite Hlast, Hdot. rewrite (get_entry_missing _ _ _ Hmiss).
    unfold find_entry_by_attr. simpl.
    destruct (first_match _ _ _ _) as [[dn' e'] |]; simpl;
      by rewrite <- app_assoc.
Qed.

(** What holds of C3 on a class list without the markers, the list the
    [host] class declares: without a password the principal is assigned
    and both markers are appended; with a password the principal is left
    as it was and the list stays without them. *)
Lemma host_add_on_unmarked_classes (force : bool) (dn : string)
    (entry_attrs : payload) (keys : list string) (key : string)
    (l : list string) :
  last keys = Some key →
  force = true ∨ dns_resolvable key = true →
  entry_attrs !! "objectclass" = Some (VList l) →
  "krbprincipalaux" ∉ l →
  ∃ ea',
    host_add_pre_callback force dn entry_attrs keys = Ok (dn, ea')
    ∧ (entry_attrs !! "userpassword" = None →
       ea' !! "krbprincipalname" = Some (VStr ("host/" ++ key ++ "@" ++ realm))
       ∧ ea' !! "objectclass" = Some (VList (l ++ kerberos_markers)%list))
    ∧ (is_Some (entry_attrs !! "userpassword") →
       ea' !! "krbprincipalname" = entry_attrs !! "krbprincipalname"
       ∧ ea' !! "objectclass" = Some (VList l)).
Proof.
  intros Hlast Hdns Hoc Hno.
  destruct (host_add_pre_callback_run force dn entry_attrs keys key l Hlast Hdns Hoc)
    as (ea' & Hrun & Hoc' & Hprinc & _).
  exists ea'. split; [done |]. split.
  - intros Hpw. rewrite Hpw in Hoc', Hprinc. simpl in *.
    rewrite bool_decide_eq_false_2 in Hoc' by done. done.
  - intros [pw Hpw]. rewrite Hpw in Hoc', Hprinc. simpl in *.
    split; [done |]. rewrite Hoc'. do 2 f_equal.
    destruct (Py.list_remove "krbprincipalaux" l) as [l' |] eqn:Hr; [| done].
    exfalso. clear -Hno Hr. revert l' Hr.
    induction l as [| a l IH]; intros l' Hr; [done |]. simpl in Hr.
    case_bool_decide; [set_solver |].
    destruct (Py.list_remove _ l) eqn:E; simplify_eq/=.
    eapply IH; [set_solver | done].
Qed.

End Properties.

(** ** The properties on concrete inputs *)

(** C7.  [get_dn] on a key with a trailing dot: the entry stored for
    "name.example.com" is found under that key, while the same key with
    the dot raises [TypeError] before anything is resolved. *)
Theorem get_dn_trailing_dot_is_TypeError :
  let w := Sample.world [Sample.host_entry "name.example.com" ∅] ∅ in
  (get_dn (env := Sample.env) object_class ["name.example.com"] w).1
    = Ok (Sample.make_dn ["name.example.com"])
  ∧ get_dn (env := Sample.env) object_class ["name.example.com."] w = (Raise TypeError, w).
Proof. split; vm_compute; reflexivity. Qed.

(** C8, counterexample.  A key that no entry resolves, directly or by
    short name: the documented resolver answers [NotFound], [get_dn]
    answers the direct identifier.  And a key whose first label is the
    short name of another host: the documented resolver answers that
    host, [get_dn] again the direct identifier. *)
Lemma get_dn_is_not_the_documented_resolver :
  let w0 := Sample.world [] ∅ in
  let w1 := Sample.world [Sample.host_entry "h.other.org" ∅] ∅ in
  ((resolve_as_documented (env := Sample.env) object_class ["h.example.com"] w0).1
     = Raise NotFound
   ∧ (get_dn (env := Sample.env) object_class ["h.example.com"] w0).1
     = Ok (Sample.make_dn ["h.example.com"]))
  ∧ ((resolve_as_documented (env := Sample.env) object_class ["h.example.com"] w1).1
     = Ok (Sample.make_dn ["h.other.org"])
   ∧ (get_dn (env := Sample.env) object_class ["h.example.com"] w1).1
     = Ok (Sample.make_dn ["h.example.com"])).
Proof. repeat split; vm_compute; reflexivity. Qed.

(** C8 (as amended) on a directory where another host carries the key
    as a [serverhostname] value: it is found with the classes the
    [host] class declares, and no longer once an add without a password
    has appended the two Kerberos classes to the list, which the stored
    entry does not carry. *)
Lemma get_dn_falls_back_on_serverhostname_witness :
  let w := Sample.world [Sample.host_entry "h.other.org"
                           {[ "serverhostname" := ["h"; "h.example.com"] ]}] ∅ in
  (get_dn (env := Sample.env) object_class ["h.example.com"] w).1
    = Ok (Sample.make_dn ["h.other.org"])
  ∧ (get_dn (env := Sample.env) (object_class ++ kerberos_markers)
       ["h.example.com"] w).1
    = Ok (Sample.make_dn ["h.example.com"]).
Proof.
  intros w. split.
  - destruct (get_dn_falls_back_on_serverhostname (env := Sample.env)
                object_class ["h.example.com"] "h.example.com" w) as (H & _).
    + reflexivity.
    + vm_compute. reflexivity.
    + vm_compute. reflexivity.
    + rewrite H. vm_compute. reflexivity.
  - destruct (get_dn_falls_back_on_serverhostname (env := Sample.env)
                (object_class ++ kerberos_markers)%list
                ["h.example.com"] "h.example.com" w) as (H & _).
    + reflexivity.
    + vm_compute. reflexivity.
    + vm_compute. reflexivity.
    + rewrite H. vm_compute. reflexivity.
Defined.

(** C1 on a host that stores a principal. *)
Lemma host_mod_principal_is_immutable_witness :
  let keys := ["h.example.com"] in
  let stored : entry := {[ "krbprincipalname" := ["host/h.example.com@EXAMPLE.COM"] ]} in
  let w := Sample.world [Sample.host_entry "h.example.com" stored] ∅ in
  let entry_attrs : payload :=
    {[ "krbprincipalname" := VStr "host/other.example.com@EXAMPLE.COM" ]} in
  ∃ w', host_mod (env := Sample.env) object_class keys entry_attrs w
          = (Raise (ACIError principal_unchangeable), w')
        ∧ directory w' = directory w
        ∧ updates w' = updates w.
Proof.
  intros keys stored w entry_attrs.
  destruct (host_mod_principal_is_immutable (env := Sample.env) object_class
              keys entry_attrs w
              (get_dn (env := Sample.env) object_class keys w).2
              (Sample.make_dn ["h.example.com"])
              (Sample.host_entry "h.example.com" stored).2) as [H _].
  - vm_compute. reflexivity.
  - vm_compute. reflexivity.
  - vm_compute. eexists. reflexivity.
  - apply H. vm_compute. eexists. reflexivity.
Defined.

(** C2, counterexample.  The host stores a certificate and the payload
    sets the certificate field, to [None] or to the empty string: the
    hook raises nothing and hands the payload on. *)
Lemma host_mod_empty_certificate_is_accepted :
  let stored : entry := {[ "usercertificate" := ["DER-1001"] ]} in
  let w := Sample.world [Sample.host_entry "h.example.com" stored] ∅ in
  let dn := Sample.make_dn ["h.example.com"] in
  (host_mod_pre_callback (env := Sample.env) dn
     {[ "usercertificate" := VNone ]} ["h.example.com"] w).1
    = Ok (dn, {[ "usercertificate" := VNone ]})
  ∧ (host_mod_pre_callback (env := Sample.env) dn
       {[ "usercertificate" := VStr "" ]} ["h.example.com"] w).1
    = Ok (dn, {[ "usercertificate" := VStr "" ]}).
Proof. split; vm_compute; reflexivity. Qed.

(** C2 (as amended) on a host with a stored certificate and on one
    without, for the payload certificate "REVSLTEwMDE=". *)
Lemma host_mod_certificate_write_once_witness :
  let dn := Sample.make_dn ["h.example.com"] in
  let entry_attrs : payload := {[ "usercertificate" := VStr "REVSLTEwMDE=" ]} in
  let w_stored := Sample.world
    [Sample.host_entry "h.example.com" {[ "usercertificate" := ["DER-1001"] ]}] ∅ in
  let w_free := Sample.world [Sample.host_entry "h.example.com" ∅] ∅ in
  (∃ w', host_mod_pre_callback (env := Sample.env) dn entry_attrs ["h.example.com"] w_stored
           = (Raise (GenericError "entry already has a certificate, serial number: 1001"), w')
         ∧ directory w' = directory w_stored
         ∧ updates w' = updates w_stored)
  ∧ (∃ w', host_mod_pre_callback (env := Sample.env) dn entry_attrs ["h.example.com"] w_free
           = (Ok (dn, {[ "usercertificate" := VStr "DER-1001" ]}), w')).
Proof.
  intros dn entry_attrs w_stored w_free. split.
  - destruct (host_mod_certificate_write_once (env := Sample.env) dn dn
                entry_attrs entry_attrs ["h.example.com"] w_stored w_stored
                (Sample.host_entry "h.example.com"
                   {[ "usercertificate" := ["DER-1001"] ]}).2
                (VStr "REVSLTEwMDE=")) as [H _].
    + vm_compute. reflexivity.
    + vm_compute. reflexivity.
    + vm_compute. reflexivity.
    + vm_compute. reflexivity.
    + destruct (H "DER-1001" [] (mkCertificate "CN=h.example.com,O=EXAMPLE.COM" "1001"
                   "CN=Certificate Authority,O=EXAMPLE.COM"
                   "Mon Jan 04 00:00:00 2010 UTC" "Sat Jan 04 00:00:00 2020 UTC"
                   "1b:2c" "3d:4e")) as (w' & Hrun & Hrest).
      * vm_compute. reflexivity.
      * vm_compute. reflexivity.
      * exists w'. split; [exact Hrun | exact Hrest].
  - destruct (host_mod_certificate_write_once (env := Sample.env) dn dn
                entry_attrs entry_attrs ["h.example.com"] w_free w_free
                (Sample.host_entry "h.example.com" ∅).2
                (VStr "REVSLTEwMDE=")) as [_ H].
    + vm_compute. reflexivity.
    + vm_compute. reflexivity.
    + vm_compute. reflexivity.
    + vm_compute. reflexivity.
    + destruct (H "REVSLTEwMDE=" "DER-1001") as (w' & Hrun).
      * vm_compute. reflexivity.
      * reflexivity.
      * vm_compute. reflexivity.
      * exists w'. rewrite Hrun. vm_compute. reflexivity.
Defined.

(** C10 on a host with a stored certificate and an empty payload
    certificate. *)
Lemma host_mod_empty_certificate_skipped_witness :
  let dn := Sample.make_dn ["h.example.com"] in
  let w := Sample.world
    [Sample.host_entry "h.example.com" {[ "usercertificate" := ["DER-1001"] ]}] ∅ in
  let entry_attrs : payload :=
    {[ "usercertificate" := VStr ""; "description" := VStr "lab machine" ]} in
  host_mod_pre_callback (env := Sample.env) dn entry_attrs ["h.example.com"] w
    = (Ok (dn, entry_attrs), w).
Proof.
  intros dn w entry_attrs.
  destruct (host_mod_empty_certificate_skipped (env := Sample.env) dn entry_attrs
              ["h.example.com"] w (VStr "")) as (H & _).
  - vm_compute. reflexivity.
  - reflexivity.
  - rewrite H. vm_compute. reflexivity.
Defined.

(** C3.  [host_add.pre_callback] with an enrollment password on a class
    list that holds both markers: [krbprincipalaux] is removed,
    [krbprincipal] stays in the classes of the entry to create, which
    gets no principal. *)
Theorem host_add_with_password_keeps_krbprincipal :
  let dn := Sample.make_dn ["h2.example.com"] in
  let entry_attrs : payload :=
    {[ "userpassword" := VStr "Secret123";
       "objectclass" := VList (object_class ++ kerberos_markers) ]} in
  match host_add_pre_callback (env := Sample.env) true dn entry_attrs
          ["h2.example.com"] with
  | Ok (_, ea') =>
      ea' !! "objectclass" = Some (VList (object_class ++ ["krbprincipal"]))
      ∧ ea' !! "krbprincipalname" = None
  | Raise _ => False
  end.
Proof. vm_compute. split; reflexivity. Qed.

(** The class list of C3 arises from the list the [host] class
    declares: after one add without a password the shared list holds
    both markers, and the entry a second add creates with a password
    stores [krbprincipal] without a principal. *)
Lemma host_add_twice_on_shared_classes :
  let w := Sample.world [] ∅ in
  let password : payload := {[ "userpassword" := VStr "Secret123" ]} in
  match host_add (env := Sample.env) object_class true ["h1.example.com"] ∅ w with
  | (Ok shared, w1) =>
      shared = (object_class ++ kerberos_markers)%list
      ∧ match host_add (env := Sample.env) shared true ["h2.example.com"] password w1 with
        | (Ok shared', w2) =>
            shared' = (object_class ++ ["krbprincipal"])%list
            ∧ match lookup_dn (Sample.make_dn ["h2.example.com"]) (directory w2) with
              | Some e => has_class "krbprincipal" e = true
                          ∧ e !! "krbprincipalname" = None
              | None => False
              end
        | _ => False
        end
  | _ => False
  end.
Proof. vm_compute. repeat split; reflexivity. Qed.



(** The sample search over the services of a host is complete. *)
Lemma sample_search_complete (sizelimit : nat) (fqdn : string) :
  search_complete
    (env := Sample.env_with (Sample.paged_search Sample.of_host sizelimit)) fqdn.
Proof.
  intros tr stored. simpl. unfold Sample.paged_search.
  set (hits := List.filter (Sample.of_host fqdn) (elements stored)).
  destruct (sizelimit <? List.length hits)%nat eqn:Hlimit; [done |].
  apply Nat.ltb_ge in Hlimit.
  intros p Hp Hdep. exists (Sample.service_entry p), [].
  split; [| apply lookup_singleton_eq].
  apply list_elem_of_fmap. exists p. split; [done |].
  rewrite take_ge by done. subst hits.
  apply list_elem_of_In, filter_In. split.
  - by apply list_elem_of_In, elem_of_elements.
  - unfold dependent, hostname_of in Hdep. simpl in Hdep.
    unfold Sample.of_host.
    destruct (Sample.parse_principal "EXAMPLE.COM" p) as [[[service hostname] rlm] |];
      [| done].
    injection Hdep as Hdep. by apply bool_decide_eq_true_2.
Qed.

(** Delete of "h.example.com" with two services of its own and one of
    another host, against a search of page size one: two searches,
    both services deleted, then the host; one search is not enough. *)
Lemma host_del_example :
  let env1 := Sample.env_with (Sample.paged_search Sample.of_host 1) in
  let w := Sample.world [Sample.host_entry "h.example.com" ∅] Sample.three_services in
  (match host_del (env := env1) object_class 3 ["h.example.com"] w with
   | Some (Ok dn, w') =>
       dn = Sample.make_dn ["h.example.com"]
       ∧ directory w' = []
       ∧ services w' = {[ "HTTP/other.example.com@EXAMPLE.COM" ]}
       ∧ search_answers (trace w') = [Ok true; Ok false]
       ∧ last (trace w') = Some (DeleteEntry dn)
   | _ => False
   end)
  ∧ host_del (env := env1) object_class 1 ["h.example.com"] w = None.
Proof. vm_compute. repeat split; reflexivity. Qed.

(** The sample search over the services of a host, with a page size of
    at least one, is reliable. *)
Lemma sample_search_reliable (sizelimit : nat) (fqdn : string) :
  (0 < sizelimit)%nat →
  search_reliable
    (env := Sample.env_with (Sample.paged_search Sample.of_host sizelimit)) fqdn.
Proof.
  intros Hlimit tr stored. simpl. unfold Sample.paged_search.
  set (hits := List.filter (Sample.of_host fqdn) (elements stored)).
  assert (Hhits : ∀ p, p ∈ hits →
            p ∈ stored
            ∧ dependent
                (env := Sample.env_with (Sample.paged_search Sample.of_host sizelimit))
                fqdn p).
  { intros p Hp. apply list_elem_of_In, filter_In in Hp as [Hp Hhost].
    split; [by apply elem_of_elements, list_elem_of_In |].
    unfold dependent, hostname_of. simpl. unfold Sample.of_host in Hhost.
    destruct (Sample.parse_principal "EXAMPLE.COM" p) as [[[service hostname] rlm] |];
      [| done].
    f_equal. by apply bool_decide_eq_true_1 in Hhost. }
  exists (take sizelimit hits). split; [| split; [| split]].
  - unfold names. apply Forall2_fmap_l, Forall_Forall2_diag, Forall_forall.
    intros p _. exists []. apply lookup_singleton_eq.
  - apply (sublist_NoDup _ hits); [| apply sublist_take].
    subst hits. apply NoDup_ListNoDup, List.NoDup_filter,
      NoDup_ListNoDup, NoDup_elements.
  - intros p Hp. apply (subseteq_take sizelimit hits) in Hp.
    destruct (Hhits p Hp) as [Hstored Hdep]. split; [done |].
    exists fqdn. exact Hdep.
  - intros Htruncated. apply Nat.ltb_lt in Htruncated.
    destruct hits as [| p hits'] eqn:Heq; [simpl in Htruncated; lia |].
    destruct sizelimit as [| k]; [lia |].
    exists p. split; [by left |]. apply Hhits. by left.
Qed.

(** C5 (as amended) on the three services, with a page size of one:
    delete by the name of the host, and by its short name. *)
Lemma host_del_cascade_then_host_witness :
  let env1 := Sample.env_with (Sample.paged_search Sample.of_host 1) in
  let w := Sample.world [Sample.host_entry "h.example.com" ∅] Sample.three_services in
  let dn := Sample.make_dn ["h.example.com"] in
  let deleted (key : string) :=
    ∃ fuel w',
      host_del (env := env1) object_class fuel [key] w = Some (Ok dn, w')
      ∧ ("HTTP/h.example.com@EXAMPLE.COM" ∉ services w')
      ∧ ("ldap/h.example.com@EXAMPLE.COM" ∉ services w')
      ∧ ("HTTP/other.example.com@EXAMPLE.COM" ∈ services w')
      ∧ lookup_dn dn (directory w') = None in
  deleted "h.example.com" ∧ deleted "h".
Proof.
  intros env1 w dn deleted. split.
  - destruct (host_del_cascade_then_host (env := env1) object_class
                "h.example.com" "h.example.com" dn
                (Sample.host_entry "h.example.com" ∅).2 [] w)
      as (fuel & w2 & w' & Hrun & _ & _ & Hservices & Hsame & _ & _ & Hgone).
    + vm_compute. reflexivity.
    + vm_compute. reflexivity.
    + vm_compute. reflexivity.
    + vm_compute. reflexivity.
    + apply sample_search_reliable. lia.
    + apply sample_search_complete.
    + exists fuel, w'. split; [apply Hrun; lia |].
      rewrite Hsame. split; [| split; [| split]].
      * intros [_ Hnd]%Hservices. apply Hnd. vm_compute. reflexivity.
      * intros [_ Hnd]%Hservices. apply Hnd. vm_compute. reflexivity.
      * apply Hservices. split.
        -- unfold w, Sample.three_services. simpl. set_solver.
        -- vm_compute. discriminate.
      * exact Hgone.
  - destruct (host_del_cascade_then_host (env := env1) object_class
                "h" "h.example.com" dn
                (Sample.host_entry "h.example.com" ∅).2 [] w)
      as (fuel & w2 & w' & Hrun & _ & _ & Hservices & Hsame & _ & _ & Hgone).
    + vm_compute. reflexivity.
    + vm_compute. reflexivity.
    + vm_compute. reflexivity.
    + vm_compute. exact I.
    + apply sample_search_reliable. lia.
    + apply sample_search_complete.
    + exists fuel, w'. split; [apply Hrun; lia |].
      rewrite Hsame. split; [| split; [| split]].
      * intros [_ Hnd]%Hservices. apply Hnd. vm_compute. reflexivity.
      * intros [_ Hnd]%Hservices. apply Hnd. vm_compute. reflexivity.
      * apply Hservices. split.
        -- unfold w, Sample.three_services. simpl. set_solver.
        -- vm_compute. discriminate.
      * exact Hgone.
Defined.

(** With a text search of page size one, the service of another host
    whose name contains the name of the host fills every page: the page
    stays truncated and the loop is still running at every bound. *)
Lemma text_search_spins_on (fuel : nat) (d : list (string * entry))
    (tr : list call) :
  cascade (env := Sample.env_with (Sample.paged_search Sample.mentions 1)) fuel
    "h.example.com"
    {| directory := d;
       services := {[ "HTTP/h.example.com@EXAMPLE.COM";
                      "HTTP/xh.example.com@EXAMPLE.COM" ]};
       trace := tr |}
  = None.
Proof.
  revert tr. induction fuel as [| fuel IH]; intros tr; [done |].
  assert (Hpage : ∀ tr',
            Sample.paged_search Sample.mentions 1 tr' "h.example.com"
              {[ "HTTP/h.example.com@EXAMPLE.COM";
                 "HTTP/xh.example.com@EXAMPLE.COM" ]}
            = Ok ([Sample.service_entry "HTTP/xh.example.com@EXAMPLE.COM"], true))
    by (intros tr'; vm_compute; reflexivity).
  cbn [cascade]. unfold service_find.
  cbn [service_search Sample.env_with trace services].
  rewrite Hpage.
  unfold delete_services, getitem, first, from_option. unfold_monad.
  cbn [split_principal Sample.env_with].
  unfold Sample.service_entry. rewrite lookup_singleton_eq. cbn [head].
  assert (Hparse : Sample.parse_principal "EXAMPLE.COM"
                     "HTTP/xh.example.com@EXAMPLE.COM"
                   = Ok ("HTTP", "xh.example.com", "EXAMPLE.COM"))
    by (vm_compute; reflexivity).
  rewrite Hparse.
  rewrite bool_decide_eq_false_2 by (vm_compute; discriminate).
  apply IH.
Qed.

(** C5, counterexample.  The host "h.example.com" with one service of
    its own, and one service of the host "xh.example.com", against a
    text search of page size one: the delete does not return on any
    bound, so neither the service of the host nor the host entry is
    ever deleted. *)
Lemma host_del_need_not_complete :
  let env1 := Sample.env_with (Sample.paged_search Sample.mentions 1) in
  let w := Sample.world [Sample.host_entry "h.example.com" ∅]
             {[ "HTTP/h.example.com@EXAMPLE.COM";
                "HTTP/xh.example.com@EXAMPLE.COM" ]} in
  (∀ fuel, host_del (env := env1) object_class fuel ["h.example.com"] w = None)
  ∧ ¬ deleted_with_services (env := env1) object_class
        "h.example.com" "h.example.com" (Sample.make_dn ["h.example.com"]) w.
Proof.
  intros env1 w.
  assert (Hspin : ∀ fuel,
            host_del (env := env1) object_class fuel ["h.example.com"] w = None).
  { intros fuel. unfold host_del.
    assert (Hdn : get_dn (env := env1) object_class ["h.example.com"] w
                  = (Ok (Sample.make_dn ["h.example.com"]),
                     log (GetEntry (Sample.make_dn ["h.example.com"]) [""]) w))
      by (vm_compute; reflexivity).
    rewrite Hdn. unfold host_del_pre_callback.
    assert (Hname : ∀ w1, host_del_fqdn (env := env1) object_class
                            ["h.example.com"] w1
                          = (Ok "h.example.com", w1))
      by (intros w1; vm_compute; reflexivity).
    rewrite Hname. unfold log, w, Sample.world. simpl.
    by rewrite text_search_spins_on. }
  split; [exact Hspin |].
  intros (fuel & w' & Hrun & _). by rewrite Hspin in Hrun.
Qed.

(** Against a search that flags every page as truncated the loop is
    still running at every bound. *)
Lemma always_truncated_runs_on (fuel : nat) (fqdn : string) (w : World) :
  cascade (env := Sample.env_with Sample.always_truncated) fuel fqdn w = None.
Proof.
  revert w. induction fuel as [| fuel IH]; intros w; [done |].
  simpl. apply IH.
Qed.

(** C6, counterexample.  A sequence of search responses on which the
    loop does not terminate: every page truncated. *)
Lemma cascade_need_not_terminate :
  ¬ terminates (env := Sample.env_with Sample.always_truncated)
      "h.example.com" (Sample.world [] ∅).
Proof. intros [fuel Hfuel]. apply Hfuel. apply always_truncated_runs_on. Qed.

(** The same with a text search of page size one and two services of
    other hosts whose names contain the name of the host: the page
    never holds a service to delete and stays truncated. *)
Lemma text_search_can_spin (fuel : nat) (tr : list call) :
  cascade (env := Sample.env_with (Sample.paged_search Sample.mentions 1)) fuel
    "h.example.com"
    {| directory := [];
       services := {[ "HTTP/xh.example.com@EXAMPLE.COM";
                      "HTTP/yh.example.com@EXAMPLE.COM" ]};
       trace := tr |}
  = None.
Proof.
  revert tr. induction fuel as [| fuel IH]; intros tr; [done |].
  assert (Hpage : ∀ tr',
            Sample.paged_search Sample.mentions 1 tr' "h.example.com"
              {[ "HTTP/xh.example.com@EXAMPLE.COM";
                 "HTTP/yh.example.com@EXAMPLE.COM" ]}
            = Ok ([Sample.service_entry "HTTP/yh.example.com@EXAMPLE.COM"], true))
    by (intros tr'; vm_compute; reflexivity).
  cbn [cascade]. unfold service_find.
  cbn [service_search Sample.env_with trace services].
  rewrite Hpage.
  unfold delete_services, getitem, first, from_option. unfold_monad.
  cbn [split_principal Sample.env_with].
  unfold Sample.service_entry. rewrite lookup_singleton_eq. cbn [head].
  assert (Hparse : Sample.parse_principal "EXAMPLE.COM"
                     "HTTP/yh.example.com@EXAMPLE.COM"
                   = Ok ("HTTP", "yh.example.com", "EXAMPLE.COM"))
    by (vm_compute; reflexivity).
  rewrite Hparse.
  rewrite bool_decide_eq_false_2 by (vm_compute; discriminate).
  apply IH.
Qed.

(** A scripted search settles at the end of its script. *)
Lemma scripted_settles (script : list (list entry * bool)) (fqdn : string) :
  settles_after (env := Sample.env_with (Sample.scripted script))
    (List.length script) fqdn.
Proof.
  intros tr stored Hlen found. simpl. unfold Sample.scripted.
  rewrite lookup_ge_None_2 by done. done.
Qed.

(** C6 (as amended) on a search that answers two truncated pages and
    then a last one. *)
Lemma cascade_stops_at_first_final_answer_witness :
  let env1 := Sample.env_with (Sample.scripted [([], true); ([], true)]) in
  let w := Sample.world [] ∅ in
  terminates (env := env1) "h.example.com" w
  ∧ ∃ w' new,
      cascade (env := env1) 3 "h.example.com" w = Some (Ok (), w')
      ∧ trace w' = (trace w ++ new)%list
      ∧ search_answers new = [Ok true; Ok true; Ok false]
      ∧ cascade (env := env1) 2 "h.example.com" w = None.
Proof.
  intros env1 w.
  destruct (cascade_stops_at_first_final_answer (env := env1) "h.example.com" w)
    as [Hstops Hsettles].
  split.
  - apply (Hsettles 2%nat). apply (scripted_settles [([], true); ([], true)]).
  - destruct (cascade (env := env1) 3 "h.example.com" w) as [[r w'] |] eqn:Hrun;
      [| vm_compute in Hrun; discriminate Hrun].
    destruct (Hstops 3%nat r w' Hrun)
      as (n & last & new & Hn & Htrace & Hanswers & Hlow & _).
    assert (Hr : r = Ok ()) by (vm_compute in Hrun; congruence).
    subst r. exists w', new. split; [reflexivity |]. split; [exact Htrace |].
    assert (Hnew : search_answers (trace w') = search_answers new)
      by (rewrite Htrace; reflexivity).
    assert (Hw' : search_answers (trace w') = [Ok true; Ok true; Ok false])
      by (vm_compute in Hrun; injection Hrun as <-; vm_compute; reflexivity).
    split; [congruence |].
    apply Hlow. rewrite Hanswers in Hnew. rewrite Hw' in Hnew.
    destruct n as [| [| [| n]]]; simpl in Hnew; try discriminate Hnew; lia.
Defined.



(** Deleting a page of distinct stored services of the host succeeds
    and removes exactly them. *)
Lemma delete_services_of_host (sizelimit : nat) (fqdn : string)
    (page : list string) (w : World) :
  NoDup page →
  (∀ p, p ∈ page → p ∈ services w ∧ Sample.of_host fqdn p = true) →
  ∃ w',
    delete_services
      (env := Sample.env_with (Sample.paged_search Sample.of_host sizelimit))
      fqdn (Sample.service_entry <$> page) w = (Ok (), w')
    ∧ services w' = services w ∖ list_to_set page.
Proof.
  revert w. induction page as [| p page IH]; intros w Hnodup Hpage.
  { exists w. split; [done |]. simpl. set_solver. }
  apply NoDup_cons in Hnodup as [Hfresh Hnodup].
  destruct (Hpage p ltac:(left)) as [Hstored Hhost].
  cbn [fmap list_fmap delete_services].
  unfold getitem, first, from_option. unfold_monad.
  unfold Sample.service_entry at 1. rewrite lookup_singleton_eq. cbn [head].
  cbn [split_principal Sample.env_with].
  unfold Sample.of_host in Hhost.
  destruct (Sample.parse_principal "EXAMPLE.COM" p) as [[[service hostname] rlm] |];
    [| done].
  rewrite Hhost. unfold service_del.
  rewrite bool_decide_eq_true_2 by done.
  set (w1 := set_services _ _).
  destruct (IH w1 Hnodup) as (w' & Hrun & Hservices).
  { intros q Hq. destruct (Hpage q ltac:(by right)) as [Hq1 Hq2].
    split; [| done]. subst w1. simpl.
    apply elem_of_difference. split; [done |].
    intros ->%elem_of_singleton. done. }
  exists w'. fold (@fmap list _ _ _ Sample.service_entry page).
  rewrite Hrun. split; [done |].
  rewrite Hservices. subst w1. simpl. set_solver.
Qed.

(** Against the sample search over the services of the host, with a
    page size of at least one, the loop ends normally on every store. *)
Lemma paged_cascade_returns (sizelimit : nat) (fqdn : string) (w : World) :
  (0 < sizelimit)%nat →
  ∃ fuel w',
    cascade (env := Sample.env_with (Sample.paged_search Sample.of_host sizelimit))
      fuel fqdn w = Some (Ok (), w').
Proof.
  intros Hlimit.
  remember (size (services w)) as n eqn:Hn.
  revert w Hn. induction n as [n IH] using lt_wf_ind. intros w ->.
  set (hits := List.filter (Sample.of_host fqdn) (elements (services w))).
  set (w1 := log (ServiceFind fqdn (Ok (sizelimit <? List.length hits)%nat)) w).
  destruct (delete_services_of_host sizelimit fqdn (take sizelimit hits) w1)
    as (w2 & Hrun & Hservices).
  { apply (sublist_NoDup _ hits); [| apply sublist_take].
    subst hits. apply NoDup_ListNoDup, List.NoDup_filter,
      NoDup_ListNoDup, NoDup_elements. }
  { intros p Hp. apply (subseteq_take sizelimit hits) in Hp. subst hits.
    apply list_elem_of_In, filter_In in Hp as [Hp Hhost].
    split; [| done]. by apply elem_of_elements, list_elem_of_In. }
  assert (Hstep : ∀ fuel,
            cascade (env := Sample.env_with (Sample.paged_search Sample.of_host sizelimit))
              (S fuel) fqdn w
            = if (sizelimit <? List.length hits)%nat
              then cascade
                     (env := Sample.env_with (Sample.paged_search Sample.of_host sizelimit))
                     fuel fqdn w2
              else Some (Ok (), w2)).
  { intros fuel. cbn [cascade]. unfold service_find.
    change (service_search (trace w) fqdn (services w))
      with (Sample.paged_search Sample.of_host sizelimit (trace w) fqdn (services w)).
    assert (Hsearch :
              Sample.paged_search Sample.of_host sizelimit (trace w) fqdn (services w)
              = Ok (Sample.service_entry <$> take sizelimit hits,
                    (sizelimit <? List.length hits)%nat)) by reflexivity.
    rewrite Hsearch. fold w1. by rewrite Hrun. }
  destruct (sizelimit <? List.length hits)%nat eqn:Htrunc.
  - apply Nat.ltb_lt in Htrunc.
    destruct (IH (size (services w2))) with (w := w2) as (fuel & w' & Hrest);
      [| done |].
    + rewrite Hservices. subst w1. simpl.
      destruct hits as [| p hits'] eqn:Hhits; [simpl in Htrunc; lia |].
      destruct sizelimit as [| k]; [lia |]. simpl.
      apply subset_size.
      assert (Hp : p ∈ services w).
      { apply elem_of_elements, list_elem_of_In.
        assert (Hin : In p (List.filter (Sample.of_host fqdn) (elements (services w))))
          by (fold hits; rewrite Hhits; by left).
        by apply filter_In in Hin as [Hin _]. }
      set_solver.
    + exists (S fuel), w'. by rewrite Hstep.
  - exists 1%nat, w2. by rewrite Hstep.
Qed.

(** ** Further properties *)

Section Further.

Context `{env : Collaborators}.

(** What [self.object_class] holds when the command under study starts. *)
Variable shared : list string.

(** *** Further properties of the plugin *)

Lemma contains_char_split (s : string) (c : ascii) :
  Py.contains_char s c = true ↔ ∃ a b, s = a ++ String c b.
Proof.
  induction s as [| x s IH]; simpl.
  - split; [done |]. intros (a & b & H). by destruct a.
  - rewrite orb_true_iff, IH. split.
    + intros [Hx | (a & b & ->)].
      * apply bool_decide_eq_true_1 in Hx as ->. by exists "", s.
      * by exists (String x a), b.
    + intros (a & b & H). destruct a as [| y a].
      * injection H as -> ->. left. by apply bool_decide_eq_true_2.
      * injection H as -> ->. right. by exists a, b.
Qed.

(** X1.  [validate_host] accepts exactly the names that contain a dot:
    it answers [None] if and only if the name is some text, a dot, and
    some text (either may be empty), and the message "Fully-qualified
    hostname required" if and only if it is not. *)
Theorem validate_host_accepts_dotted (fqdn : string) :
  (validate_host fqdn = None ↔ ∃ a b, fqdn = a ++ "." ++ b)
  ∧ (validate_host fqdn = Some "Fully-qualified hostname required"
     ↔ ¬ ∃ a b, fqdn = a ++ "." ++ b).
Proof.
  unfold validate_host.
  destruct (Py.contains_char fqdn ".") eqn:Hdot.
  - assert (Hsplit : ∃ a b, fqdn = a ++ "." ++ b) by (by apply contains_char_split).
    split; split; done.
  - assert (Hnone : ¬ ∃ a b, fqdn = a ++ "." ++ b).
    { intros Hsplit. apply contains_char_split in Hsplit. congruence. }
    split; split; done.
Qed.

(** X2.  A key without a trailing dot that has an entry under its
    direct identifier resolves to that identifier with one read and no
    search. *)
Theorem get_dn_direct_hit (keys : list string) (key : string) (w : World)
    (e : entry) :
  last keys = Some key →
  Py.endswith_char key "." = false →
  lookup_dn (super_get_dn keys) (directory w) = Some e →
  get_dn shared keys w
  = (Ok (super_get_dn keys), log (GetEntry (super_get_dn keys) [""]) w).
Proof.
  intros Hlast Hdot Hlook. unfold get_dn, last_key, from_option. unfold_monad.
  rewrite Hlast, Hdot. by rewrite (get_entry_found _ _ _ _ Hlook).
Qed.

Lemma first_match_stored (attr val : string) (classes : list string)
    (d : list (string * entry)) (dn : string) (e : entry) :
  first_match attr val classes d = Some (dn, e) →
  (dn, e) ∈ d ∧ has_value attr val e = true.
Proof.
  induction d as [| [dn0 e0] d IH]; [done |]. simpl.
  destruct (has_value attr val e0 && has_classes classes e0) eqn:Hm.
  - intros [= -> ->]. apply andb_true_iff in Hm as [Hv _].
    split; [by left | done].
  - intros H. destruct (IH H) as [Hin Hv]. split; [by right | done].
Qed.

(** X3.  [get_dn] on a non-empty key tuple whose last key has no
    trailing dot always answers an identifier, never an error: the
    direct one, or that of a stored entry that carries the key as a
    [serverhostname] value.  Whatever the keys, it leaves the host
    entries and the services as they are and makes no update. *)
Theorem get_dn_answers_and_only_reads (keys : list string) (w : World) :
  (∀ key, last keys = Some key → Py.endswith_char key "." = false →
     ∃ dn, (get_dn shared keys w).1 = Ok dn
           ∧ (dn = super_get_dn keys
              ∨ ∃ e, (dn, e) ∈ directory w
                     ∧ has_value "serverhostname" key e = true))
  ∧ directory (get_dn shared keys w).2 = directory w
  ∧ services (get_dn shared keys w).2 = services w
  ∧ updates (get_dn shared keys w).2 = updates w.
Proof.
  split; [| apply get_dn_reads].
  intros key Hlast Hdot. rewrite (get_dn_value shared keys key w Hlast Hdot).
  eexists. split; [reflexivity |].
  destruct (lookup_dn _ _); [by left |].
  destruct (first_match _ _ _ _) as [[dn' e'] |] eqn:Hm; [| by left].
  right. exists e'. by eapply first_match_stored.
Qed.

(** X4.  A key with a trailing dot stops every command that resolves
    its key through [get_dn], before it reads or writes anything:
    modify, show, disable, delete and add all raise [TypeError] and
    leave the state, trace included, as it was. *)
Theorem trailing_dot_stops_every_command (keys : list string) (key : string)
    (w : World) :
  last keys = Some key →
  Py.endswith_char key "." = true →
  (∀ entry_attrs, host_mod shared keys entry_attrs w = (Raise TypeError, w))
  ∧ (∀ all, host_show shared keys all w = (Raise TypeError, w))
  ∧ host_disable shared keys w = (Raise TypeError, w)
  ∧ (∀ fuel, host_del shared fuel keys w = Some (Raise TypeError, w))
  ∧ (∀ force entry_attrs,
       host_add shared force keys entry_attrs w = (Raise TypeError, w)).
Proof.
  intros Hlast Hdot.
  pose proof (get_dn_trailing_dot shared keys key w Hlast Hdot) as Hdn.
  repeat split; intros;
    unfold host_mod, host_show, host_disable, host_del, host_add;
    unfold_monad; by rewrite Hdn.
Qed.

(** **** [host_add.pre_callback] *)

(** What a successful run of the hook returns, whatever the payload. *)
Lemma host_add_pre_callback_ok (force : bool) (dn dn' : string)
    (entry_attrs ea' : payload) (keys : list string) :
  host_add_pre_callback force dn entry_attrs keys = Ok (dn', ea') →
  ∃ key oc oc',
    last keys = Some key
    ∧ dn' = dn
    ∧ entry_attrs !! "objectclass" = Some oc
    ∧ host_add_objectclass
        (negb (bool_decide (entry_attrs !! "userpassword" = None))) oc = Ok oc'
    ∧ ea' = <["managedby" := VStr dn]>
              (<["objectclass" := oc']>
                 ((if bool_decide (entry_attrs !! "userpassword" = None)
                   then <["krbprincipalname" :=
                            VStr ("host/" ++ key ++ "@" ++ realm)]>
                   else id)
                    (<["serverhostname" := VStr (Py.split_first key ".")]>
                       (<["cn" := VStr key]> (alias_locality entry_attrs))))).
Proof.
  unfold host_add_pre_callback, last_key, from_option. unfold_monad.
  destruct (last keys) as [key |]; [| by destruct force].
  destruct (if negb force then _ else _); [| done].
  rewrite !lookup_insert_ne by done.
  rewrite (alias_locality_lookup _ "userpassword") by done.
  unfold getitem, from_option.
  destruct (entry_attrs !! "userpassword") as [pw |] eqn:Hpw; simpl.
  - rewrite !lookup_insert_ne by done.
    rewrite (alias_locality_lookup _ "objectclass") by done.
    destruct (entry_attrs !! "objectclass") as [oc |]; [| done].
    destruct (host_add_objectclass true oc) as [oc' |] eqn:Hoc; [| done].
    intros [= <- <-]. by exists key, oc, oc'.
  - rewrite !lookup_insert_ne by done.
    rewrite (alias_locality_lookup _ "objectclass") by done.
    destruct (entry_attrs !! "objectclass") as [oc |]; [| done].
    destruct (host_add_objectclass false oc) as [oc' |] eqn:Hoc; [| done].
    intros [= <- <-]. by exists key, oc, oc'.
Qed.

(** X5.  The DNS check of add: without [force], a name that does not
    resolve stops the hook with [DNSNotARecordError] whatever the
    payload; with [force] the hook never raises that error. *)
Theorem host_add_checks_dns_unless_forced (dn : string) (entry_attrs : payload)
    (keys : list string) :
  (∀ key, last keys = Some key → dns_resolvable key = false →
     host_add_pre_callback false dn entry_attrs keys = Raise DNSNotARecordError)
  ∧ host_add_pre_callback true dn entry_attrs keys ≠ Raise DNSNotARecordError.
Proof.
  split.
  - intros key Hlast Hdns.
    unfold host_add_pre_callback, last_key, from_option. unfold_monad.
    by rewrite Hlast, Hdns.
  - unfold host_add_pre_callback, last_key, from_option, getitem, from_option.
    unfold_monad. simpl.
    destruct (last keys) as [key |]; [| done].
    destruct (bool_decide _).
    + destruct (_ !! "objectclass") as [oc |]; [| done].
      unfold host_add_objectclass, py_in, py_append. unfold_monad.
      destruct oc; simpl; try done; repeat case_match; simplify_eq; done.
    + destruct (_ !! "objectclass") as [oc |]; [| done].
      unfold host_add_objectclass, py_in, py_remove, from_option. unfold_monad.
      destruct oc; simpl; try done; repeat case_match; simplify_eq; done.
Qed.

(** X6.  What a successful add hook derives from the key: it returns
    the identifier it was given, sets [cn] to the key, [managedby] to
    the identifier, and [serverhostname] to the text of the key before
    its first dot (the whole key when it has none). *)
Theorem host_add_derives_names (force : bool) (dn dn' : string)
    (entry_attrs ea' : payload) (keys : list string) :
  host_add_pre_callback force dn entry_attrs keys = Ok (dn', ea') →
  dn' = dn
  ∧ ea' !! "managedby" = Some (VStr dn)
  ∧ ∃ key short,
      last keys = Some key
      ∧ ea' !! "cn" = Some (VStr key)
      ∧ ea' !! "serverhostname" = Some (VStr short)
      ∧ Py.contains_char short "." = false
      ∧ (key = short ∨ ∃ rest, key = short ++ "." ++ rest).
Proof.
  intros Hrun.
  destruct (host_add_pre_callback_ok _ _ _ _ _ _ Hrun)
    as (key & oc & oc' & Hlast & -> & _ & _ & ->).
  split; [done |]. split; [by rewrite lookup_insert_eq |].
  exists key, (Py.split_first key ".").
  split; [done |].
  assert (Hlook : ∀ k v, k ≠ "managedby" → k ≠ "objectclass" →
            k ≠ "krbprincipalname" →
            <["serverhostname" := VStr (Py.split_first key ".")]>
              (<["cn" := VStr key]> (alias_locality entry_attrs)) !! k = Some v →
            <["managedby" := VStr dn]>
              (<["objectclass" := oc']>
                 ((if bool_decide (entry_attrs !! "userpassword" = None)
                   then <["krbprincipalname" :=
                            VStr ("host/" ++ key ++ "@" ++ realm)]>
                   else id)
                    (<["serverhostname" := VStr (Py.split_first key ".")]>
                       (<["cn" := VStr key]> (alias_locality entry_attrs)))))
              !! k = Some v).
  { intros k v H1 H2 H3 H. rewrite !lookup_insert_ne by done.
    destruct (bool_decide _); [by rewrite lookup_insert_ne | done]. }
  split; [apply Hlook; try done; by rewrite lookup_insert_ne, lookup_insert_eq |].
  split; [apply Hlook; try done; by rewrite lookup_insert_eq |].
  clear. induction key as [| x key IH]; [split; [done | by left] |].
  simpl. case_bool_decide as Hx.
  - subst x. split; [done |]. right. by exists key.
  - destruct IH as [IH1 IH2]. split.
    + simpl. by rewrite bool_decide_eq_false_2, IH1.
    + destruct IH2 as [IH2 | [rest IH2]].
      * left. by rewrite <- IH2.
      * right. exists rest. rewrite IH2 at 1. done.
Qed.

(** **** The [locality] alias *)

Lemma alias_locality_locality (entry_attrs : payload) :
  alias_locality entry_attrs !! "locality" = None.
Proof.
  unfold alias_locality.
  destruct (entry_attrs !! "locality") eqn:H; [| done].
  apply lookup_delete_eq.
Qed.

Lemma alias_locality_l (entry_attrs : payload) :
  alias_locality entry_attrs !! "l" =
    match entry_attrs !! "locality" with
    | Some v => Some v
    | None => entry_attrs !! "l"
    end.
Proof.
  unfold alias_locality.
  destruct (entry_attrs !! "locality") eqn:H; [| done].
  rewrite lookup_delete_ne by done. apply lookup_insert_eq.
Qed.

(** X7.  The alias step of add and modify moves a [locality] value to
    [l], replacing an [l] value given beside it, and touches no other
    field; doing it twice is doing it once. *)
Theorem alias_locality_moves_field (entry_attrs : payload) :
  alias_locality entry_attrs !! "locality" = None
  ∧ alias_locality entry_attrs !! "l" =
      match entry_attrs !! "locality" with
      | Some v => Some v
      | None => entry_attrs !! "l"
      end
  ∧ (∀ k, k ≠ "locality" → k ≠ "l" →
          alias_locality entry_attrs !! k = entry_attrs !! k)
  ∧ alias_locality (alias_locality entry_attrs) = alias_locality entry_attrs.
Proof.
  split; [apply alias_locality_locality |].
  split; [apply alias_locality_l |].
  split; [intros k; apply alias_locality_lookup |].
  unfold alias_locality at 1. by rewrite alias_locality_locality.
Qed.

(** X8.  A successful add hook hands on the payload with [locality]
    moved to [l], and with every field it does not set itself ([cn],
    [serverhostname], [krbprincipalname], [objectclass], [managedby])
    as it came. *)
Theorem host_add_keeps_other_fields (force : bool) (dn dn' : string)
    (entry_attrs ea' : payload) (keys : list string) :
  host_add_pre_callback force dn entry_attrs keys = Ok (dn', ea') →
  ea' !! "locality" = None
  ∧ ea' !! "l" =
      match entry_attrs !! "locality" with
      | Some v => Some v
      | None => entry_attrs !! "l"
      end
  ∧ ∀ k, k ∉ ["locality"; "l"; "cn"; "serverhostname"; "krbprincipalname";
               "objectclass"; "managedby"] →
         ea' !! k = entry_attrs !! k.
Proof.
  intros Hrun.
  destruct (host_add_pre_callback_ok _ _ _ _ _ _ Hrun)
    as (key & oc & oc' & Hlast & -> & _ & _ & ->).
  assert (Hlook : ∀ k, k ∉ ["cn"; "serverhostname"; "krbprincipalname";
                             "objectclass"; "managedby"] →
            <["managedby" := VStr dn]>
              (<["objectclass" := oc']>
                 ((if bool_decide (entry_attrs !! "userpassword" = None)
                   then <["krbprincipalname" :=
                            VStr ("host/" ++ key ++ "@" ++ realm)]>
                   else id)
                    (<["serverhostname" := VStr (Py.split_first key ".")]>
                       (<["cn" := VStr key]> (alias_locality entry_attrs)))))
              !! k = alias_locality entry_attrs !! k).
  { intros k Hk.
    rewrite !lookup_insert_ne by (intros <-; apply Hk; set_solver).
    destruct (bool_decide _); simpl;
      rewrite !lookup_insert_ne by (intros <-; apply Hk; set_solver); done. }
  split; [rewrite Hlook by set_solver; apply alias_locality_locality |].
  split; [rewrite Hlook by set_solver; apply alias_locality_l |].
  intros k Hk. rewrite Hlook by set_solver.
  apply alias_locality_lookup; intros ->; apply Hk; set_solver.
Qed.

(** X9.  The add hook needs the object classes in the payload: once
    the DNS check has passed, a payload without [objectclass] stops it
    with [KeyError], and one whose [objectclass] is [None] with
    [TypeError]. *)
Theorem host_add_needs_object_classes (force : bool) (dn : string)
    (entry_attrs : payload) (keys : list string) (key : string) :
  last keys = Some key →
  force = true ∨ dns_resolvable key = true →
  (entry_attrs !! "objectclass" = None →
     host_add_pre_callback force dn entry_attrs keys
     = Raise (KeyError "objectclass"))
  ∧ (entry_attrs !! "objectclass" = Some VNone →
     host_add_pre_callback force dn entry_attrs keys = Raise TypeError).
Proof.
  intros Hlast Hdns.
  assert (Hcheck : (if negb force
                    then if dns_resolvable key then Ok () else Raise DNSNotARecordError
                    else Ok ()) = Ok ()).
  { destruct Hdns as [-> | ->]; [done | by destruct force]. }
  split; intros Hoc;
    unfold host_add_pre_callback, last_key, from_option; unfold_monad;
    rewrite Hlast, Hcheck; unfold getitem, from_option;
    destruct (bool_decide _);
    rewrite !lookup_insert_ne by done;
    rewrite (alias_locality_lookup _ "objectclass") by done;
    by rewrite Hoc.
Qed.

Lemma count_occ_list_remove (x y : string) (l l' : list string) :
  Py.list_remove x l = Some l' →
  count_occ string_dec l' y =
    if bool_decide (y = x) then pred (count_occ string_dec l y)
    else count_occ string_dec l y.
Proof.
  revert l'. induction l as [| a l IH]; intros l' Hr; [done |]. simpl in Hr.
  case_bool_decide as Ha.
  - injection Hr as <-. subst a. simpl.
    destruct (string_dec x y) as [-> | Hne].
    + by rewrite bool_decide_eq_true_2.
    + by rewrite bool_decide_eq_false_2.
  - destruct (Py.list_remove x l) as [l0 |]; [| done].
    injection Hr as <-. simpl. rewrite (IH l0 eq_refl).
    destruct (string_dec a y) as [-> | Hne]; [| done].
    by rewrite bool_decide_eq_false_2.
Qed.

(** X10.  What the add hook does to a list of object classes: every
    class other than [krbprincipalaux] stays, a list with
    [krbprincipalaux] at most once is left so, without a password
    [krbprincipalaux] is in the list afterwards, and with a password a
    list that held it at most once no longer holds it. *)
Theorem host_add_object_classes (force : bool) (dn dn' : string)
    (entry_attrs ea' : payload) (keys : list string) (l : list string) :
  host_add_pre_callback force dn entry_attrs keys = Ok (dn', ea') →
  entry_attrs !! "objectclass" = Some (VList l) →
  ∃ l',
    ea' !! "objectclass" = Some (VList l')
    ∧ (∀ c, c ≠ "krbprincipalaux" → c ∈ l → c ∈ l')
    ∧ ((count_occ string_dec l "krbprincipalaux" ≤ 1)%nat →
       (count_occ string_dec l' "krbprincipalaux" ≤ 1)%nat)
    ∧ (entry_attrs !! "userpassword" = None → "krbprincipalaux" ∈ l')
    ∧ (is_Some (entry_attrs !! "userpassword") →
       (count_occ string_dec l "krbprincipalaux" ≤ 1)%nat →
       "krbprincipalaux" ∉ l').
Proof.
  intros Hrun Hoc.
  destruct (host_add_pre_callback_inv _ _ _ _ _ _ Hrun) as (key & Hlast & Hdns).
  destruct (host_add_pre_callback_run force dn entry_attrs keys key l Hlast Hdns Hoc)
    as (ea0 & Hrun0 & Hoc' & _).
  rewrite Hrun in Hrun0. injection Hrun0 as _ ->.
  eexists. split; [exact Hoc' |].
  destruct (entry_attrs !! "userpassword") as [pw |] eqn:Hpw; simpl.
  - destruct (Py.list_remove "krbprincipalaux" l) as [l0 |] eqn:Hr; simpl.
    + split; [intros c Hc Hin; by apply (list_remove_elem_of _ _ _ _ Hr) |].
      split.
      { intros Honce. rewrite (count_occ_list_remove _ _ _ _ Hr).
        rewrite bool_decide_eq_true_2 by done. lia. }
      split; [done |]. intros _ Honce. by eapply list_remove_once.
    + split; [done |]. split; [done |]. split; [done |].
      intros _ _. by apply list_remove_None.
  - destruct (decide ("krbprincipalaux" ∈ l)) as [Hin | Hout].
    + rewrite bool_decide_eq_true_2 by done.
      split; [done |]. split; [done |]. split; [done |]. by intros [? ?].
    + rewrite bool_decide_eq_false_2 by done.
      split; [intros c _ Hc; apply elem_of_app; by left |].
      split.
      { intros _. rewrite count_occ_app. simpl.
        assert (count_occ string_dec l "krbprincipalaux" = 0%nat) as ->.
        { apply count_occ_not_In. by rewrite <- list_elem_of_In. }
        done. }
      split; [intros _; set_solver |]. by intros [? ?].
Qed.

(** **** [host_mod.pre_callback] *)

(** X11.  The modify hook only reads: whatever the payload and however
    it ends, the host entries and the services are as before and no
    update has been made; when it succeeds it returns the identifier it
    was given. *)
Theorem host_mod_hook_only_reads (dn : string) (entry_attrs : payload)
    (keys : list string) (w : World) :
  directory (host_mod_pre_callback dn entry_attrs keys w).2 = directory w
  ∧ services (host_mod_pre_callback dn entry_attrs keys w).2 = services w
  ∧ updates (host_mod_pre_callback dn entry_attrs keys w).2 = updates w
  ∧ ∀ dn' ea', (host_mod_pre_callback dn entry_attrs keys w).1 = Ok (dn', ea') →
               dn' = dn.
Proof.
  pose proof (host_mod_pre_callback_reads dn entry_attrs keys w) as (Hd & Hs & Hu).
  split; [done |]. split; [done |]. split; [done |].
  intros dn' ea'. unfold host_mod_pre_callback. unfold_monad.
  destruct (host_mod_principal dn (alias_locality entry_attrs) w)
    as [[[dn1 ea1] |] w1] eqn:Hp; [| done].
  destruct (host_mod_principal_ok _ _ _ _ _ _ Hp) as [-> _].
  destruct (host_mod_certificate dn ea1 w1) as [[[dn2 ea2] |] w2] eqn:Hc; [| done].
  destruct (host_mod_certificate_ok _ _ _ _ _ _ Hc) as [-> _].
  simpl. by intros [= <- _].
Qed.

(** X12.  A modify of descriptive fields asks the directory nothing:
    for a payload without [krbprincipalname] and without a certificate
    value that counts as true, the hook returns at once with the
    payload after the alias step, the trace unchanged. *)
Theorem host_mod_plain_fields_need_no_read (dn : string) (entry_attrs : payload)
    (keys : list string) (w : World) :
  entry_attrs !! "krbprincipalname" = None →
  truthy (default VNone (entry_attrs !! "usercertificate")) = false →
  host_mod_pre_callback dn entry_attrs keys w
  = (Ok (dn, alias_locality entry_attrs), w).
Proof.
  intros Hprincipal Hcert. unfold host_mod_pre_callback. unfold_monad.
  rewrite host_mod_principal_untouched by (by rewrite alias_locality_lookup).
  unfold host_mod_certificate.
  rewrite alias_locality_lookup by done. by rewrite Hcert.
Qed.

(** X13.  The principal is checked before the certificate: when the
    payload sets both and the entry stores a principal, the hook raises
    the [ACIError] after its first read, whatever certificate the entry
    stores, and the certificate is never read. *)
Theorem host_mod_checks_principal_first (dn : string) (entry_attrs : payload)
    (keys : list string) (w : World) (e : entry) :
  lookup_dn dn (directory w) = Some e →
  is_Some (entry_attrs !! "krbprincipalname") →
  is_Some (e !! "krbprincipalname") →
  host_mod_pre_callback dn entry_attrs keys w
  = (Raise (ACIError principal_unchangeable),
     log (GetEntry dn ["objectclass"; "krbprincipalname"]) w).
Proof.
  intros Hlook Hset Hstored. unfold host_mod_pre_callback. unfold_monad.
  unfold host_mod_principal. unfold_monad.
  rewrite bool_decide_eq_true_2 by (by rewrite alias_locality_lookup).
  rewrite (get_entry_found _ _ _ _ Hlook).
  rewrite bool_decide_eq_true_2; [done |].
  rewrite project_lookup_in; [done | set_solver].
Qed.

(** X14.  A modify that has to read an entry that is not there fails
    with [NotFound]: so for a payload that sets the principal, and so
    for one that sets a certificate value that counts as true. *)
Theorem host_mod_missing_entry (dn : string) (entry_attrs : payload)
    (keys : list string) (w : World) :
  lookup_dn dn (directory w) = None →
  is_Some (entry_attrs !! "krbprincipalname")
  ∨ truthy (default VNone (entry_attrs !! "usercertificate")) = true →
  (host_mod_pre_callback dn entry_attrs keys w).1 = Raise NotFound.
Proof.
  intros Hmiss Hreads. unfold host_mod_pre_callback. unfold_monad.
  destruct (decide (is_Some (entry_attrs !! "krbprincipalname"))) as [Hp | Hp].
  - unfold host_mod_principal. unfold_monad.
    rewrite bool_decide_eq_true_2 by (by rewrite alias_locality_lookup).
    by rewrite (get_entry_missing _ _ _ Hmiss).
  - destruct Hreads as [Hreads | Hcert]; [done |].
    rewrite host_mod_principal_untouched; last first.
    { rewrite alias_locality_lookup by done.
      destruct (entry_attrs !! "krbprincipalname") eqn:E; [| done].
      by destruct Hp. }
    unfold host_mod_certificate. unfold_monad.
    rewrite alias_locality_lookup by done. rewrite Hcert.
    by rewrite (get_entry_missing _ _ _ Hmiss).
Qed.

(** X15.  With no certificate stored, an incoming certificate that
    base64 does not decode, or that is not text at all, stops the hook
    with [TypeError]. *)
Theorem host_mod_rejects_undecodable_certificate (dn : string)
    (entry_attrs : payload) (keys : list string) (w : World) (e : entry)
    (cert : value) :
  lookup_dn dn (directory w) = Some e →
  e !! "usercertificate" = None →
  entry_attrs !! "krbprincipalname" = None →
  entry_attrs !! "usercertificate" = Some cert →
  truthy cert = true →
  match cert with
  | VStr s => b64decode s = None
  | _ => True
  end →
  (host_mod_pre_callback dn entry_attrs keys w).1 = Raise TypeError.
Proof.
  intros Hlook Hnone Hprincipal Hcert Htruthy Hbad.
  unfold host_mod_pre_callback. unfold_monad.
  rewrite host_mod_principal_untouched by (by rewrite alias_locality_lookup).
  unfold host_mod_certificate. unfold_monad.
  rewrite alias_locality_lookup by done. rewrite Hcert. simpl. rewrite Htruthy.
  rewrite (get_entry_found _ _ _ _ Hlook).
  rewrite bool_decide_eq_false_2; last first.
  { rewrite project_lookup_in; [| set_solver]. rewrite Hnone. by intros [? ?]. }
  unfold from_option. destruct cert; try done. by rewrite Hbad.
Qed.

(** **** [host_show.post_callback] *)

(** The output of the first statement of the hook. *)
Lemma host_show_post_callback_ok (dn dn' : string) (entry_attrs ea' : payload)
    (all : bool) :
  host_show_post_callback dn entry_attrs all = Ok (dn', ea') →
  ∃ flagged,
  flagged =
    (if bool_decide (is_Some (entry_attrs !! "krblastpwdchange")) then
       (if negb all then delete "krblastpwdchange" else id)
         (<["has_keytab" := VBool true]> entry_attrs)
     else <["has_keytab" := VBool false]> entry_attrs)
  ∧ dn' = dn
  ∧ (ea' = flagged
     ∨ ∃ stored der cert,
         entry_attrs !! "usercertificate" = Some stored
         ∧ py_first stored = Ok der
         ∧ load_certificate der = Some cert
         ∧ ea' = attach_certificate cert flagged).
Proof.
  unfold host_show_post_callback. intros Hrun.
  eexists. split; [reflexivity |].
  destruct (bool_decide (is_Some (entry_attrs !! "krblastpwdchange")));
    [destruct all |]; simpl in *;
    rewrite ?lookup_delete_ne in Hrun by done;
    rewrite lookup_insert_ne in Hrun by done;
    (destruct (entry_attrs !! "usercertificate") as [stored |];
     [ unfold from_option in Hrun; unfold_monad;
       destruct (py_first stored) as [der |] eqn:Hder; [| done];
       destruct (load_certificate der) as [cert |] eqn:Hparse; [| done];
       injection Hrun as <- <-; split; [done |]; right;
       by exists stored, der, cert
     | injection Hrun as <- <-; split; [done |]; by left ]).
Qed.

Lemma attach_certificate_other (cert : certificate) (p : payload) (k : string) :
  k ∉ ["subject"; "serial_number"; "issuer"; "valid_not_before";
       "valid_not_after"; "md5_fingerprint"; "sha1_fingerprint"] →
  attach_certificate cert p !! k = p !! k.
Proof.
  intros Hk. unfold attach_certificate.
  rewrite !lookup_insert_ne by (intros <-; apply Hk; set_solver). done.
Qed.

(** X16.  When the show hook succeeds, [has_keytab] says whether the
    entry came with a [krblastpwdchange] attribute, and that attribute
    itself is in the output only if it came in and all attributes were
    asked for; the identifier is returned as given. *)
Theorem host_show_has_keytab (dn dn' : string) (entry_attrs ea' : payload)
    (all : bool) :
  host_show_post_callback dn entry_attrs all = Ok (dn', ea') →
  dn' = dn
  ∧ ea' !! "has_keytab"
    = Some (VBool (bool_decide (is_Some (entry_attrs !! "krblastpwdchange"))))
  ∧ ea' !! "krblastpwdchange"
    = if all then entry_attrs !! "krblastpwdchange" else None.
Proof.
  intros Hrun.
  destruct (host_show_post_callback_ok _ _ _ _ _ Hrun) as (fl & Hfl & -> & Hea).
  split; [done |].
  assert (Hflag :
    ∀ flagged,
      flagged = (if bool_decide (is_Some (entry_attrs !! "krblastpwdchange")) then
                   (if negb all then delete "krblastpwdchange" else id)
                     (<["has_keytab" := VBool true]> entry_attrs)
                 else <["has_keytab" := VBool false]> entry_attrs) →
      flagged !! "has_keytab"
      = Some (VBool (bool_decide (is_Some (entry_attrs !! "krblastpwdchange"))))
      ∧ flagged !! "krblastpwdchange"
        = if all then entry_attrs !! "krblastpwdchange" else None).
  { intros flagged ->. case_bool_decide as Hts.
    - destruct all; simpl.
      + by rewrite lookup_insert_eq, lookup_insert_ne.
      + by rewrite lookup_delete_ne, lookup_insert_eq, lookup_delete_eq.
    - rewrite lookup_insert_eq, lookup_insert_ne by done.
      split; [done |]. destruct (entry_attrs !! "krblastpwdchange") eqn:E.
      + destruct Hts. by eexists.
      + by destruct all. }
  destruct Hea as [-> | (stored & der & cert & _ & _ & _ & ->)].
  - by apply Hflag.
  - rewrite !attach_certificate_other by set_solver. by apply Hflag.
Qed.

(** X17.  The certificate fields of show.  For an entry without a
    certificate the hook succeeds; for one whose first certificate
    parses it succeeds and attaches the seven fields of the parsed
    certificate; for one whose first certificate does not parse it
    raises the parser's error, and for an empty list of certificates
    [IndexError]. *)
Theorem host_show_certificate_fields (dn : string) (entry_attrs : payload)
    (all : bool) :
  (entry_attrs !! "usercertificate" = None →
     ∃ ea', host_show_post_callback dn entry_attrs all = Ok (dn, ea'))
  ∧ (∀ der rest cert,
       entry_attrs !! "usercertificate" = Some (VList (der :: rest)) →
       load_certificate der = Some cert →
       ∃ ea',
         host_show_post_callback dn entry_attrs all = Ok (dn, ea')
         ∧ ea' !! "subject" = Some (VStr (subject cert))
         ∧ ea' !! "serial_number" = Some (VStr (serial_number cert))
         ∧ ea' !! "issuer" = Some (VStr (issuer cert))
         ∧ ea' !! "valid_not_before" = Some (VStr (valid_not_before_str cert))
         ∧ ea' !! "valid_not_after" = Some (VStr (valid_not_after_str cert))
         ∧ ea' !! "md5_fingerprint" = Some (VStr (md5_fingerprint cert))
         ∧ ea' !! "sha1_fingerprint" = Some (VStr (sha1_fingerprint cert)))
  ∧ (∀ der rest,
       entry_attrs !! "usercertificate" = Some (VList (der :: rest)) →
       load_certificate der = None →
       host_show_post_callback dn entry_attrs all = Raise CertificateError)
  ∧ (entry_attrs !! "usercertificate" = Some (VList []) →
     host_show_post_callback dn entry_attrs all = Raise IndexError).
Proof.
  assert (Hcert : ∀ flagged,
    flagged = (if bool_decide (is_Some (entry_attrs !! "krblastpwdchange"))
               then let entry_attrs0 := <["has_keytab" := VBool true]> entry_attrs in
                    if negb all then delete "krblastpwdchange" entry_attrs0
                    else entry_attrs0
               else <["has_keytab" := VBool false]> entry_attrs) →
    flagged !! "usercertificate" = entry_attrs !! "usercertificate").
  { intros flagged ->. destruct (bool_decide _).
    - destruct all; simpl; rewrite ?lookup_delete_ne by done;
        by rewrite lookup_insert_ne.
    - by rewrite lookup_insert_ne. }
  unfold host_show_post_callback. unfold_monad.
  rewrite (Hcert _ eq_refl).
  split; [intros ->; by eexists |]. split; [| split].
  - intros der rest cert -> Hparse. simpl. rewrite Hparse. simpl.
    eexists. split; [reflexivity |]. unfold attach_certificate.
    repeat split;
      repeat first [rewrite lookup_insert_eq | rewrite lookup_insert_ne by done];
      done.
  - intros der rest -> Hparse. simpl. by rewrite Hparse.
  - by intros ->.
Qed.

(** X18.  The show hook passes every attribute through that it does
    not derive: all but [has_keytab], [krblastpwdchange] and the seven
    certificate fields come out as they went in. *)
Theorem host_show_keeps_other_attributes (dn dn' : string)
    (entry_attrs ea' : payload) (all : bool) (k : string) :
  host_show_post_callback dn entry_attrs all = Ok (dn', ea') →
  k ∉ ["has_keytab"; "krblastpwdchange"; "subject"; "serial_number"; "issuer";
       "valid_not_before"; "valid_not_after"; "md5_fingerprint";
       "sha1_fingerprint"] →
  ea' !! k = entry_attrs !! k.
Proof.
  intros Hrun Hk.
  destruct (host_show_post_callback_ok _ _ _ _ _ Hrun) as (fl & -> & _ & Hea).
  assert (Hflag :
    (if bool_decide (is_Some (entry_attrs !! "krblastpwdchange")) then
       (if negb all then delete "krblastpwdchange" else id)
         (<["has_keytab" := VBool true]> entry_attrs)
     else <["has_keytab" := VBool false]> entry_attrs) !! k = entry_attrs !! k).
  { destruct (bool_decide _).
    - destruct all; simpl;
        rewrite ?lookup_delete_ne by (intros <-; apply Hk; set_solver);
        by rewrite lookup_insert_ne by (intros <-; apply Hk; set_solver).
    - by rewrite lookup_insert_ne by (intros <-; apply Hk; set_solver). }
  destruct Hea as [-> | (stored & der & cert & _ & _ & _ & ->)]; [done |].
  rewrite attach_certificate_other; [done |].
  intros Hin. apply Hk. set_solver.
Qed.

(** **** [host_disable.execute] *)

Lemma lookup_replace_dn_other (dn dn0 : string) (e : entry)
    (d : list (string * entry)) :
  dn0 ≠ dn → lookup_dn dn0 (replace_dn dn e d) = lookup_dn dn0 d.
Proof.
  intros Hne. induction d as [| [dn1 e1] d IH]; [done |]. simpl.
  case_bool_decide as H1; simpl.
  - subst dn1. by rewrite !bool_decide_eq_false_2 by done.
  - destruct (bool_decide (dn1 = dn0)); [done | exact IH].
Qed.

Lemma key_attributes_lookup (e : entry) (k : string) :
  apply_payload key_attributes e !! k =
    if bool_decide (k = "krbprincipalkey" ∨ k = "krblastpwdchange") then None
    else e !! k.
Proof.
  rewrite apply_payload_lookup. unfold key_attributes.
  destruct (decide (k = "krbprincipalkey")) as [-> | H1].
  { rewrite lookup_insert_eq. by rewrite bool_decide_eq_true_2 by (by left). }
  rewrite lookup_insert_ne by done.
  destruct (decide (k = "krblastpwdchange")) as [-> | H2].
  { rewrite lookup_singleton_eq. by rewrite bool_decide_eq_true_2 by (by right). }
  rewrite lookup_singleton_ne by done.
  by rewrite bool_decide_eq_false_2 by (by intros [? | ?]).
Qed.

(** X19.  Disable on a host without key material: when the entry the
    key resolves to has no [krblastpwdchange], the command raises
    [NotFound] without calling the backend's key removal; the host
    entries are as before and no update was made. *)
Theorem host_disable_without_key (keys : list string) (w w1 : World)
    (dn : string) (e : entry) :
  get_dn shared keys w = (Ok dn, w1) →
  lookup_dn dn (directory w) = Some e →
  e !! "krblastpwdchange" = None →
  ∃ w', host_disable shared keys w = (Raise NotFound, w')
        ∧ directory w' = directory w
        ∧ updates w' = updates w.
Proof.
  intros Hdn Hlook Hnone.
  destruct (get_dn_run _ _ _ _ _ Hdn) as (Hd & _ & Hu).
  rewrite <- Hd in Hlook.
  unfold host_disable. unfold_monad. rewrite Hdn.
  rewrite (get_entry_found _ _ _ _ Hlook).
  rewrite bool_decide_eq_false_2; last first.
  { rewrite project_lookup_in; [| set_solver]. rewrite Hnone. by intros [? ?]. }
  simpl. eexists. split; [reflexivity |]. simpl.
  by rewrite updates_log.
Qed.

(** X20.  Disable on a host with key material succeeds with the
    answer [(True, keys[0])]; afterwards the entry has neither
    [krblastpwdchange] nor [krbprincipalkey], its other attributes and
    all other entries are as before, and so are the services. *)
Theorem host_disable_removes_key (keys : list string) (key0 : string)
    (w w1 : World) (dn : string) (e : entry) :
  get_dn shared keys w = (Ok dn, w1) →
  head keys = Some key0 →
  lookup_dn dn (directory w) = Some e →
  is_Some (e !! "krblastpwdchange") →
  ∃ w' e',
    host_disable shared keys w = (Ok (true, key0), w')
    ∧ lookup_dn dn (directory w') = Some e'
    ∧ e' !! "krblastpwdchange" = None
    ∧ e' !! "krbprincipalkey" = None
    ∧ (∀ k, k ≠ "krblastpwdchange" → k ≠ "krbprincipalkey" → e' !! k = e !! k)
    ∧ (∀ dn0, dn0 ≠ dn → lookup_dn dn0 (directory w') = lookup_dn dn0 (directory w))
    ∧ services w' = services w.
Proof.
  intros Hdn Hhead Hlook Hkey.
  destruct (get_dn_run _ _ _ _ _ Hdn) as (Hd & Hs & _).
  rewrite <- Hd in Hlook.
  unfold host_disable. unfold_monad. rewrite Hdn.
  rewrite (get_entry_found _ _ _ _ Hlook).
  rewrite bool_decide_eq_true_2 by (rewrite project_lookup_in; [done | set_solver]).
  simpl. unfold remove_principal_key. simpl. rewrite Hlook.
  rewrite bool_decide_eq_true_2 by done.
  unfold update_entry. simpl. rewrite Hlook. simpl.
  unfold first, from_option. rewrite Hhead. simpl.
  eexists _, (apply_payload key_attributes e). split; [reflexivity |]. simpl.
  split; [by eapply lookup_replace_dn |].
  split; [rewrite key_attributes_lookup;
          by rewrite bool_decide_eq_true_2 by (by right) |].
  split; [rewrite key_attributes_lookup;
          by rewrite bool_decide_eq_true_2 by (by left) |].
  split.
  { intros k H1 H2. rewrite key_attributes_lookup.
    by rewrite bool_decide_eq_false_2 by (by intros [? | ?]). }
  split; [| done].
  intros dn0 Hne. rewrite lookup_replace_dn_other by done. by rewrite Hd.
Qed.

Lemma resolves_alike_lookup (d d' : list (string * entry)) (dn : string) :
  resolves_alike d d' → lookup_dn dn d' = None ↔ lookup_dn dn d = None.
Proof.
  intros Hsame. induction Hsame as [| [dn1 e1] [dn2 e2] d d' (Hdn & _) _ IH];
    [done |]. simpl in *. subst dn2.
  destruct (bool_decide (dn1 = dn)); [done | exact IH].
Qed.

Lemma resolves_alike_first_match (d d' : list (string * entry)) (key : string)
    (classes : list string) :
  resolves_alike d d' →
  fst <$> first_match "serverhostname" key classes d'
  = fst <$> first_match "serverhostname" key classes d.
Proof.
  intros Hsame.
  induction Hsame as [| [dn1 e1] [dn2 e2] d d' (Hdn & Hsh & Hoc) _ IH];
    [done |]. simpl in Hdn, Hsh, Hoc. subst dn2. cbn [first_match].
  assert (Hv : has_value "serverhostname" key e2
               = has_value "serverhostname" key e1)
    by (unfold has_value; by rewrite Hsh).
  assert (Hc : has_classes classes e2 = has_classes classes e1).
  { unfold has_classes. clear IH.
    induction classes as [| c cs IHcs]; [done |]. simpl. rewrite IHcs.
    unfold has_value. by rewrite Hoc. }
  rewrite Hv, Hc.
  destruct (has_value "serverhostname" key e1 && has_classes classes e1);
    [done | exact IH].
Qed.

(** Keys resolve to the same identifier in directories that resolve
    alike. *)
Lemma get_dn_resolves_alike (keys : list string) (w w' : World) :
  resolves_alike (directory w) (directory w') →
  (get_dn shared keys w').1 = (get_dn shared keys w).1.
Proof.
  intros Hsame.
  unfold get_dn, last_key, from_option. unfold_monad.
  destruct (last keys) as [key |]; [| done].
  destruct (Py.endswith_char key "."); [done |].
  unfold get_entry.
  pose proof (resolves_alike_lookup _ _ (super_get_dn keys) Hsame) as Hlookup.
  destruct (lookup_dn (super_get_dn keys) (directory w')) eqn:H1;
    destruct (lookup_dn (super_get_dn keys) (directory w)) eqn:H2; [done | | |].
  - destruct Hlookup as [_ Hb]. by discriminate Hb.
  - destruct Hlookup as [Ha _]. by discriminate Ha.
  - unfold find_entry_by_attr. simpl.
    pose proof (resolves_alike_first_match _ _ key shared Hsame) as Hmatch.
    destruct (first_match _ _ _ (directory w')) as [[dn1 e1] |];
      destruct (first_match _ _ _ (directory w)) as [[dn2 e2] |];
      simpl in *; congruence.
Qed.

Lemma resolves_alike_refl (d : list (string * entry)) : resolves_alike d d.
Proof. induction d as [| [dn e] d IH]; constructor; done. Qed.

Lemma replace_dn_resolves_alike (dn : string) (e : entry)
    (d : list (string * entry)) :
  lookup_dn dn d = Some e →
  resolves_alike d (replace_dn dn (apply_payload key_attributes e) d).
Proof.
  induction d as [| [dn1 e1] d IH]; [done |]. simpl.
  case_bool_decide as H1.
  - intros [= ->]. subst dn1. constructor; [| apply resolves_alike_refl].
    simpl. rewrite !key_attributes_lookup.
    by rewrite !bool_decide_eq_false_2 by (by intros [? | ?]).
  - intros H. constructor; [done | by apply IH].
Qed.

(** X21.  Disable cannot be repeated: after a disable that succeeded,
    a second disable of the same key raises [NotFound] and changes no
    host entry. *)
Theorem host_disable_twice (keys : list string) (w w' : World)
    (r : bool * string) :
  host_disable shared keys w = (Ok r, w') →
  ∃ w'', host_disable shared keys w' = (Raise NotFound, w'')
         ∧ directory w'' = directory w'.
Proof.
  intros Hrun. unfold host_disable in Hrun. unfold_monad.
  destruct (get_dn shared keys w) as [[dn |] w1] eqn:Hdn; [| done].
  destruct (get_dn_run _ _ _ _ _ Hdn) as (Hd & _ & _).
  unfold get_entry in Hrun.
  destruct (lookup_dn dn (directory w1)) as [e |] eqn:Hlook; [| done].
  destruct (negb _); [done |].
  unfold remove_principal_key in Hrun. simpl in Hrun. rewrite Hlook in Hrun.
  destruct (bool_decide _); [| done].
  unfold update_entry in Hrun. simpl in Hrun. rewrite Hlook in Hrun.
  simpl in Hrun.
  destruct (first keys) as [value |]; [| done].
  injection Hrun as _ <-.
  set (w' := set_directory _ _).
  assert (Hdn' : (get_dn shared keys w').1 = Ok dn).
  { rewrite (get_dn_resolves_alike keys w w'); [by rewrite Hdn |].
    subst w'. simpl. rewrite <- Hd. by apply replace_dn_resolves_alike. }
  destruct (get_dn shared keys w') as [r' w1'] eqn:Hdn2. simpl in Hdn'. subst r'.
  destruct (get_dn_run _ _ _ _ _ Hdn2) as (Hd' & _ & _).
  assert (Hlook' : lookup_dn dn (directory w1')
                   = Some (apply_payload key_attributes e)).
  { rewrite Hd'. subst w'. simpl. by eapply lookup_replace_dn. }
  unfold host_disable. unfold_monad. rewrite Hdn2.
  rewrite (get_entry_found _ _ _ _ Hlook').
  rewrite bool_decide_eq_false_2; last first.
  { rewrite project_lookup_in; [| set_solver]. rewrite key_attributes_lookup.
    rewrite bool_decide_eq_true_2 by (by right). by intros [? ?]. }
  simpl. eexists. split; [reflexivity |]. done.
Qed.

(** **** [host_del.pre_callback] *)

Lemma get_dn_same_directory (keys : list string) (w w' : World) :
  directory w' = directory w → (get_dn shared keys w').1 = (get_dn shared keys w).1.
Proof.
  intros Hd. apply get_dn_resolves_alike. rewrite Hd. apply resolves_alike_refl.
Qed.

(** [host_show] without [all] on a key that resolves to a stored
    entry: the post-hook runs on the default attributes of the entry. *)
Lemma host_show_run (keys : list string) (w w1 : World) (dn : string) (e : entry) :
  get_dn shared keys w = (Ok dn, w1) →
  lookup_dn dn (directory w) = Some e →
  (host_show shared keys false w).1 =
    match host_show_post_callback dn (VList <$> project default_attributes e) false with
    | Ok (_, entry_attrs) => Ok entry_attrs
    | Raise err => Raise err
    end.
Proof.
  intros Hdn Hlook. destruct (get_dn_run _ _ _ _ _ Hdn) as (Hd & _ & _).
  rewrite <- Hd in Hlook. unfold host_show. unfold_monad. rewrite Hdn.
  rewrite (get_entry_found _ _ _ _ Hlook).
  by destruct (host_show_post_callback _ _ _) as [[dn' ea'] |].
Qed.

Ltac no_search :=
  unfold log; simpl; rewrite ?search_answers_app; simpl;
  rewrite ?app_nil_r; try done.

Lemma get_dn_no_search (keys : list string) (w : World) :
  search_answers (trace (get_dn shared keys w).2) = search_answers (trace w).
Proof.
  unfold get_dn, last_key, from_option. unfold_monad.
  destruct (last keys) as [key |]; [| done].
  destruct (Py.endswith_char key "."); [done |].
  unfold get_entry.
  destruct (lookup_dn _ _); [no_search |].
  unfold find_entry_by_attr. simpl.
  destruct (first_match _ _ _ _) as [[dn' e'] |]; no_search.
Qed.

Lemma host_del_fqdn_no_search (keys : list string) (w : World) :
  search_answers (trace (host_del_fqdn shared keys w).2) = search_answers (trace w).
Proof.
  unfold host_del_fqdn, last_key, from_option. unfold_monad.
  destruct (last keys) as [key |]; [| done].
  case_bool_decide; [| done].
  unfold host_show. unfold_monad.
  pose proof (get_dn_no_search [key] w) as Hdn.
  destruct (get_dn shared [key] w) as [[dn |] w1]; simpl in *; [| done].
  unfold get_entry.
  destruct (lookup_dn dn (directory w1)); [| no_search].
  destruct (host_show_post_callback _ _ _) as [[dn' ea'] |]; [| no_search].
  unfold getitem, from_option.
  repeat case_match; no_search.
Qed.

(** X22.  Delete by a name without a dot goes through [host_show]:
    the name compared with the services is the first [fqdn] value of
    the entry the name resolves to, provided the certificate of that
    entry, if it has one, parses; if it does not parse, the delete
    fails with the parser's error before any service is looked for and
    the host entries and services are as before. *)
Theorem host_del_by_short_name (key : string) (w w1 : World) (dn : string)
    (e : entry) :
  validate_host key ≠ None →
  get_dn shared [key] w = (Ok dn, w1) →
  lookup_dn dn (directory w) = Some e →
  (∀ f rest,
     e !! "fqdn" = Some (f :: rest) →
     e !! "usercertificate" = None
     ∨ (∃ der ders cert, e !! "usercertificate" = Some (der :: ders)
                         ∧ load_certificate der = Some cert) →
     (host_del_fqdn shared [key] w).1 = Ok f)
  ∧ (∀ der ders,
       e !! "usercertificate" = Some (der :: ders) →
       load_certificate der = None →
       ∀ fuel, ∃ w', host_del shared fuel [key] w = Some (Raise CertificateError, w')
                     ∧ directory w' = directory w
                     ∧ services w' = services w
                     ∧ search_answers (trace w') = search_answers (trace w)).
Proof.
  intros Hshort Hdn Hlook.
  assert (Hcert : (VList <$> project default_attributes e) !! "usercertificate"
                  = VList <$> e !! "usercertificate").
  { rewrite lookup_fmap. rewrite project_lookup_in; [done |].
    unfold default_attributes. set_solver. }
  assert (Hfqdn : (VList <$> project default_attributes e) !! "fqdn"
                  = VList <$> e !! "fqdn").
  { rewrite lookup_fmap. rewrite project_lookup_in; [done |].
    unfold default_attributes. set_solver. }
  split.
  - intros f rest Hf Hparses.
    unfold host_del_fqdn, last_key, from_option. unfold_monad. simpl.
    rewrite bool_decide_eq_true_2 by done.
    pose proof (host_show_run [key] w w1 dn e Hdn Hlook) as Hshow.
    destruct (host_show shared [key] false w) as [r w2]. simpl in Hshow. subst r.
    destruct (host_show_post_callback dn _ false) as [[dn' ea'] |] eqn:Hpost.
    + destruct (host_show_post_callback_ok _ _ _ _ _ Hpost)
        as (flagged & Hflagged & _ & Hea).
      assert (Hout : ea' !! "fqdn" = Some (VList (f :: rest))).
      { assert (Hfl : flagged !! "fqdn" = Some (VList (f :: rest))).
        { subst flagged. destruct (bool_decide _); simpl;
            rewrite ?lookup_delete_ne by done;
            rewrite lookup_insert_ne by done; rewrite Hfqdn; by rewrite Hf. }
        destruct Hea as [-> | (stored & der & cert & _ & _ & _ & ->)]; [done |].
        rewrite attach_certificate_other; [done | set_solver]. }
      unfold getitem, from_option. by rewrite Hout.
    + exfalso. unfold host_show_post_callback in Hpost.
      destruct (bool_decide _); simpl in Hpost;
        rewrite ?lookup_delete_ne in Hpost by done;
        rewrite lookup_insert_ne in Hpost by done;
        rewrite Hcert in Hpost;
        (destruct Hparses as [Hnone | (der & ders & cert & Hsome & Hparse)];
         [ by rewrite Hnone in Hpost
         | rewrite Hsome in Hpost; simpl in Hpost; unfold from_option in Hpost;
           unfold_monad; by rewrite Hparse in Hpost ]).
  - intros der ders Hsome Hparse fuel.
    destruct (get_dn_run _ _ _ _ _ Hdn) as (Hd & Hs & _).
    assert (Hdn1 : (get_dn shared [key] w1).1 = Ok dn)
      by (rewrite (get_dn_same_directory [key] w w1 Hd); by rewrite Hdn).
    destruct (get_dn shared [key] w1) as [r1 w2] eqn:Hdn2. simpl in Hdn1. subst r1.
    assert (Hlook1 : lookup_dn dn (directory w1) = Some e) by (by rewrite Hd).
    pose proof (host_show_run [key] w1 w2 dn e Hdn2 Hlook1) as Hshow.
    assert (Hpost : host_show_post_callback dn
                      (VList <$> project default_attributes e) false
                    = Raise CertificateError).
    { unfold host_show_post_callback.
      destruct (bool_decide _); simpl;
        rewrite ?lookup_delete_ne by done;
        rewrite lookup_insert_ne by done;
        rewrite Hcert, Hsome; simpl; unfold from_option; unfold_monad;
        by rewrite Hparse. }
    rewrite Hpost in Hshow.
    pose proof (host_del_fqdn_reads shared [key] w1) as (Hd3 & Hs3).
    pose proof (host_del_fqdn_no_search [key] w1) as Ha3.
    pose proof (get_dn_no_search [key] w) as Ha1.
    rewrite Hdn in Ha1. simpl in Ha1.
    assert (Hname : (host_del_fqdn shared [key] w1).1 = Raise CertificateError).
    { unfold host_del_fqdn, last_key, from_option. unfold_monad. simpl.
      rewrite bool_decide_eq_true_2 by done.
      destruct (host_show shared [key] false w1) as [r w3]. simpl in Hshow. by subst r. }
    unfold host_del, host_del_pre_callback. rewrite Hdn.
    destruct (host_del_fqdn shared [key] w1) as [r w3]. simpl in *. subst r.
    eexists. split; [reflexivity |].
    split; [congruence |]. split; [congruence |]. congruence.
Qed.

(** X23.  Delete of a host that is not stored still runs the cascade:
    for a dotted name that no entry resolves, against a reliable and
    complete service search, the delete returns, and returns the same
    on every larger bound; it fails with [NotFound] on the deletion of
    the host entry, which is its last call; by then the services of
    that name are gone, the other services are left, and the host
    entries are as before. *)
Theorem host_del_unknown_host_cascades (keys : list string) (key : string)
    (w : World) :
  last keys = Some key →
  Py.endswith_char key "." = false →
  validate_host key = None →
  lookup_dn (super_get_dn keys) (directory w) = None →
  first_match "serverhostname" key shared (directory w) = None →
  search_reliable key →
  search_complete key →
  ∃ fuel w',
    (∀ k, (fuel ≤ k)%nat →
          host_del shared k keys w = Some (Raise NotFound, w'))
    ∧ directory w' = directory w
    ∧ (∀ p, p ∈ services w' ↔ p ∈ services w ∧ ¬ dependent key p)
    ∧ last (trace w') = Some (DeleteEntry (super_get_dn keys)).
Proof.
  intros Hlast Hdot Hvalid Hmiss Hnomatch Hreliable Hcomplete.
  pose proof (get_dn_value shared keys key w Hlast Hdot) as Hvalue.
  rewrite Hmiss, Hnomatch in Hvalue.
  pose proof (get_dn_reads shared keys w) as (Hd & Hs & _).
  destruct (get_dn shared keys w) as [r w1] eqn:Hdn. simpl in *. subst r.
  destruct (cascade_returns key w1 Hreliable) as (fuel & w2 & Hcascade).
  destruct (cascade_run _ _ _ _ _ Hcascade) as (Hd2 & Hsub & Hkeep & Hgone).
  destruct (cascade_searches _ _ _ _ _ Hcascade)
    as (n & final & new & Hn & _ & _ & _ & Hhigh & _).
  exists fuel, (log (DeleteEntry (super_get_dn keys)) w2).
  split.
  { intros k Hk. unfold host_del. rewrite Hdn. unfold host_del_pre_callback.
    rewrite (host_del_fqdn_dotted shared keys key w1 Hlast Hvalid).
    rewrite Hhigh by lia.
    unfold delete_entry. unfold_monad. by rewrite Hd2, Hd, Hmiss. }
  split; [simpl; congruence |]. split.
  { intros p. simpl. rewrite Hs in Hsub, Hkeep, Hgone. split.
    - intros Hp. split; [by apply Hsub |]. intros Hdep.
      by apply (Hgone eq_refl Hcomplete p (Hsub p Hp) Hdep).
    - intros [Hp Hnd]. by apply Hkeep. }
  simpl. by rewrite last_snoc.
Qed.

(** X24.  Only the search's [NotFound] ends the loop quietly.  When a
    page names the same stored service of the host twice, the first
    entry deletes it, the second deletion raises [NotFound], and that
    error leaves the loop: the cascade fails and the service stays
    deleted. *)
Theorem cascade_propagates_service_del_error (fuel : nat) (fqdn : string)
    (w : World) (e1 e2 : entry) (page : list entry) (truncated : bool)
    (p : string) (rest1 rest2 : list string) (service hostname rlm : string) :
  service_search (trace w) fqdn (services w) = Ok (e1 :: e2 :: page, truncated) →
  e1 !! "krbprincipalname" = Some (p :: rest1) →
  e2 !! "krbprincipalname" = Some (p :: rest2) →
  split_principal p = Ok (service, hostname, rlm) →
  Py.lower hostname = fqdn →
  p ∈ services w →
  ∃ w', cascade (S fuel) fqdn w = Some (Raise NotFound, w')
        ∧ services w' = services w ∖ {[p]}
        ∧ directory w' = directory w.
Proof.
  intros Hsearch H1 H2 Hsplit Hhost Hstored.
  cbn [cascade]. unfold service_find. rewrite Hsearch.
  cbn [delete_services]. unfold getitem, first, from_option. unfold_monad.
  rewrite H1, H2. simpl. rewrite Hsplit.
  rewrite bool_decide_eq_true_2 by done.
  unfold service_del. simpl.
  rewrite bool_decide_eq_true_2 by done. simpl.
  rewrite bool_decide_eq_false_2 by set_solver.
  eexists. split; [reflexivity |]. done.
Qed.

(** **** Add, then resolve *)

Lemma lookup_dn_stored (dn : string) (e : entry) (d : list (string * entry)) :
  (dn, e) ∈ d → lookup_dn dn d ≠ None.
Proof.
  induction d as [| [dn0 e0] d IH]; [by intros ?%elem_of_nil |].
  intros [[= <- <-] | Hin]%elem_of_cons; simpl.
  - by rewrite bool_decide_eq_true_2.
  - destruct (bool_decide (dn0 = dn)); [done | by apply IH].
Qed.

Lemma lookup_dn_app (dn : string) (d d' : list (string * entry)) :
  lookup_dn dn (d ++ d') =
    match lookup_dn dn d with
    | Some e => Some e
    | None => lookup_dn dn d'
    end.
Proof.
  induction d as [| [dn0 e0] d IH]; [done |]. simpl.
  destruct (bool_decide (dn0 = dn)); [done | exact IH].
Qed.

(** X25.  A host that add has created resolves: after a successful
    [host_add] the key resolves directly to the identifier under which
    the new entry is stored, and the entry carries the key as [cn], the
    text before its first dot as [serverhostname], and the identifier
    as [managedby]. *)
Theorem host_add_then_get_dn (shared' : list string) (force : bool)
    (keys : list string) (entry_attrs : payload) (w w' : World) :
  host_add shared force keys entry_attrs w = (Ok shared', w') →
  ∃ key e,
    last keys = Some key
    ∧ get_dn shared' keys w'
      = (Ok (super_get_dn keys), log (GetEntry (super_get_dn keys) [""]) w')
    ∧ lookup_dn (super_get_dn keys) (directory w') = Some e
    ∧ e !! "cn" = Some [key]
    ∧ e !! "serverhostname" = Some [Py.split_first key "."]
    ∧ e !! "managedby" = Some [super_get_dn keys].
Proof.
  intros Hrun. unfold host_add in Hrun. unfold_monad.
  destruct (get_dn shared keys w) as [[dn |] w1] eqn:Hdn; [| done].
  destruct (get_dn_run _ _ _ _ _ Hdn) as (Hd & _ & _).
  destruct (host_add_pre_callback force dn _ keys) as [[dn1 ea1] |] eqn:Hhook;
    [| done].
  destruct (host_add_pre_callback_inv _ _ _ _ _ _ Hhook) as (key & Hlast & Hdns).
  destruct (host_add_pre_callback_run force dn
              (<["objectclass" := VList shared]> entry_attrs) keys key shared
              Hlast Hdns (lookup_insert_eq _ _ _))
    as (ea' & Heq & _ & _ & Hcn & Hshort & Hmanaged).
  rewrite Hhook in Heq. injection Heq as -> ->.
  unfold add_entry in Hrun.
  destruct (lookup_dn dn (directory w1)) eqn:Hfree; [done |].
  simpl in Hrun. injection Hrun as _ <-.
  rewrite Hd in Hfree.
  assert (Hdot : Py.endswith_char key "." = false).
  { destruct (Py.endswith_char key ".") eqn:E; [| done].
    by rewrite (get_dn_trailing_dot shared keys key w Hlast E) in Hdn. }
  assert (Hdirect : dn = super_get_dn keys).
  { pose proof (get_dn_value shared keys key w Hlast Hdot) as Hvalue.
    rewrite Hdn in Hvalue. simpl in Hvalue.
    destruct (lookup_dn (super_get_dn keys) (directory w)); [congruence |].
    destruct (first_match _ _ _ _) as [[dn' e'] |] eqn:Hm; [| congruence].
    injection Hvalue as ->.
    destruct (first_match_stored _ _ _ _ _ _ Hm) as [Hin _].
    by destruct (lookup_dn_stored _ _ _ Hin). }
  subst dn.
  assert (Hnew : lookup_dn (super_get_dn keys)
                   (directory w ++ [(super_get_dn keys, apply_payload ea' ∅)])
                 = Some (apply_payload ea' ∅)).
  { rewrite lookup_dn_app, Hfree. simpl. by rewrite bool_decide_eq_true_2. }
  exists key, (apply_payload ea' ∅). split; [done |]. split.
  { unfold get_dn, last_key, from_option. unfold_monad. rewrite Hlast, Hdot.
    rewrite (get_entry_found _ _ _ (apply_payload ea' ∅)); [done |].
    simpl. by rewrite Hd. }
  split; [simpl; by rewrite Hd |].
  rewrite !apply_payload_lookup, Hcn, Hshort, Hmanaged. done.
Qed.

Lemma first_match_app (attr val : string) (classes : list string)
    (d d' : list (string * entry)) :
  first_match attr val classes (d ++ d') =
    match first_match attr val classes d with
    | Some m => Some m
    | None => first_match attr val classes d'
    end.
Proof.
  induction d as [| [dn0 e0] d IH]; [done |]. simpl.
  destruct (has_value attr val e0 && has_classes classes e0); [done | exact IH].
Qed.

Lemma endswith_char_contains (s : string) (c : ascii) :
  Py.endswith_char s c = true → Py.contains_char s c = true.
Proof.
  induction s as [| x s IH]; [done |]. simpl.
  destruct s as [| y s].
  - intros ->. done.
  - intros H. rewrite (IH H). by rewrite orb_true_r.
Qed.

Lemma split_first_no_separator (s : string) (c : ascii) :
  Py.contains_char (Py.split_first s c) c = false.
Proof.
  induction s as [| x s IH]; [done |]. simpl.
  case_bool_decide as Hx; [done |]. simpl.
  by rewrite bool_decide_eq_false_2, IH.
Qed.

(** X26.  The short name of a host that add has created resolves to
    it: when no earlier entry carries the short name together with the
    classes the list holds after the add, and nothing is stored under
    the short name's own identifier, [get_dn] on the text before the
    first dot of the key answers the identifier of the new entry. *)
Theorem host_add_then_short_name (shared' : list string) (force : bool)
    (keys : list string) (key : string) (entry_attrs : payload) (w w' : World) :
  host_add shared force keys entry_attrs w = (Ok shared', w') →
  last keys = Some key →
  lookup_dn (super_get_dn [Py.split_first key "."]) (directory w') = None →
  first_match "serverhostname" (Py.split_first key ".") shared' (directory w)
    = None →
  (get_dn shared' [Py.split_first key "."] w').1 = Ok (super_get_dn keys).
Proof.
  intros Hrun Hlast Hfree Hnone.
  set (short := Py.split_first key ".") in *.
  assert (Hdot : Py.endswith_char short "." = false).
  { destruct (Py.endswith_char short ".") eqn:E; [| done].
    apply endswith_char_contains in E. subst short.
    by rewrite split_first_no_separator in E. }
  rewrite (get_dn_value shared' [short] short w' eq_refl Hdot). rewrite Hfree.
  unfold host_add in Hrun. unfold_monad.
  destruct (get_dn shared keys w) as [[dn |] w1] eqn:Hdn; [| done].
  destruct (get_dn_run _ _ _ _ _ Hdn) as (Hd & _ & _).
  destruct (host_add_pre_callback force dn _ keys) as [[dn1 ea1] |] eqn:Hhook;
    [| done].
  destruct (host_add_pre_callback_inv _ _ _ _ _ _ Hhook) as (key' & Hlast' & Hdns).
  assert (key' = key) as -> by congruence.
  destruct (host_add_pre_callback_run force dn
              (<["objectclass" := VList shared]> entry_attrs) keys key shared
              Hlast Hdns (lookup_insert_eq _ _ _))
    as (ea' & Heq & Hoc & _ & _ & Hshort & _).
  rewrite Hhook in Heq. injection Heq as -> ->.
  unfold add_entry in Hrun.
  destruct (lookup_dn dn (directory w1)) eqn:Hfree1; [done |].
  simpl in Hrun. rewrite Hoc in Hrun. injection Hrun as <- <-.
  simpl. rewrite Hd in *.
  assert (Hdot' : Py.endswith_char key "." = false).
  { destruct (Py.endswith_char key ".") eqn:E; [| done].
    by rewrite (get_dn_trailing_dot shared keys key w Hlast E) in Hdn. }
  assert (Hdirect : dn = super_get_dn keys).
  { pose proof (get_dn_value shared keys key w Hlast Hdot') as Hvalue.
    rewrite Hdn in Hvalue. simpl in Hvalue.
    destruct (lookup_dn (super_get_dn keys) (directory w)); [congruence |].
    destruct (first_match "serverhostname" key shared (directory w))
      as [[dn' e'] |] eqn:Hm; [| congruence].
    injection Hvalue as ->.
    destruct (first_match_stored _ _ _ _ _ _ Hm) as [Hin _].
    by destruct (lookup_dn_stored _ _ _ Hin). }
  subst dn. rewrite first_match_app, Hnone. cbn [first_match].
  set (l' := if negb _ then _ else _) in *.
  assert (Hv : has_value "serverhostname" short (apply_payload ea' ∅) = true).
  { unfold has_value. rewrite apply_payload_lookup, Hshort. simpl.
    apply bool_decide_eq_true_2. by left. }
  assert (Hc : has_classes l' (apply_payload ea' ∅) = true).
  { unfold has_classes. apply forallb_forall. intros c Hc.
    unfold has_value. rewrite apply_payload_lookup, Hoc. simpl.
    destruct l' as [| c0 l0]; [done |]. simpl.
    apply bool_decide_eq_true_2. by apply list_elem_of_In. }
  by rewrite Hv, Hc.
Qed.

End Further.

(** ** The further properties on concrete inputs *)

(** X2 on a stored host. *)
Lemma get_dn_direct_hit_witness :
  let w := Sample.world [Sample.host_entry "h.example.com" ∅] ∅ in
  get_dn (env := Sample.env) object_class ["h.example.com"] w
  = (Ok (Sample.make_dn ["h.example.com"]),
     log (GetEntry (Sample.make_dn ["h.example.com"]) [""]) w).
Proof.
  intros w.
  apply (get_dn_direct_hit (env := Sample.env) object_class ["h.example.com"] "h.example.com" w
           (Sample.host_entry "h.example.com" ∅).2).
  - reflexivity.
  - vm_compute. reflexivity.
  - vm_compute. reflexivity.
Defined.

(** X3 on a short name that another host carries. *)
Lemma get_dn_answers_and_only_reads_witness :
  let w := Sample.world [Sample.host_entry "h.example.com" ∅] ∅ in
  ∃ dn, (get_dn (env := Sample.env) object_class ["h"] w).1 = Ok dn
        ∧ directory (get_dn (env := Sample.env) object_class ["h"] w).2 = directory w.
Proof.
  intros w.
  destruct (get_dn_answers_and_only_reads (env := Sample.env) object_class ["h"] w)
    as (Hanswer & Hd & _).
  destruct (Hanswer "h") as (dn & Hdn & _).
  - reflexivity.
  - vm_compute. reflexivity.
  - exists dn. split; [exact Hdn | exact Hd].
Defined.

(** X4 on the key "h.example.com.". *)
Lemma trailing_dot_stops_every_command_witness :
  let w := Sample.world [Sample.host_entry "h.example.com" ∅] Sample.three_services in
  host_del (env := Sample.env) object_class 5 ["h.example.com."] w = Some (Raise TypeError, w)
  ∧ host_disable (env := Sample.env) object_class ["h.example.com."] w = (Raise TypeError, w).
Proof.
  intros w.
  destruct (trailing_dot_stops_every_command (env := Sample.env) object_class
              ["h.example.com."] "h.example.com." w)
    as (_ & _ & Hdisable & Hdel & _).
  - reflexivity.
  - vm_compute. reflexivity.
  - split; [apply Hdel | exact Hdisable].
Defined.

(** X5 with no name resolving. *)
Lemma host_add_checks_dns_unless_forced_witness :
  let entry_attrs : payload := {[ "objectclass" := VList object_class ]} in
  host_add_pre_callback (env := Sample.env_offline) false "dn" entry_attrs
    ["h.example.com"] = Raise DNSNotARecordError
  ∧ host_add_pre_callback (env := Sample.env_offline) true "dn" entry_attrs
      ["h.example.com"] ≠ Raise DNSNotARecordError.
Proof.
  intros entry_attrs.
  destruct (host_add_checks_dns_unless_forced (env := Sample.env_offline)
              "dn" entry_attrs ["h.example.com"]) as [Hcheck Hforce].
  split; [| exact Hforce].
  apply (Hcheck "h.example.com"); reflexivity.
Defined.

(** X6 on the key "h.example.com". *)
Lemma host_add_derives_names_witness :
  let entry_attrs : payload := {[ "objectclass" := VList object_class ]} in
  ∃ ea', host_add_pre_callback (env := Sample.env) true "dn" entry_attrs
           ["h.example.com"] = Ok ("dn", ea')
         ∧ ea' !! "managedby" = Some (VStr "dn")
         ∧ ea' !! "cn" = Some (VStr "h.example.com")
         ∧ ea' !! "serverhostname" = Some (VStr "h").
Proof.
  intros entry_attrs.
  destruct (host_add_pre_callback (env := Sample.env) true "dn" entry_attrs
              ["h.example.com"]) as [[dn' ea'] |] eqn:Hrun;
    [| vm_compute in Hrun; discriminate Hrun].
  destruct (host_add_derives_names (env := Sample.env) true "dn" dn' entry_attrs ea'
              ["h.example.com"] Hrun) as (-> & Hmanaged & _).
  exists ea'. split; [reflexivity |]. split; [exact Hmanaged |].
  vm_compute in Hrun. injection Hrun as <-. split; vm_compute; reflexivity.
Defined.

(** X8 on a payload with a locality and a description. *)
Lemma host_add_keeps_other_fields_witness :
  let entry_attrs : payload :=
    {[ "objectclass" := VList object_class; "locality" := VStr "Dallas";
       "description" := VStr "lab machine" ]} in
  ∃ ea', host_add_pre_callback (env := Sample.env) true "dn" entry_attrs
           ["h.example.com"] = Ok ("dn", ea')
         ∧ ea' !! "locality" = None
         ∧ ea' !! "l" = Some (VStr "Dallas")
         ∧ ea' !! "description" = Some (VStr "lab machine").
Proof.
  intros entry_attrs.
  destruct (host_add_pre_callback (env := Sample.env) true "dn" entry_attrs
              ["h.example.com"]) as [[dn' ea'] |] eqn:Hrun;
    [| vm_compute in Hrun; discriminate Hrun].
  destruct (host_add_keeps_other_fields (env := Sample.env) true "dn" dn'
              entry_attrs ea' ["h.example.com"] Hrun) as (Hloc & Hl & Hother).
  assert (dn' = "dn") as -> by (vm_compute in Hrun; congruence).
  exists ea'. split; [reflexivity |]. split; [exact Hloc |].
  split; [rewrite Hl; vm_compute; reflexivity |].
  rewrite Hother; [vm_compute; reflexivity |].
  intros H. assert (Hb := bool_decide_pack _ H). vm_compute in Hb. destruct Hb.
Defined.

(** X9 on payloads without object classes. *)
Lemma host_add_needs_object_classes_witness :
  host_add_pre_callback (env := Sample.env) true "dn" ∅ ["h.example.com"]
  = Raise (KeyError "objectclass")
  ∧ host_add_pre_callback (env := Sample.env) true "dn"
      {[ "objectclass" := VNone ]} ["h.example.com"]
    = Raise TypeError.
Proof.
  split.
  - destruct (host_add_needs_object_classes (env := Sample.env) true "dn" ∅
                ["h.example.com"] "h.example.com") as [H _];
      [reflexivity | by left |]. apply H. reflexivity.
  - destruct (host_add_needs_object_classes (env := Sample.env) true "dn"
                {[ "objectclass" := VNone ]} ["h.example.com"] "h.example.com")
      as [_ H]; [reflexivity | by left |]. apply H. reflexivity.
Defined.

(** X10 on the class list that holds both markers, with a password. *)
Lemma host_add_object_classes_witness :
  let entry_attrs : payload :=
    {[ "userpassword" := VStr "Secret123";
       "objectclass" := VList (object_class ++ kerberos_markers) ]} in
  ∃ ea' l',
    host_add_pre_callback (env := Sample.env) true "dn" entry_attrs
      ["h.example.com"] = Ok ("dn", ea')
    ∧ ea' !! "objectclass" = Some (VList l')
    ∧ ("krbprincipalaux" ∉ l')
    ∧ ("krbprincipal" ∈ l').
Proof.
  intros entry_attrs.
  destruct (host_add_pre_callback (env := Sample.env) true "dn" entry_attrs
              ["h.example.com"]) as [[dn' ea'] |] eqn:Hrun;
    [| vm_compute in Hrun; discriminate Hrun].
  destruct (host_add_object_classes (env := Sample.env) true "dn" dn' entry_attrs
              ea' ["h.example.com"] (object_class ++ kerberos_markers) Hrun)
    as (l' & Hoc & Hkeep & _ & _ & Hgone).
  - vm_compute. reflexivity.
  - assert (dn' = "dn") as -> by (vm_compute in Hrun; congruence).
    exists ea', l'. split; [reflexivity |]. split; [exact Hoc |]. split.
    + apply Hgone; [vm_compute; eexists; reflexivity | vm_compute; lia].
    + apply Hkeep; [discriminate |].
      apply (bool_decide_unpack _). vm_compute. exact I.
Defined.

(** X11 on a payload that sets the principal of a host that has one. *)
Lemma host_mod_hook_only_reads_witness :
  let w := Sample.world
    [Sample.host_entry "h.example.com"
       {[ "krbprincipalname" := ["host/h.example.com@EXAMPLE.COM"] ]}] ∅ in
  let entry_attrs : payload := {[ "krbprincipalname" := VStr "host/x@EXAMPLE.COM" ]} in
  directory (host_mod_pre_callback (env := Sample.env)
               (Sample.make_dn ["h.example.com"]) entry_attrs ["h.example.com"] w).2
  = directory w.
Proof.
  intros w entry_attrs.
  apply (host_mod_hook_only_reads (env := Sample.env)).
Defined.

(** X12 on a payload with a description and a locality. *)
Lemma host_mod_plain_fields_need_no_read_witness :
  let w := Sample.world [Sample.host_entry "h.example.com" ∅] ∅ in
  let entry_attrs : payload :=
    {[ "description" := VStr "lab machine"; "locality" := VStr "Dallas" ]} in
  host_mod_pre_callback (env := Sample.env) (Sample.make_dn ["h.example.com"])
    entry_attrs ["h.example.com"] w
  = (Ok (Sample.make_dn ["h.example.com"],
         {[ "description" := VStr "lab machine"; "l" := VStr "Dallas" ]}), w).
Proof.
  intros w entry_attrs.
  rewrite (host_mod_plain_fields_need_no_read (env := Sample.env)).
  - vm_compute. reflexivity.
  - reflexivity.
  - reflexivity.
Defined.

(** X13 on a host that stores a principal and a certificate. *)
Lemma host_mod_checks_principal_first_witness :
  let dn := Sample.make_dn ["h.example.com"] in
  let stored : entry :=
    {[ "krbprincipalname" := ["host/h.example.com@EXAMPLE.COM"];
       "usercertificate" := ["DER-1001"] ]} in
  let w := Sample.world [Sample.host_entry "h.example.com" stored] ∅ in
  let entry_attrs : payload :=
    {[ "krbprincipalname" := VStr "host/x@EXAMPLE.COM";
       "usercertificate" := VStr "REVSLTEwMDE=" ]} in
  host_mod_pre_callback (env := Sample.env) dn entry_attrs ["h.example.com"] w
  = (Raise (ACIError principal_unchangeable),
     log (GetEntry dn ["objectclass"; "krbprincipalname"]) w).
Proof.
  intros dn stored w entry_attrs.
  apply (host_mod_checks_principal_first (env := Sample.env) dn entry_attrs
           ["h.example.com"] w (Sample.host_entry "h.example.com" stored).2).
  - vm_compute. reflexivity.
  - vm_compute. eexists. reflexivity.
  - vm_compute. eexists. reflexivity.
Defined.

(** X14 on an empty directory. *)
Lemma host_mod_missing_entry_witness :
  (host_mod_pre_callback (env := Sample.env) (Sample.make_dn ["h.example.com"])
     {[ "usercertificate" := VStr "REVSLTEwMDE=" ]} ["h.example.com"]
     (Sample.world [] ∅)).1
  = Raise NotFound.
Proof.
  apply (host_mod_missing_entry (env := Sample.env)).
  - reflexivity.
  - right. vm_compute. reflexivity.
Defined.

(** X15 on a certificate that is not base64. *)
Lemma host_mod_rejects_undecodable_certificate_witness :
  let w := Sample.world [Sample.host_entry "h.example.com" ∅] ∅ in
  (host_mod_pre_callback (env := Sample.env) (Sample.make_dn ["h.example.com"])
     {[ "usercertificate" := VStr "not base64!" ]} ["h.example.com"] w).1
  = Raise TypeError.
Proof.
  intros w.
  apply (host_mod_rejects_undecodable_certificate (env := Sample.env)
           (Sample.make_dn ["h.example.com"]) _ ["h.example.com"] w
           (Sample.host_entry "h.example.com" ∅).2 (VStr "not base64!")).
  - vm_compute. reflexivity.
  - vm_compute. reflexivity.
  - vm_compute. reflexivity.
  - vm_compute. reflexivity.
  - reflexivity.
  - vm_compute. reflexivity.
Defined.

(** X16 on an entry with a key, shown without [all]. *)
Lemma host_show_has_keytab_witness :
  let entry_attrs : payload :=
    {[ "fqdn" := VList ["h.example.com"];
       "krblastpwdchange" := VList ["20100104000000Z"] ]} in
  ∃ ea', host_show_post_callback (env := Sample.env) "dn" entry_attrs false
           = Ok ("dn", ea')
         ∧ ea' !! "has_keytab" = Some (VBool true)
         ∧ ea' !! "krblastpwdchange" = None.
Proof.
  intros entry_attrs.
  destruct (host_show_post_callback (env := Sample.env) "dn" entry_attrs false)
    as [[dn' ea'] |] eqn:Hrun; [| vm_compute in Hrun; discriminate Hrun].
  destruct (host_show_has_keytab (env := Sample.env) "dn" dn' entry_attrs ea' false
              Hrun) as (-> & Hflag & Hraw).
  exists ea'. split; [reflexivity |]. split; [| exact Hraw].
  rewrite Hflag. vm_compute. reflexivity.
Defined.

(** X17 on an entry with the sample certificate and on one with a
    certificate that does not parse. *)
Lemma host_show_certificate_fields_witness :
  (∃ ea', host_show_post_callback (env := Sample.env) "dn"
            {[ "usercertificate" := VList ["DER-1001"] ]} true = Ok ("dn", ea')
          ∧ ea' !! "serial_number" = Some (VStr "1001"))
  ∧ host_show_post_callback (env := Sample.env) "dn"
      {[ "usercertificate" := VList ["garbage"] ]} true
    = Raise CertificateError.
Proof.
  split.
  - destruct (host_show_certificate_fields (env := Sample.env) "dn"
                {[ "usercertificate" := VList ["DER-1001"] ]} true)
      as (_ & Hparsed & _).
    destruct (Hparsed "DER-1001" []
                (mkCertificate "CN=h.example.com,O=EXAMPLE.COM" "1001"
                   "CN=Certificate Authority,O=EXAMPLE.COM"
                   "Mon Jan 04 00:00:00 2010 UTC" "Sat Jan 04 00:00:00 2020 UTC"
                   "1b:2c" "3d:4e"))
      as (ea' & Hrun & _ & Hserial & _).
    + vm_compute. reflexivity.
    + vm_compute. reflexivity.
    + exists ea'. split; [exact Hrun | exact Hserial].
  - destruct (host_show_certificate_fields (env := Sample.env) "dn"
                {[ "usercertificate" := VList ["garbage"] ]} true)
      as (_ & _ & Hbad & _).
    apply (Hbad "garbage" []); vm_compute; reflexivity.
Defined.

(** X18 on the description of an entry with a key. *)
Lemma host_show_keeps_other_attributes_witness :
  let entry_attrs : payload :=
    {[ "description" := VList ["lab machine"];
       "krblastpwdchange" := VList ["20100104000000Z"] ]} in
  ∃ ea', host_show_post_callback (env := Sample.env) "dn" entry_attrs false
           = Ok ("dn", ea')
         ∧ ea' !! "description" = Some (VList ["lab machine"]).
Proof.
  intros entry_attrs.
  destruct (host_show_post_callback (env := Sample.env) "dn" entry_attrs false)
    as [[dn' ea'] |] eqn:Hrun; [| vm_compute in Hrun; discriminate Hrun].
  assert (dn' = "dn") as -> by (vm_compute in Hrun; congruence).
  exists ea'. split; [reflexivity |].
  rewrite (host_show_keeps_other_attributes (env := Sample.env) "dn" "dn"
             entry_attrs ea' false "description" Hrun).
  - vm_compute. reflexivity.
  - intros H. assert (Hb := bool_decide_pack _ H). vm_compute in Hb. destruct Hb.
Defined.

(** X19 on a host without a key. *)
Lemma host_disable_without_key_witness :
  let w := Sample.world [Sample.host_entry "h.example.com" ∅] ∅ in
  ∃ w', host_disable (env := Sample.env) object_class ["h.example.com"] w = (Raise NotFound, w')
        ∧ directory w' = directory w
        ∧ updates w' = updates w.
Proof.
  intros w.
  apply (host_disable_without_key (env := Sample.env) object_class ["h.example.com"] w
           (get_dn (env := Sample.env) object_class ["h.example.com"] w).2
           (Sample.make_dn ["h.example.com"])
           (Sample.host_entry "h.example.com" ∅).2).
  - vm_compute. reflexivity.
  - vm_compute. reflexivity.
  - vm_compute. reflexivity.
Defined.

(** X20 on a host with a key and a description. *)
Lemma host_disable_removes_key_witness :
  let stored : entry :=
    {[ "krblastpwdchange" := ["20100104000000Z"];
       "description" := ["lab machine"] ]} in
  let w := Sample.world [Sample.host_entry "h.example.com" stored] ∅ in
  ∃ w' e',
    host_disable (env := Sample.env) object_class ["h.example.com"] w
      = (Ok (true, "h.example.com"), w')
    ∧ lookup_dn (Sample.make_dn ["h.example.com"]) (directory w') = Some e'
    ∧ e' !! "krblastpwdchange" = None
    ∧ e' !! "description" = Some ["lab machine"].
Proof.
  intros stored w.
  destruct (host_disable_removes_key (env := Sample.env) object_class ["h.example.com"]
              "h.example.com" w
              (get_dn (env := Sample.env) object_class ["h.example.com"] w).2
              (Sample.make_dn ["h.example.com"])
              (Sample.host_entry "h.example.com" stored).2)
    as (w' & e' & Hrun & Hlook & Hgone & _ & Hother & _).
  - vm_compute. reflexivity.
  - reflexivity.
  - vm_compute. reflexivity.
  - vm_compute. eexists. reflexivity.
  - exists w', e'. split; [exact Hrun |]. split; [exact Hlook |].
    split; [exact Hgone |]. rewrite Hother by discriminate.
    vm_compute. reflexivity.
Defined.

(** X21 on a host with a key. *)
Lemma host_disable_twice_witness :
  let w := Sample.world
    [Sample.host_entry "h.example.com"
       {[ "krblastpwdchange" := ["20100104000000Z"] ]}] ∅ in
  ∃ w' w'',
    host_disable (env := Sample.env) object_class ["h.example.com"] w
      = (Ok (true, "h.example.com"), w')
    ∧ host_disable (env := Sample.env) object_class ["h.example.com"] w' = (Raise NotFound, w'').
Proof.
  intros w.
  destruct (host_disable (env := Sample.env) object_class ["h.example.com"] w)
    as [[r |] w'] eqn:Hrun; [| vm_compute in Hrun; discriminate Hrun].
  destruct (host_disable_twice (env := Sample.env) object_class ["h.example.com"] w w' r Hrun)
    as (w'' & Hagain & _).
  exists w', w''. split; [| exact Hagain].
  vm_compute in Hrun. injection Hrun as <- <-. reflexivity.
Defined.

(** X22 on the short name "h" of a host whose certificate parses and
    of one whose certificate does not. *)
Lemma host_del_by_short_name_witness :
  let good := Sample.world
    [Sample.host_entry "h.example.com" {[ "usercertificate" := ["DER-1001"] ]}]
    Sample.three_services in
  let bad := Sample.world
    [Sample.host_entry "h.example.com" {[ "usercertificate" := ["garbage"] ]}]
    Sample.three_services in
  (host_del_fqdn (env := Sample.env) object_class ["h"] good).1 = Ok "h.example.com"
  ∧ ∃ w', host_del (env := Sample.env) object_class 5 ["h"] bad
            = Some (Raise CertificateError, w')
          ∧ directory w' = directory bad
          ∧ services w' = services bad.
Proof.
  intros good bad. split.
  - destruct (host_del_by_short_name (env := Sample.env) object_class "h" good
                (get_dn (env := Sample.env) object_class ["h"] good).2
                (Sample.make_dn ["h.example.com"])
                (Sample.host_entry "h.example.com"
                   {[ "usercertificate" := ["DER-1001"] ]}).2) as [H _].
    + vm_compute. discriminate.
    + vm_compute. reflexivity.
    + vm_compute. reflexivity.
    + apply (H "h.example.com" []).
      * vm_compute. reflexivity.
      * right. eexists "DER-1001", [], _. split; vm_compute; reflexivity.
  - destruct (host_del_by_short_name (env := Sample.env) object_class "h" bad
                (get_dn (env := Sample.env) object_class ["h"] bad).2
                (Sample.make_dn ["h.example.com"])
                (Sample.host_entry "h.example.com"
                   {[ "usercertificate" := ["garbage"] ]}).2) as [_ H].
    + vm_compute. discriminate.
    + vm_compute. reflexivity.
    + vm_compute. reflexivity.
    + destruct (H "garbage" []) with (fuel := 5%nat) as (w' & Hrun & Hd & Hs & _).
      * vm_compute. reflexivity.
      * vm_compute. reflexivity.
      * exists w'. split; [exact Hrun |]. split; [exact Hd | exact Hs].
Defined.

(** X23 on the three services and an empty directory. *)
Lemma host_del_unknown_host_cascades_witness :
  let w := Sample.world [] Sample.three_services in
  ∃ fuel w',
    host_del (env := Sample.env) object_class fuel ["h.example.com"] w
      = Some (Raise NotFound, w')
    ∧ ("HTTP/h.example.com@EXAMPLE.COM" ∉ services w')
    ∧ ("ldap/h.example.com@EXAMPLE.COM" ∉ services w')
    ∧ ("HTTP/other.example.com@EXAMPLE.COM" ∈ services w').
Proof.
  intros w.
  destruct (host_del_unknown_host_cascades (env := Sample.env) object_class
              ["h.example.com"] "h.example.com" w)
    as (fuel & w' & Hrun & _ & Hservices & _).
  - reflexivity.
  - vm_compute. reflexivity.
  - vm_compute. reflexivity.
  - vm_compute. reflexivity.
  - vm_compute. reflexivity.
  - apply (sample_search_reliable 2). lia.
  - apply (sample_search_complete 2).
  - exists fuel, w'. split; [apply Hrun; lia |]. split; [| split].
    + intros [_ Hnd]%Hservices. apply Hnd. vm_compute. reflexivity.
    + intros [_ Hnd]%Hservices. apply Hnd. vm_compute. reflexivity.
    + apply Hservices. split.
      * unfold w, Sample.three_services. simpl. set_solver.
      * vm_compute. discriminate.
Defined.

(** X24 on a page that names one service twice. *)
Lemma cascade_propagates_service_del_error_witness :
  let p := "HTTP/h.example.com@EXAMPLE.COM" in
  let env1 := Sample.env_with
    (Sample.scripted [([Sample.service_entry p; Sample.service_entry p], false)]) in
  let w := Sample.world [] Sample.three_services in
  ∃ w', cascade (env := env1) 1 "h.example.com" w = Some (Raise NotFound, w')
        ∧ services w' = services w ∖ {[p]}.
Proof.
  intros p env1 w.
  destruct (cascade_propagates_service_del_error (env := env1) 0 "h.example.com" w
              (Sample.service_entry p) (Sample.service_entry p) [] false p [] []
              "HTTP" "h.example.com" "EXAMPLE.COM")
    as (w' & Hrun & Hservices & _).
  - vm_compute. reflexivity.
  - vm_compute. reflexivity.
  - vm_compute. reflexivity.
  - vm_compute. reflexivity.
  - vm_compute. reflexivity.
  - apply (bool_decide_unpack _). vm_compute. exact I.
  - exists w'. split; [exact Hrun | exact Hservices].
Defined.

(** X25 on the add of "h.example.com" to an empty directory. *)
Lemma host_add_then_get_dn_witness :
  let w := Sample.world [] ∅ in
  let w' := (host_add (env := Sample.env) object_class true ["h.example.com"] ∅ w).2 in
  let shared' := (object_class ++ kerberos_markers)%list in
  (get_dn (env := Sample.env) shared' ["h.example.com"] w').1
  = Ok (Sample.make_dn ["h.example.com"]).
Proof.
  intros w w' shared'.
  destruct (host_add_then_get_dn (env := Sample.env) object_class
              shared' true ["h.example.com"] ∅ w w')
    as (key & e & _ & Hdn & _).
  - vm_compute. reflexivity.
  - by rewrite Hdn.
Defined.

(** X26 on the short name "h" after that add. *)
Lemma host_add_then_short_name_witness :
  let w := Sample.world [] ∅ in
  let w' := (host_add (env := Sample.env) object_class true ["h.example.com"] ∅ w).2 in
  let shared' := (object_class ++ kerberos_markers)%list in
  (get_dn (env := Sample.env) shared' ["h"] w').1
  = Ok (Sample.make_dn ["h.example.com"]).
Proof.
  intros w w' shared'.
  apply (host_add_then_short_name (env := Sample.env) object_class
           shared' true ["h.example.com"] "h.example.com" ∅ w w').
  - vm_compute. reflexivity.
  - reflexivity.
  - vm_compute. reflexivity.
  - vm_compute. reflexivity.
Defined.
